(** * Vector data-set readers of osbenchmark/utils/dataset.py

    A shallow embedding of the three [DataSet] implementations
    ([HDF5DataSet], [ParquetDataSet], [BigANNVectorDataSet]) and of the
    factory [get_data_set], followed by the properties of the readers.

    Python integers are [Z]; a method of a reader is a computation in a
    state-and-exception monad over the reader's attributes, so that the
    attributes left behind by a raised exception can be inspected; the
    one unbounded loop, in [ParquetDataSet._extract_vectors], runs on
    fuel. *)

From Stdlib Require Import ZArith Lia Strings.Byte Floats.SpecFloat.
From stdpp Require Import base list strings gmap.

Local Open Scope Z_scope.

(** ** Exceptions and the method monad *)

(** The exception classes the module raises or lets through. *)
Inductive exn : Type :=
| ConfigurationError (msg : string)          (* osbenchmark.utils.parse *)
| InvalidExtensionException (msg : string)   (* osbenchmark.exceptions *)
| PyException (msg : string)                 (* raise Exception(msg) *)
| StopIteration                              (* next() on an exhausted iterator *)
| OSError                                    (* the file cannot be opened or sought *)
| ValueError                                 (* an offset that does not fit the offset type *)
| KeyError                                   (* h5py: no such field *)
| StructError                                (* struct.unpack on a short buffer *)
| AttributeError                             (* attribute not set, or attribute of None *)
| TypeError.                                 (* arithmetic on None, call of None *)

Inductive result (A : Type) : Type :=
| Ok (a : A)
| Raise (e : exn).
Arguments Ok {A} a.
Arguments Raise {A} e.

(** A method over attributes [S]: the attributes after the call and
    either the returned value or the raised exception; [None] when the
    call has not finished within the fuel given to its loop. *)
Definition M (S A : Type) : Type := S -> option (S * result A).

Definition ret {S A} (a : A) : M S A := fun s => Some (s, Ok a).
Definition raise {S A} (e : exn) : M S A := fun s => Some (s, Raise e).
Definition bind {S A B} (m : M S A) (k : A -> M S B) : M S B :=
  fun s => match m s with
           | Some (s', Ok a) => k a s'
           | Some (s', Raise e) => Some (s', Raise e)
           | None => None
           end.
Definition get {S} : M S S := fun s => Some (s, Ok s).
Definition modify {S} (f : S -> S) : M S unit := fun s => Some (f s, Ok tt).
Definition lift {S A} (r : result A) : M S A := fun s => Some (s, r).

Notation "x <- c1 ;; c2" := (bind c1 (fun x => c2))
  (at level 100, c1 at next level, c2 at level 200, right associativity).
Notation "c1 ;; c2" := (bind c1 (fun _ => c2))
  (at level 100, c2 at level 200, right associativity).

(** ** Python sequences *)

(** [slice.indices] for a step of one: a negative bound counts from the
    end, and both bounds are clamped to the sequence. *)
Definition slice_index (n i : Z) : Z :=
  if i <? 0 then Z.max 0 (i + n) else Z.min i n.

(** [l[lo:hi]] *)
Definition py_slice {A} (l : list A) (lo hi : Z) : list A :=
  let n := Z.of_nat (length l) in
  let a := slice_index n lo in
  let b := slice_index n hi in
  take (Z.to_nat (b - a)) (drop (Z.to_nat a) l).

(** [l[lo:]] *)
Definition py_slice_from {A} (l : list A) (lo : Z) : list A :=
  drop (Z.to_nat (slice_index (Z.of_nat (length l)) lo)) l.

(** [len(l)] *)
Definition len {A} (l : list A) : Z := Z.of_nat (length l).

(** Truth value of a sized object: [bool(l)] is [len(l) != 0]. *)
Definition truthy {A} (l : list A) : bool :=
  match l with [] => false | _ => true end.

(** ** Context *)

Inductive Context : Type := INDEX | QUERY | NEIGHBORS.

(** ** DataSet

    The abstract base class: what every reader offers.  A reader with
    attributes [S] that returns batches of type [B]; [current] is the
    cursor attribute the three subclasses share. *)

Module DataSet.

Definition BEGINNING : Z := 0.

Class t (S B : Type) : Type := {
  read : Z -> M S (option B);
  seek : Z -> M S unit;
  size : M S Z;
  reset : M S unit;
  current : S -> Z
}.

End DataSet.

(** ** HDF5DataSet *)

Module HDF5DataSet.

Definition FORMAT_NAME : string := "hdf5".

Section Reader.
  (** The type of one row of an h5py data set. *)
Variable V : Type.

  (** An HDF5 file: its named data sets. *)
Abbreviation File := (gmap string (list V)).

  (** The files that exist, by path. *)
Variable fs : gmap string File.

Record t : Type := mk {
    dataset_path : string;
    context : string;
    current : Z;
    data : option (list V)
  }.

Definition set_current (v : Z) (s : t) : t :=
    mk (dataset_path s) (context s) v (data s).
Definition set_data (v : option (list V)) (s : t) : t :=
    mk (dataset_path s) (context s) (current s) v.

  (** [context] is [None] when the caller passes nothing (the default of
      [get_data_set]) or something that is not a member of the enum. *)
Definition parse_context (context : option Context) : result string :=
    match context with
    | Some NEIGHBORS => Ok "neighbors"
    | Some INDEX => Ok "train"
    | Some QUERY => Ok "test"
    | None => Raise (PyException "Unsupported context")
    end.

Definition __init__ (dataset_path : string) (context : option Context) : result t :=
    match parse_context context with
    | Ok c => Ok (mk dataset_path c DataSet.BEGINNING None)
    | Raise e => Raise e
    end.

  (** [h5py.File(path)]; the empty path names no file. *)
Definition h5py_File (path : string) : result File :=
    if String.eqb path EmptyString then Raise OSError
    else match fs !! path with
         | Some f => Ok f
         | None => Raise OSError
         end.

Definition _load : M t unit :=
    s <- get ;;
    match data s with
    | None =>
        file <- lift (h5py_File (dataset_path s)) ;;
        match file !! context s with
        | Some d => modify (set_data (Some d))
        | None => raise KeyError
        end
    | Some _ => ret tt
    end.

Definition size : M t Z :=
    _load ;;
    s <- get ;;
    match data s with
    | Some d => ret (len d)
    | None => raise AttributeError
    end.

Definition read (chunk_size : Z) : M t (option (list V)) :=
    _load ;;
    s <- get ;;
    sz <- size ;;
    if current s >=? sz then ret None
    else
      let end_offset := current s + chunk_size in
      sz1 <- size ;;
      end_offset <- (if end_offset >? sz1 then size else ret end_offset) ;;
      s <- get ;;
      match data s with
      | Some d =>
          let vectors := py_slice d (current s) end_offset in
          modify (set_current end_offset) ;;
          ret (Some vectors)
      | None => raise AttributeError
      end.

Definition seek (offset : Z) : M t unit :=
    if offset <? DataSet.BEGINNING
    then raise (PyException "Offset must be greater than or equal to 0")
    else
      sz <- size ;;
      if offset >=? sz
      then raise (PyException "Offset must be less than the data set size")
      else modify (set_current offset).

Definition reset : M t unit :=
    modify (set_current DataSet.BEGINNING).

End Reader.

End HDF5DataSet.

(** ** ParquetDataSet *)

Module ParquetDataSet.

Definition FORMAT_NAME : string := "parquet".
Definition DEFAULT_BATCH_SIZE : Z := 500.

Section Reader.
  (** The type of one value of the selected column (one vector). *)
Variable V : Type.

  (** A record batch of the one selected column: [batch[a:b][0].to_pandas()]
      are the values of rows [a..b) of the batch. *)
Abbreviation RecordBatch := (list V).

  (** [pq.ParquetFile]: the row count its metadata declares and the
      batches [iter_batches(batch_size, columns)] yields, in order. *)
Record ParquetFile : Type := mkFile {
    metadata_num_rows : Z;
    iter_batches : Z -> list string -> list RecordBatch
  }.

  (** The files that exist, by path. *)
Variable fs : gmap string ParquetFile.

Record t : Type := mk {
    dataset_path : string;
    file : option ParquetFile;
    column : string;
    current : Z;
    batch_iterator : option (list RecordBatch);   (* the batches still to come *)
    prev_batch : RecordBatch;
    file_batch_start : Z;
    file_batch_end : Z
  }.

Definition set_file (v : option ParquetFile) (s : t) : t :=
    mk (dataset_path s) v (column s) (current s) (batch_iterator s)
       (prev_batch s) (file_batch_start s) (file_batch_end s).
Definition set_current (v : Z) (s : t) : t :=
    mk (dataset_path s) (file s) (column s) v (batch_iterator s)
       (prev_batch s) (file_batch_start s) (file_batch_end s).
Definition set_batch_iterator (v : option (list RecordBatch)) (s : t) : t :=
    mk (dataset_path s) (file s) (column s) (current s) v
       (prev_batch s) (file_batch_start s) (file_batch_end s).
Definition set_prev_batch (v : RecordBatch) (s : t) : t :=
    mk (dataset_path s) (file s) (column s) (current s) (batch_iterator s)
       v (file_batch_start s) (file_batch_end s).
Definition set_file_batch_start (v : Z) (s : t) : t :=
    mk (dataset_path s) (file s) (column s) (current s) (batch_iterator s)
       (prev_batch s) v (file_batch_end s).
Definition set_file_batch_end (v : Z) (s : t) : t :=
    mk (dataset_path s) (file s) (column s) (current s) (batch_iterator s)
       (prev_batch s) (file_batch_start s) v.

  (** [column] is [None] when the caller passes nothing. *)
Definition __init__ (dataset_path : string) (column : option string) : result t :=
    if String.eqb dataset_path EmptyString
    then Raise (ConfigurationError "dataset path cannot be None or empty")
    else match column with
         | None | Some EmptyString =>
             Raise (ConfigurationError "dataset column name cannot be None or empty")
         | Some column => Ok (mk dataset_path None column DataSet.BEGINNING None [] 0 0)
         end.

  (** [next(self.batch_iterator)] *)
Definition next_batch : M t RecordBatch :=
    s <- get ;;
    match batch_iterator s with
    | None => raise TypeError
    | Some [] => raise StopIteration
    | Some (batch :: rest) =>
        modify (set_batch_iterator (Some rest)) ;;
        ret batch
    end.

Definition get_batch : M t RecordBatch :=
    s <- get ;;
    if truthy (prev_batch s) then ret (prev_batch s)
    else
      batch <- next_batch ;;
      s <- get ;;
      modify (set_file_batch_start (file_batch_end s)) ;;
      s <- get ;;
      modify (set_file_batch_end (file_batch_start s + len batch)) ;;
      ret batch.

  (** The [while True] loop of [_extract_vectors]; one unit of fuel for
      each pass through its body. *)
Fixpoint _extract_vectors_loop (fuel : nat) (start_offset end_offset : Z)
      (vectors : list V) : M t (list V) :=
    match fuel with
    | O => fun _ => None
    | S fuel =>
        batch <- get_batch ;;
        if negb (truthy batch) then ret vectors
        else
          let batch_length := len batch in
          s <- get ;;
          if start_offset >? file_batch_end s
          then _extract_vectors_loop fuel start_offset end_offset vectors
          else
            let start_offset :=
              if start_offset <? file_batch_start s
              then file_batch_start s else start_offset in
            let copy_begin_offset :=
              batch_length - (file_batch_end s - start_offset) in
            if end_offset <=? file_batch_end s
            then
              let copy_end_offset :=
                batch_length - (file_batch_end s - end_offset) in
              let vectors :=
                vectors ++ py_slice batch copy_begin_offset copy_end_offset in
              modify (set_prev_batch batch) ;;
              ret vectors
            else
              let vectors := vectors ++ py_slice_from batch copy_begin_offset in
              modify (set_prev_batch []) ;;
              _extract_vectors_loop fuel start_offset end_offset vectors
    end.

Definition _extract_vectors (fuel : nat) (start_offset end_offset : Z)
    : M t (list V) :=
    _extract_vectors_loop fuel start_offset end_offset [].

  (** [pq.ParquetFile(path)]; the empty path names no file. *)
Definition pq_ParquetFile (path : string) : result ParquetFile :=
    if String.eqb path EmptyString then Raise OSError
    else match fs !! path with
         | Some f => Ok f
         | None => Raise OSError
         end.

Definition _load : M t unit :=
    s <- get ;;
    match file s with
    | None =>
        f <- lift (pq_ParquetFile (dataset_path s)) ;;
        modify (set_file (Some f)) ;;
        modify (set_batch_iterator
                  (Some (iter_batches f DEFAULT_BATCH_SIZE [column s]))) ;;
        modify (set_prev_batch []) ;;
        modify (set_file_batch_start 0) ;;
        modify (set_file_batch_end 0)
    | Some _ => ret tt
    end.

Definition size : M t Z :=
    _load ;;
    s <- get ;;
    match file s with
    | Some f => ret (metadata_num_rows f)
    | None => raise AttributeError
    end.

Definition read (fuel : nat) (chunk_size : Z) : M t (option (list V)) :=
    _load ;;
    s <- get ;;
    sz <- size ;;
    if current s >=? sz then ret None
    else
      let end_offset := current s + chunk_size in
      sz1 <- size ;;
      end_offset <- (if end_offset >? sz1 then size else ret end_offset) ;;
      vectors <- _extract_vectors fuel (current s) end_offset ;;
      modify (set_current end_offset) ;;
      ret (Some vectors).

Definition seek (offset : Z) : M t unit :=
    if offset <? DataSet.BEGINNING
    then raise (PyException "Offset must be greater than or equal to 0")
    else
      sz <- size ;;
      if offset >=? sz
      then raise (PyException "Offset must be less than the data set size")
      else modify (set_current offset).

Definition reset : M t unit :=
    modify (set_current DataSet.BEGINNING) ;;
    modify (set_file None).

End Reader.

End ParquetDataSet.

(** ** Python floats, tuples and numpy arrays *)

(** A Python [float] is an IEEE-754 binary64 number. *)
Definition float_of_int (n : Z) : spec_float :=
  binary_normalize 53 1024 n 0 false.

(** The binary64 value of the binary32 number with the given 32 bits
    (the conversion is exact). *)
Definition float_of_binary32 (bits : Z) : spec_float :=
  let sign := Z.testbit bits 31 in
  let e := Z.land (Z.shiftr bits 23) 255 in
  let m := Z.land bits (Z.ones 23) in
  let signed (x : Z) := if sign then - x else x in
  if e =? 0 then
    if m =? 0 then S754_zero sign
    else binary_normalize 53 1024 (signed m) (-149) sign
  else if e =? 255 then
    if m =? 0 then S754_infinity sign else S754_nan
  else binary_normalize 53 1024 (signed (m + 2 ^ 23)) (e - 150) sign.

(** [int.from_bytes(bs, "little")] *)
Fixpoint int_from_bytes_little (bs : list byte) : Z :=
  match bs with
  | [] => 0
  | b :: bs => Z.of_N (Byte.to_N b) + 256 * int_from_bytes_little bs
  end.

(** A numpy array of floats: a scalar, or a sequence of arrays. *)
#[local] Unset Elimination Schemes.
Inductive ndarray : Type :=
| Scalar (x : spec_float)
| Array (items : list ndarray).

(** The Python values the value readers and [_read_vector] produce. *)
Inductive pyval : Type :=
| PyFloat (x : spec_float)
| PyTuple (items : list pyval)
| PyArray (a : ndarray).
#[local] Set Elimination Schemes.

Fixpoint to_ndarray (v : pyval) : ndarray :=
  match v with
  | PyFloat x => Scalar x
  | PyTuple items => Array (List.map to_ndarray items)
  | PyArray a => a
  end.

(** [np.asarray(xs)] of a list: every nested tuple or array becomes a
    further axis. *)
Definition np_asarray (xs : list pyval) : ndarray :=
  Array (List.map to_ndarray xs).

(** [a.shape], read along the first item of every axis. *)
Fixpoint shape (a : ndarray) : list Z :=
  match a with
  | Scalar _ => []
  | Array items =>
      len items :: match items with
                   | [] => []
                   | x :: _ => shape x
                   end
  end.

(** [struct.unpack('<f', bs)]: a tuple of one float. *)
Definition struct_unpack_f (bs : list byte) : result pyval :=
  if len bs =? 4
  then Ok (PyTuple [PyFloat (float_of_binary32 (int_from_bytes_little bs))])
  else Raise StructError.

(** [s.split('.')] *)
Fixpoint split_dot (s : string) : list string :=
  match s with
  | EmptyString => [EmptyString]
  | String c rest =>
      if Ascii.eqb c (Ascii.ascii_of_nat 46)
      then EmptyString :: split_dot rest
      else match split_dot rest with
           | h :: t => String c h :: t
           | [] => [String c EmptyString]
           end
  end.

(** [[f() for _ in range(n)]] *)
Fixpoint replicateM {S A} (n : nat) (m : M S A) : M S (list A) :=
  match n with
  | O => ret []
  | Datatypes.S n => x <- m ;; xs <- replicateM n m ;; ret (x :: xs)
  end.

(** ** Binary file objects *)

Record FileObj : Type := mkFileObj {
  content : list byte;
  position : Z
}.

(** [f.read(n)] *)
Definition f_read (n : Z) : M FileObj (list byte) :=
  fun f =>
    let bs := take (Z.to_nat n) (drop (Z.to_nat (position f)) (content f)) in
    Some (mkFileObj (content f) (position f + len bs), Ok bs).

(** The largest offset of a file, [2^63 - 1]: the file API takes its
    offsets in a signed 64-bit integer. *)
Definition MAX_OFFSET : Z := 9223372036854775807.

Definition fits_offset (offset : Z) : bool :=
  (- MAX_OFFSET - 1 <=? offset) && (offset <=? MAX_OFFSET).

(** [f.seek(offset)]: an offset that does not fit the offset type is a
    [ValueError]; a negative one is refused by the system. *)
Definition f_seek (offset : Z) : M FileObj unit :=
  if negb (fits_offset offset) then raise ValueError
  else if offset <? 0 then raise OSError
  else modify (fun f => mkFileObj (content f) offset).

(** [f.seek(offset, os.SEEK_END)]: the offset is checked as for
    [f.seek]; the position is then counted from the end of the file. *)
Definition f_seek_end (offset : Z) : M FileObj unit :=
  if negb (fits_offset offset) then raise ValueError
  else
    f <- get ;;
    let target := len (content f) + offset in
    if target <? 0 then raise OSError
    else modify (fun f => mkFileObj (content f) target).

(** [f.tell()] *)
Definition f_tell : M FileObj Z :=
  f <- get ;; ret (position f).

(** ** BigANNVectorDataSet *)

Module BigANNVectorDataSet.

Definition DATA_SET_HEADER_LENGTH : Z := 8.
Definition U8BIN_EXTENSION : string := "u8bin".
Definition FBIN_EXTENSION : string := "fbin".
Definition FORMAT_NAME : string := "bigann".
Definition SUPPORTED_EXTENSION : list string :=
  [FBIN_EXTENSION; U8BIN_EXTENSION].
Definition BYTES_PER_U8INT : Z := 1.
Definition BYTES_PER_FLOAT : Z := 4.

(** The two closures [_value_reader] returns. *)
Inductive value_reader : Type := u8_reader | f32_reader.

Definition call_reader (r : value_reader) : M FileObj pyval :=
  match r with
  | u8_reader =>
      bs <- f_read BYTES_PER_U8INT ;;
      ret (PyFloat (float_of_int (int_from_bytes_little bs)))
  | f32_reader =>
      bs <- f_read BYTES_PER_FLOAT ;;
      lift (struct_unpack_f bs)
  end.

Definition _get_extension (file_name : string) : result string :=
  let ext := default EmptyString (last (split_dot file_name)) in
  if negb (existsb (String.eqb ext) SUPPORTED_EXTENSION)
  then Raise (InvalidExtensionException
                ("Unknown extension :" +:+ ext +:+
                 ", supported extensions are: ['fbin', 'u8bin']"))
  else Ok ext.

(** Falls off its end, returning [None], for an extension that is
    neither of the two. *)
Definition _get_data_size (file_name : string) : result (option Z) :=
  match _get_extension file_name with
  | Raise e => Raise e
  | Ok ext =>
      if String.eqb ext U8BIN_EXTENSION then Ok (Some BYTES_PER_U8INT)
      else if String.eqb ext FBIN_EXTENSION then Ok (Some BYTES_PER_FLOAT)
      else Ok None
  end.

Definition _value_reader (file_name : string) : result (option value_reader) :=
  match _get_extension file_name with
  | Raise e => Raise e
  | Ok ext =>
      if String.eqb ext U8BIN_EXTENSION then Ok (Some u8_reader)
      else if String.eqb ext FBIN_EXTENSION then Ok (Some f32_reader)
      else Ok None
  end.

(** [a * b * c] where [c] may be [None]. *)
Definition mul_int (ab : Z) (c : option Z) : result Z :=
  match c with
  | Some c => Ok (ab * c)
  | None => Raise TypeError
  end.

Section Reader.
  (** The files that exist, by path, with their bytes. *)
Variable fs : gmap string (list byte).

Record t : Type := mk {
    dataset_path : string;
    file : option FileObj;
    current : Z;
    num_points : Z;
    dimension : Z;
    bytes_per_num : option Z;               (* an int, or None *)
    reader : option (option value_reader)   (* unset until initialised *)
  }.

Definition set_file (v : option FileObj) (s : t) : t :=
    mk (dataset_path s) v (current s) (num_points s) (dimension s)
       (bytes_per_num s) (reader s).
Definition set_current (v : Z) (s : t) : t :=
    mk (dataset_path s) (file s) v (num_points s) (dimension s)
       (bytes_per_num s) (reader s).
Definition set_num_points (v : Z) (s : t) : t :=
    mk (dataset_path s) (file s) (current s) v (dimension s)
       (bytes_per_num s) (reader s).
Definition set_dimension (v : Z) (s : t) : t :=
    mk (dataset_path s) (file s) (current s) (num_points s) v
       (bytes_per_num s) (reader s).
Definition set_bytes_per_num (v : option Z) (s : t) : t :=
    mk (dataset_path s) (file s) (current s) (num_points s) (dimension s)
       v (reader s).
Definition set_reader (v : option (option value_reader)) (s : t) : t :=
    mk (dataset_path s) (file s) (current s) (num_points s) (dimension s)
       (bytes_per_num s) v.

Definition __init__ (dataset_path : string) : t :=
    mk dataset_path None DataSet.BEGINNING 0 0 (Some 0) None.

  (** Run a file operation on [self.file]. *)
Definition with_file {A} (m : M FileObj A) : M t A :=
    fun s =>
      match file s with
      | None => Some (s, Raise AttributeError)
      | Some f =>
          match m f with
          | Some (f', r) => Some (set_file (Some f') s, r)
          | None => None
          end
      end.

  (** [open(path, 'rb')]; the empty path names no file. *)
Definition py_open (path : string) : result FileObj :=
    if String.eqb path EmptyString then Raise OSError
    else match fs !! path with
         | Some bytes => Ok (mkFileObj bytes 0)
         | None => Raise OSError
         end.

Definition _init_internal_params : M t unit :=
    s <- get ;;
    f <- lift (py_open (dataset_path s)) ;;
    modify (set_file (Some f)) ;;
    with_file (f_seek_end DataSet.BEGINNING) ;;
    num_bytes <- with_file f_tell ;;
    with_file (f_seek DataSet.BEGINNING) ;;
    if num_bytes <? DATA_SET_HEADER_LENGTH
    then raise (PyException "Invalid file: file size cannot be less than 8 bytes")
    else
      bs <- with_file (f_read 4) ;;
      modify (set_num_points (int_from_bytes_little bs)) ;;
      bs <- with_file (f_read 4) ;;
      modify (set_dimension (int_from_bytes_little bs)) ;;
      s <- get ;;
      size <- lift (_get_data_size (dataset_path s)) ;;
      modify (set_bytes_per_num size) ;;
      s <- get ;;
      expected <- lift (mul_int (num_points s * dimension s) (bytes_per_num s)) ;;
      if negb (num_bytes - DATA_SET_HEADER_LENGTH =? expected)
      then raise (PyException
        "Invalid file. File size is not matching with expected estimated value based on number of points, dimension and bytes per point")
      else
        r <- lift (_value_reader (dataset_path s)) ;;
        modify (set_reader (Some r)).

Definition _load : M t unit :=
    s <- get ;;
    match file s with
    | None => _init_internal_params
    | Some _ => ret tt
    end.

Definition size : M t Z :=
    _load ;;
    s <- get ;;
    ret (num_points s).

  (** [self.reader(self.file)] *)
Definition read_value : M t pyval :=
    s <- get ;;
    match reader s with
    | None => raise AttributeError
    | Some None => raise TypeError
    | Some (Some r) => with_file (call_reader r)
    end.

Definition _read_vector : M t ndarray :=
    s <- get ;;
    values <- replicateM (Z.to_nat (dimension s)) read_value ;;
    ret (np_asarray values).

Definition read (chunk_size : Z) : M t (option ndarray) :=
    _load ;;
    s <- get ;;
    sz <- size ;;
    if current s >=? sz then ret None
    else
      let end_offset := current s + chunk_size in
      sz1 <- size ;;
      end_offset <- (if end_offset >? sz1 then size else ret end_offset) ;;
      s <- get ;;
      vectors <- replicateM (Z.to_nat (end_offset - current s)) _read_vector ;;
      modify (set_current end_offset) ;;
      ret (Some (np_asarray (List.map PyArray vectors))).

Definition seek (offset : Z) : M t unit :=
    _load ;;
    if offset <? DataSet.BEGINNING
    then raise (PyException "Offset must be greater than or equal to 0")
    else
      sz <- size ;;
      if offset >=? sz
      then raise (PyException "Offset must be less than the data set size")
      else
        s <- get ;;
        scaled <- lift (mul_int (dimension s) (bytes_per_num s)) ;;
        let bytes_offset := DATA_SET_HEADER_LENGTH + scaled * offset in
        with_file (f_seek bytes_offset) ;;
        modify (set_current offset).

Definition reset : M t unit :=
    s <- get ;;
    (match file s with
     | Some _ => with_file (f_seek DATA_SET_HEADER_LENGTH)
     | None => ret tt
     end) ;;
    modify (set_current DataSet.BEGINNING).

End Reader.

End BigANNVectorDataSet.

(** ** The factory *)

Section Factory.
Variable V : Type.

  (** An instance of one of the three classes. *)
Inductive reader : Type :=
  | HDF5 (r : HDF5DataSet.t V)
  | BigANN (r : BigANNVectorDataSet.t)
  | Parquet (r : ParquetDataSet.t V).

Definition get_data_set (data_set_format path : string)
      (context : option Context) (column_name : option string) : result reader :=
    if String.eqb data_set_format HDF5DataSet.FORMAT_NAME then
      match HDF5DataSet.__init__ V path context with
      | Ok r => Ok (HDF5 r)
      | Raise e => Raise e
      end
    else if String.eqb data_set_format BigANNVectorDataSet.FORMAT_NAME then
      Ok (BigANN (BigANNVectorDataSet.__init__ path))
    else if String.eqb data_set_format ParquetDataSet.FORMAT_NAME then
      match ParquetDataSet.__init__ V path column_name with
      | Ok r => Ok (Parquet r)
      | Raise e => Raise e
      end
    else Raise (ConfigurationError "Invalid data set format").

End Factory.

(** ** The three readers as instances of the interface *)

#[export] Instance HDF5_DataSet (V : Type) (fs : gmap string (gmap string (list V)))
  : DataSet.t (HDF5DataSet.t V) (list V) := {|
  DataSet.read := HDF5DataSet.read V fs;
  DataSet.seek := HDF5DataSet.seek V fs;
  DataSet.size := HDF5DataSet.size V fs;
  DataSet.reset := HDF5DataSet.reset V;
  DataSet.current := HDF5DataSet.current V
|}.

#[export] Instance BigANN_DataSet (fs : gmap string (list byte))
  : DataSet.t BigANNVectorDataSet.t ndarray := {|
  DataSet.read := BigANNVectorDataSet.read fs;
  DataSet.seek := BigANNVectorDataSet.seek fs;
  DataSet.size := BigANNVectorDataSet.size fs;
  DataSet.reset := BigANNVectorDataSet.reset;
  DataSet.current := BigANNVectorDataSet.current
|}.

(** The Parquet reader, with the fuel its extraction loop runs on. *)
#[export] Instance Parquet_DataSet (V : Type)
    (fs : gmap string (ParquetDataSet.ParquetFile V)) (fuel : nat)
  : DataSet.t (ParquetDataSet.t V) (list V) := {|
  DataSet.read := ParquetDataSet.read V fs fuel;
  DataSet.seek := ParquetDataSet.seek V fs;
  DataSet.size := ParquetDataSet.size V fs;
  DataSet.reset := ParquetDataSet.reset V;
  DataSet.current := ParquetDataSet.current V
|}.

(** * Specification vocabulary *)

(** ** Outcomes *)

(** Which exceptions stand for the error kinds of the readers' contract. *)
Definition is_configuration_error (e : exn) : bool :=
  match e with ConfigurationError _ => true | _ => false end.


Definition is_format_error (e : exn) : bool :=
  match e with
  | InvalidExtensionException _ => true
  | PyException msg =>
      String.eqb msg "Invalid file: file size cannot be less than 8 bytes"
      || String.eqb msg "Invalid file. File size is not matching with expected estimated value based on number of points, dimension and bytes per point"
  | _ => false
  end.

(** The value a call returns, if it returns one, and the attributes it
    leaves behind. *)
Definition returned {S A} (m : M S A) (s : S) : option (result A) :=
  match m s with
  | Some (_, r) => Some r
  | None => None
  end.

Definition state_after {S A} (m : M S A) (s : S) : S :=
  match m s with
  | Some (s', _) => s'
  | None => s
  end.

(** The outcome of constructing a reader and then using it for the first
    time: the exception of the constructor, else whatever the first call
    raises. *)
Definition first_failure {S A} (made : result S) (first_use : M S A) : option exn :=
  match made with
  | Raise e => Some e
  | Ok r => match first_use r with
            | Some (_, Raise e) => Some e
            | _ => None
            end
  end.

(** Every run of [m] relates the attributes before to those after. *)
Definition preserves {S A} (R : S -> S -> Prop) (m : M S A) : Prop :=
  forall s s' r, m s = Some (s', r) -> R s s'.

(** ** Rows and batches *)

(** Rows [a..b) of a data set. *)
Definition rows_range {A} (rows : list A) (a b : Z) : list A :=
  take (Z.to_nat (b - a)) (drop (Z.to_nat a) rows).

(** What is left of a batch after discarding [offset] rows, cut to one
    row. *)
Definition first_row_after {A} (offset : Z) (rows : list A) : list A :=
  take 1 (drop (Z.to_nat offset) rows).

Definition first_vector_after (offset : Z) (a : ndarray) : ndarray :=
  match a with
  | Array items => Array (first_row_after offset items)
  | Scalar x => Scalar x
  end.


(** ** The contract of a reader *)



(** The byte [seek(offset)] of the BigANN reader moves its file to. *)
Definition bigann_byte_offset (s : BigANNVectorDataSet.t) (offset : Z) : Z :=
  BigANNVectorDataSet.DATA_SET_HEADER_LENGTH
  + BigANNVectorDataSet.dimension s
    * default 0 (BigANNVectorDataSet.bytes_per_num s) * offset.


(** [seek(offset)] and then [read(1)], in state [s], return what a
    reader that starts at the beginning ([fresh]) returns for all [n]
    rows, less the first [offset], cut to one. *)
Definition seek_read_agrees {S B} (D : DataSet.t S B)
    (first_after : Z -> B -> B) (n : Z) (fresh s : S) (offset : Z) : Prop :=
  exists all s0 s1 s2,
    DataSet.read n fresh = Some (s0, Ok (Some all))
    /\ DataSet.seek offset s = Some (s1, Ok tt)
    /\ DataSet.read 1 s1 = Some (s2, Ok (Some (first_after offset all))).

(** ** The HDF5 reader *)

Section HDF5ReadSpec.
Import HDF5DataSet.
Context {V : Type}.
Variable fs : gmap string (gmap string (list V)).
Implicit Types (s : t V) (d : list V).

(** The rows of the reader are [d]: loaded, or in the file to load. *)
Definition hdf5_rows s d : Prop :=
  data V s = Some d
  \/ (data V s = None
      /\ exists file, h5py_File V fs (dataset_path V s) = Ok file
                      /\ file !! context V s = Some d).

End HDF5ReadSpec.

(** ** The BigANN reader *)

(** The two header fields of a file with at least 8 bytes. *)
Definition header_num_points (bytes : list byte) : Z :=
  int_from_bytes_little (take 4 bytes).
Definition header_dimension (bytes : list byte) : Z :=
  int_from_bytes_little (take 4 (drop 4 bytes)).

(** The extension of a file name, the bytes of one value it stands
    for (1 for u8bin, 4 for fbin) and the value reader it selects. *)
Definition extension (file_name : string) : string :=
  default EmptyString (last (split_dot file_name)).
Definition bytes_per_value (ext : string) : Z :=
  if String.eqb ext "u8bin" then 1 else 4.
Definition supported (ext : string) : Prop := ext = "u8bin" \/ ext = "fbin".
Definition reader_for (ext : string) : BigANNVectorDataSet.value_reader :=
  if String.eqb ext "u8bin"
  then BigANNVectorDataSet.u8_reader else BigANNVectorDataSet.f32_reader.

(** A file the first access accepts; as any file, it has no more
    bytes than the largest offset. *)
Definition well_formed (path : string) (bytes : list byte) : Prop :=
  path <> EmptyString /\ 8 <= len bytes <= MAX_OFFSET /\ supported (extension path)
  /\ len bytes - 8
     = header_num_points bytes * header_dimension bytes
       * bytes_per_value (extension path).

(** The bytes of one value, the value a reader makes of them, and the
    values and vectors that lie in a file from a byte position on. *)
Definition value_size (r : BigANNVectorDataSet.value_reader) : Z :=
  match r with
  | BigANNVectorDataSet.u8_reader => 1
  | BigANNVectorDataSet.f32_reader => 4
  end.

Definition decode_value (r : BigANNVectorDataSet.value_reader) (bs : list byte) : pyval :=
  match r with
  | BigANNVectorDataSet.u8_reader => PyFloat (float_of_int (int_from_bytes_little bs))
  | BigANNVectorDataSet.f32_reader =>
      PyTuple [PyFloat (float_of_binary32 (int_from_bytes_little bs))]
  end.

Fixpoint values_at (r : BigANNVectorDataSet.value_reader) (bytes : list byte)
    (pos : Z) (k : nat) : list pyval :=
  match k with
  | O => []
  | S k =>
      decode_value r (take (Z.to_nat (value_size r)) (drop (Z.to_nat pos) bytes))
      :: values_at r bytes (pos + value_size r) k
  end.

Fixpoint vectors_at (r : BigANNVectorDataSet.value_reader) (bytes : list byte)
    (dim : Z) (pos : Z) (k : nat) : list ndarray :=
  match k with
  | O => []
  | S k =>
      np_asarray (values_at r bytes pos (Z.to_nat dim))
      :: vectors_at r bytes dim (pos + dim * value_size r) k
  end.

(** Vectors [a..b) of a file with the given dimension. *)
Definition vectors_range (r : BigANNVectorDataSet.value_reader) (bytes : list byte)
    (dim a b : Z) : list ndarray :=
  vectors_at r bytes dim (8 + dim * value_size r * a) (Z.to_nat (b - a)).

(** A method call, and the reader after it. *)
Inductive call : Type :=
| Read (chunk_size : Z)
| Seek (offset : Z)
| Size
| Reset.

Definition bigann_call (fs : gmap string (list byte)) (c : call)
    (s : BigANNVectorDataSet.t) : BigANNVectorDataSet.t :=
  match c with
  | Read n => state_after (BigANNVectorDataSet.read fs n) s
  | Seek k => state_after (BigANNVectorDataSet.seek fs k) s
  | Size => state_after (BigANNVectorDataSet.size fs) s
  | Reset => state_after BigANNVectorDataSet.reset s
  end.

(** A call within the precondition of [read]: no negative chunk size. *)
Definition valid_call (c : call) : Prop :=
  match c with
  | Read chunk_size => 0 <= chunk_size
  | _ => True
  end.

(** Once the file is open, it stays open and the header fields, the
    value size and the value reader stay as they are. *)
Definition header_kept (s s' : BigANNVectorDataSet.t) : Prop :=
  BigANNVectorDataSet.file s <> None ->
  BigANNVectorDataSet.file s' <> None
  /\ BigANNVectorDataSet.num_points s' = BigANNVectorDataSet.num_points s
  /\ BigANNVectorDataSet.dimension s' = BigANNVectorDataSet.dimension s
  /\ BigANNVectorDataSet.bytes_per_num s' = BigANNVectorDataSet.bytes_per_num s
  /\ BigANNVectorDataSet.reader s' = BigANNVectorDataSet.reader s.

(** The cursor is where it was. *)
Definition cursor_kept (s s' : BigANNVectorDataSet.t) : Prop :=
  BigANNVectorDataSet.current s' = BigANNVectorDataSet.current s.



Section BigANNReadSpec.
Import BigANNVectorDataSet.
Variable fs : gmap string (list byte).

(** The reader has the file open at the vector under its cursor. *)
Definition bigann_loaded (bytes : list byte) (s : t) : Prop :=
  let r := reader_for (extension (dataset_path s)) in
  file s = Some (mkFileObj bytes (8 + header_dimension bytes * value_size r * current s))
  /\ num_points s = header_num_points bytes
  /\ dimension s = header_dimension bytes
  /\ bytes_per_num s = Some (value_size r)
  /\ reader s = Some (Some r).

(** A reader of the well-formed file [bytes]: as constructed, or open. *)
Definition bigann_inv (bytes : list byte) (s : t) : Prop :=
  well_formed (dataset_path s) bytes
  /\ 0 <= current s <= header_num_points bytes
  /\ ((file s = None /\ current s = 0 /\ fs !! dataset_path s = Some bytes)
      \/ bigann_loaded bytes s).

End BigANNReadSpec.

(** ** The Parquet reader *)

(** The batches the iterator of a file yields for a column, the rows of
    the column, and a file whose declared row count is that of its
    batches, none of them empty. *)
Definition batches_of {V} (f : ParquetDataSet.ParquetFile V) (col : string) : list (list V) :=
  ParquetDataSet.iter_batches V f ParquetDataSet.DEFAULT_BATCH_SIZE [col].
Definition rows_of {V} (f : ParquetDataSet.ParquetFile V) (col : string) : list V :=
  concat (batches_of f col).
Definition consistent {V} (f : ParquetDataSet.ParquetFile V) (col : string) : Prop :=
  Forall (fun batch => batch <> []) (batches_of f col)
  /\ ParquetDataSet.metadata_num_rows V f = len (rows_of f col).

Section ParquetReadSpec.
Import ParquetDataSet.
Context {V : Type}.
Variable fs : gmap string (ParquetFile V).
Implicit Types (s : t V) (f : ParquetFile V) (batch cur : list V)
  (rest pre : list (list V)).

(** The batches are [pre ++ cur :: rest]; [cur] is held, with its window. *)
Definition holds (batches : list (list V)) s : Prop :=
  exists pre cur rest,
    batches = pre ++ cur :: rest /\ cur <> []
    /\ batch_iterator V s = Some rest /\ prev_batch V s = cur
    /\ file_batch_start V s = len (concat pre)
    /\ file_batch_end V s = len (concat pre) + len cur.

(** No batch has been pulled since the file was loaded. *)
Definition untouched (batches : list (list V)) s : Prop :=
  batch_iterator V s = Some batches /\ prev_batch V s = []
  /\ file_batch_end V s = 0.

(** The range starting at [x] can be extracted: nothing is held, or [x]
    lies in the window of the held batch. *)
Definition window_ok (batches : list (list V)) s (x : Z) : Prop :=
  untouched batches s
  \/ (holds batches s /\ file_batch_start V s <= x <= file_batch_end V s).

(** The attributes the extraction loop does not touch. *)
Definition same_reader s s' : Prop :=
  dataset_path V s' = dataset_path V s /\ file V s' = file V s
  /\ column V s' = column V s /\ current V s' = current V s.

(** A reader of the consistent file [f]: not loaded yet, or loaded with
    the iterator and window where the extraction loop leaves them. *)
Definition parquet_inv f s : Prop :=
  consistent f (column V s)
  /\ ((file V s = None /\ pq_ParquetFile V fs (dataset_path V s) = Ok f)
      \/ (file V s = Some f
          /\ (untouched (batches_of f (column V s)) s
              \/ holds (batches_of f (column V s)) s))).

(** The row [x] can be read next: the file is not loaded, or no batch
    is held, or [x] lies in the window of the held batch. *)
Definition in_window s (x : Z) : Prop :=
  file V s = None \/ prev_batch V s = []
  \/ file_batch_start V s <= x <= file_batch_end V s.

End ParquetReadSpec.

(** The values a run of [read] calls returns, one chunk size a call;
    [None] if a call raises or runs out of fuel. *)
Fixpoint read_chunks {V} (fs : gmap string (ParquetDataSet.ParquetFile V))
    (fuel : nat) (chunks : list Z) (s : ParquetDataSet.t V)
  : option (list (option (list V))) :=
  match chunks with
  | [] => Some []
  | chunk_size :: chunks =>
      match ParquetDataSet.read V fs fuel chunk_size s with
      | Some (s', Ok r) => cons r <$> read_chunks fs fuel chunks s'
      | _ => None
      end
  end.

(** The ranges such a run asks for, each starting where the one before
    ended, cut out of the rows; [None] once the rows are used up. *)
Fixpoint contiguous_ranges {A} (rows : list A) (cur : Z) (chunks : list Z)
  : list (option (list A)) :=
  match chunks with
  | [] => []
  | chunk_size :: chunks =>
      if cur >=? len rows then None :: contiguous_ranges rows cur chunks
      else
        let stop := Z.min (cur + chunk_size) (len rows) in
        Some (rows_range rows cur stop) :: contiguous_ranges rows stop chunks
  end.

(** ** Example files and readers *)

Module FbinExample.
Import BigANNVectorDataSet.

(** Header (2, 2), then 1.0, 2.0, 3.0, 4.0 as little-endian binary32. *)
Definition fbin_bytes : list byte :=
  [x02; x00; x00; x00;  x02; x00; x00; x00;
   x00; x00; x80; x3f;  x00; x00; x00; x40;
   x00; x00; x40; x40;  x00; x00; x80; x40].

(** The same four values, one unsigned byte each. *)
Definition u8bin_bytes : list byte :=
  [x02; x00; x00; x00;  x02; x00; x00; x00;  x01; x02; x03; x04].

(** The two files, and the fbin file with its last byte missing. *)
Definition files : gmap string (list byte) :=
  {[ "vectors.fbin" := fbin_bytes;
     "vectors.u8bin" := u8bin_bytes;
     "truncated.fbin" := take 23 fbin_bytes ]}.

Definition f (n : Z) : ndarray := Scalar (float_of_int n).

(** [[1.0, 2.0], [3.0, 4.0]] *)
Definition expected : ndarray := Array [Array [f 1; f 2]; Array [f 3; f 4]].

(** What [read(2)] returns, if anything. *)
Definition read2 (path : string) : option ndarray :=
  match read files 2 (__init__ path) with
  | Some (_, Ok (Some a)) => Some a
  | _ => None
  end.

(** The reader of the u8bin file with its file open, two vectors in. *)
Definition opened : t :=
  mk "vectors.u8bin" (Some (mkFileObj u8bin_bytes 12)) 2 2 2 (Some 1)
     (Some (Some u8_reader)).
End FbinExample.

Module HugeHeader.
Import BigANNVectorDataSet.

(** An fbin file of a header only, which declares [2^32 - 1] points of
    dimension [2^32 - 1]: the first access refuses it. *)
Definition bytes : list byte := [xff; xff; xff; xff;  xff; xff; xff; xff].
Definition files : gmap string (list byte) := {[ "huge.fbin" := bytes ]}.

(** The reader the refused first access leaves. *)
Definition refused : t := state_after (size files) (__init__ "huge.fbin").
End HugeHeader.

Module HDF5Example.
(** An HDF5 reader that has loaded its three rows and read two of them. *)
Definition loaded : HDF5DataSet.t Z :=
  HDF5DataSet.mk Z "vectors.hdf5" "train" 2 (Some [10; 20; 30]).
End HDF5Example.

Module SmallParquet.
(** A column of three rows in batches of two and one. *)
Definition batches : list (list Z) := [[1; 2]; [3]].
Definition pq : ParquetDataSet.ParquetFile Z :=
  ParquetDataSet.mkFile Z 3 (fun _ _ => batches).
Definition files : gmap string (ParquetDataSet.ParquetFile Z) :=
  {[ "vectors.parquet" := pq ]}.
Definition constructed : ParquetDataSet.t Z :=
  ParquetDataSet.mk Z "vectors.parquet" None "emb" DataSet.BEGINNING None [] 0 0.
(** The reader after [read(2)]: the first batch is held. *)
Definition used : ParquetDataSet.t Z :=
  ParquetDataSet.mk Z "vectors.parquet" (Some pq) "emb" 2 (Some [[3]]) [1; 2] 0 2.
End SmallParquet.

Module StitchExample.
Import ParquetDataSet.
(** Rows 0..1299 of a column, in batches of 500, 500 and 300. *)
Definition b1 : list Z := seqZ 0 500.
Definition b2 : list Z := seqZ 500 500.
Definition b3 : list Z := seqZ 1000 300.
Definition pq : ParquetFile Z := mkFile Z 1300 (fun _ _ => [b1; b2; b3]).
Definition files : gmap string (ParquetFile Z) := {[ "vectors.parquet" := pq ]}.
Definition constructed : t Z :=
  mk Z "vectors.parquet" None "emb" DataSet.BEGINNING None [] 0 0.

(** The reader after [read(600)], which leaves the second batch held
    with the window [500, 1000), and then after [seek(10)] and after
    [seek(100)]. *)
Definition advanced : t Z := state_after (read Z files 4 600) constructed.
Definition at_10 : t Z := state_after (seek Z files 10) advanced.
Definition at_100 : t Z := state_after (seek Z files 100) advanced.

(** The reader after [read(450)], which leaves the first batch held with
    the window [0, 500), and then [seek(600)]. *)
Definition at_600 : t Z :=
  state_after (seek Z files 600) (state_after (read Z files 4 450) constructed).
End StitchExample.

(** ** Vocabulary of the further properties *)

(** The name of the HDF5 data set a context stands for. *)
Definition data_set_name (context : Context) : string :=
  match context with
  | INDEX => "train"
  | QUERY => "test"
  | NEIGHBORS => "neighbors"
  end.

(** Once [read] has returned [None], it goes on returning [None] and
    leaves the reader as it is. *)
Definition eof_sticky {S B} (D : DataSet.t S B) : Prop :=
  forall s s' chunk_size,
    DataSet.read chunk_size s = Some (s', Ok None) ->
    DataSet.current s' = DataSet.current s
    /\ forall chunk_size', DataSet.read chunk_size' s' = Some (s', Ok None).

(** A second [size()] returns what the first returned and changes
    nothing; the first does not move the cursor. *)
Definition size_repeatable {S B} (D : DataSet.t S B) : Prop :=
  forall s s1 n,
    DataSet.size s = Some (s1, Ok n) ->
    DataSet.size s1 = Some (s1, Ok n)
    /\ DataSet.current s1 = DataSet.current s.

(** The values a run of [read] calls returns through the interface, one
    chunk size a call; [None] if a call raises or does not finish. *)
Fixpoint read_run {S B} (D : DataSet.t S B) (chunks : list Z) (s : S)
  : option (list (option B)) :=
  match chunks with
  | [] => Some []
  | chunk_size :: chunks =>
      match DataSet.read chunk_size s with
      | Some (s', Ok r) => cons r <$> read_run D chunks s'
      | _ => None
      end
  end.

(** The rows of the batches a run returned, in the order returned;
    [items] are the rows of one batch. *)
Definition rows_read {B A} (items : B -> list A) (results : list (option B)) : list A :=
  concat (omap (fmap items) results).

(** The rows asked for in all. *)
Definition total (chunks : list Z) : Z := foldr Z.add 0 chunks.

(** The vectors of an array of vectors. *)
Definition array_items (a : ndarray) : list ndarray :=
  match a with
  | Array items => items
  | Scalar _ => []
  end.

(** A BigANN reader that has the file [bytes] open, at any byte, with
    the header fields and the value reader of the file, and its cursor
    anywhere. *)
Definition bigann_opened (bytes : list byte) (s : BigANNVectorDataSet.t) : Prop :=
  (exists pos, BigANNVectorDataSet.file s = Some (mkFileObj bytes pos))
  /\ BigANNVectorDataSet.num_points s = header_num_points bytes
  /\ BigANNVectorDataSet.dimension s = header_dimension bytes
  /\ BigANNVectorDataSet.reader s
     = Some (Some (reader_for (extension (BigANNVectorDataSet.dataset_path s)))).

(** Whether a string contains a dot. *)
Fixpoint has_dot (s : string) : bool :=
  match s with
  | EmptyString => false
  | String c rest => Ascii.eqb c (Ascii.ascii_of_nat 46) || has_dot rest
  end.

(** A method call through the interface, and the reader after it (the
    reader as it was, if the call does not finish). *)
Definition run_call {S B} (D : DataSet.t S B) (c : call) (s : S) : S :=
  match c with
  | Read chunk_size => state_after (DataSet.read chunk_size) s
  | Seek offset => state_after (DataSet.seek offset) s
  | Size => state_after DataSet.size s
  | Reset => state_after DataSet.reset s
  end.

(** What every call keeps of a Parquet reader of the file [f] at [path]:
    the path and the column, the file it has open, if any, and a cursor
    within the rows the file declares. *)
Definition parquet_cursor_inv {V} (fs : gmap string (ParquetDataSet.ParquetFile V))
    (path col : string) (f : ParquetDataSet.ParquetFile V)
    (s : ParquetDataSet.t V) : Prop :=
  ParquetDataSet.dataset_path V s = path /\ ParquetDataSet.column V s = col
  /\ ParquetDataSet.pq_ParquetFile V fs path = Ok f
  /\ (ParquetDataSet.file V s = None \/ ParquetDataSet.file V s = Some f)
  /\ 0 <= ParquetDataSet.current V s <= ParquetDataSet.metadata_num_rows V f.

(** The integer a float is equal to, if it is equal to one. *)
Definition float_value (x : spec_float) : option Z :=
  match x with
  | S754_zero _ => Some 0
  | S754_finite sign m e =>
      let signed (n : Z) := if sign then - n else n in
      if 0 <=? e then Some (signed (Z.pos m * 2 ^ e))
      else if Z.pos m mod 2 ^ (- e) =? 0 then Some (signed (Z.pos m / 2 ^ (- e)))
      else None
  | _ => None
  end.

(** * Properties *)

(** ** Running methods *)

Lemma bind_ok {S A B} (m : M S A) (k : A -> M S B) s s' a :
  m s = Some (s', Ok a) -> bind m k s = k a s'.
Proof. intros H. unfold bind. now rewrite H. Qed.

Lemma bind_raise {S A B} (m : M S A) (k : A -> M S B) s s' e :
  m s = Some (s', Raise e) -> bind m k s = Some (s', Raise e).
Proof. intros H. unfold bind. now rewrite H. Qed.

Lemma bind_timeout {S A B} (m : M S A) (k : A -> M S B) s :
  m s = None -> bind m k s = None.
Proof. intros H. unfold bind. now rewrite H. Qed.

Lemma bind_get {S B} (k : S -> M S B) s : bind get k s = k s s.
Proof. reflexivity. Qed.

Lemma bind_modify {S B} (f : S -> S) (k : unit -> M S B) s :
  bind (modify f) k s = k tt (f s).
Proof. reflexivity. Qed.

Lemma bind_ret {S A B} (a : A) (k : A -> M S B) s : bind (ret a) k s = k a s.
Proof. reflexivity. Qed.

(** ** C1: decoding an fbin file *)

(** C1 (the code departs from the specification): on the fbin file with header
    (2, 2) and the values 1.0, 2.0, 3.0, 4.0, [read(2)] returns an array
    of shape (2, 2, 1) whose every component is a one-element sequence,
    because [struct.unpack] returns a tuple; it is not
    [[1.0, 2.0], [3.0, 4.0]].  The u8bin reader, on the same values,
    returns that batch of scalars. *)
Theorem fbin_read_wraps_each_component :
  FbinExample.read2 "vectors.fbin"
    = Some (Array [Array [Array [FbinExample.f 1]; Array [FbinExample.f 2]];
                   Array [Array [FbinExample.f 3]; Array [FbinExample.f 4]]])
  /\ (shape <$> FbinExample.read2 "vectors.fbin") = Some [2; 2; 1]
  /\ FbinExample.read2 "vectors.fbin" <> Some FbinExample.expected
  /\ FbinExample.read2 "vectors.u8bin" = Some FbinExample.expected.
Proof.
  assert (H : FbinExample.read2 "vectors.fbin"
    = Some (Array [Array [Array [FbinExample.f 1]; Array [FbinExample.f 2]];
                   Array [Array [FbinExample.f 3]; Array [FbinExample.f 4]]]))
    by (vm_compute; reflexivity).
  split; [exact H|]. split; [now rewrite H|].
  split; [rewrite H; intros E; discriminate E|].
  vm_compute. reflexivity.
Qed.

(** ** C9: construction parameters *)

(** C9 (counterexample): an unrecognised context given to the HDF5 reader
    raises a plain [Exception], and an empty path given to the BigANN
    reader passes construction and fails at first use in [open]: neither
    is a [ConfigurationError]. *)
Lemma invalid_parameter_without_configuration_error :
  (HDF5DataSet.__init__ (list Z) "vectors.hdf5" None
     = Raise (PyException "Unsupported context")
   /\ is_configuration_error (PyException "Unsupported context") = false)
  /\ (first_failure (Ok (BigANNVectorDataSet.__init__ EmptyString))
        (BigANNVectorDataSet.read ∅ 1) = Some OSError
      /\ is_configuration_error OSError = false).
Proof. repeat split; reflexivity. Qed.

(** C9 (amended): an unrecognised format name, and an empty path or an
    empty or missing column of the Parquet reader, raise a
    [ConfigurationError] at construction; an unrecognised context of the
    HDF5 reader raises [Exception("Unsupported context")] at
    construction; the HDF5 and BigANN readers accept an empty path at
    construction, and their first [read], [seek] or [size] fails with the
    error of opening the file. *)
Theorem construction_parameter_errors :
  (forall (V : Type) fmt path ctx col,
      fmt <> HDF5DataSet.FORMAT_NAME ->
      fmt <> BigANNVectorDataSet.FORMAT_NAME ->
      fmt <> ParquetDataSet.FORMAT_NAME ->
      get_data_set V fmt path ctx col
        = Raise (ConfigurationError "Invalid data set format"))
  /\ (forall (V : Type) ctx col,
      get_data_set V ParquetDataSet.FORMAT_NAME EmptyString ctx col
        = Raise (ConfigurationError "dataset path cannot be None or empty"))
  /\ (forall (V : Type) path ctx col,
      path <> EmptyString -> col = None \/ col = Some EmptyString ->
      get_data_set V ParquetDataSet.FORMAT_NAME path ctx col
        = Raise (ConfigurationError "dataset column name cannot be None or empty"))
  /\ (forall (V : Type) path col,
      get_data_set V HDF5DataSet.FORMAT_NAME path None col
        = Raise (PyException "Unsupported context"))
  /\ (forall (V : Type) fs ctx col n (k : nat),
      exists r,
        get_data_set V HDF5DataSet.FORMAT_NAME EmptyString (Some ctx) col
          = Ok (HDF5 V r)
        /\ HDF5DataSet.read V fs n r = Some (r, Raise OSError)
        /\ HDF5DataSet.seek V fs (Z.of_nat k) r = Some (r, Raise OSError)
        /\ HDF5DataSet.size V fs r = Some (r, Raise OSError))
  /\ (forall (V : Type) fs ctx col n,
      exists r,
        get_data_set V BigANNVectorDataSet.FORMAT_NAME EmptyString ctx col
          = Ok (BigANN V r)
        /\ BigANNVectorDataSet.read fs n r = Some (r, Raise OSError)
        /\ BigANNVectorDataSet.seek fs n r = Some (r, Raise OSError)
        /\ BigANNVectorDataSet.size fs r = Some (r, Raise OSError)).
Proof.
  split; [|split; [|split; [|split; [|split]]]].
  - intros V fmt path ctx col H1 H2 H3. unfold get_data_set.
    apply String.eqb_neq in H1, H2, H3. now rewrite H1, H2, H3.
  - reflexivity.
  - intros V path ctx col Hp Hc. unfold get_data_set. simpl.
    unfold ParquetDataSet.__init__. apply String.eqb_neq in Hp. rewrite Hp.
    now destruct Hc as [-> | ->].
  - reflexivity.
  - intros V fs ctx col n k. destruct ctx; eexists; (split; [reflexivity|]).
    all: split; [reflexivity|split; [|reflexivity]].
    all: unfold HDF5DataSet.seek;
      destruct (Z.ltb_spec (Z.of_nat k) DataSet.BEGINNING) as [Hk|Hk];
      [unfold DataSet.BEGINNING in Hk; lia | reflexivity].
  - intros V fs ctx col n. eexists. split; [reflexivity|].
    split; [reflexivity|]. split; reflexivity.
Qed.

Lemma construction_parameter_errors_witness :
  get_data_set (list Z) "csv" "vectors.csv" (Some INDEX) None
    = Raise (ConfigurationError "Invalid data set format")
  /\ get_data_set (list Z) "parquet" "vectors.parquet" None (Some EmptyString)
    = Raise (ConfigurationError "dataset column name cannot be None or empty").
Proof.
  split.
  - apply (proj1 construction_parameter_errors); vm_compute; discriminate.
  - apply (proj1 (proj2 (proj2 construction_parameter_errors))).
    + vm_compute; discriminate.
    + right; reflexivity.
Defined.

(** ** C6: reset *)

(** C6 (counterexample): [reset] of a loaded HDF5 reader keeps the loaded
    data set, and [reset] of an open BigANN reader keeps the open file:
    the cached state is not invalidated. *)
Lemma reset_keeps_the_open_file :
  (exists s', HDF5DataSet.reset Z HDF5Example.loaded = Some (s', Ok tt)
     /\ HDF5DataSet.data Z s' = Some [10; 20; 30])
  /\ (exists s', BigANNVectorDataSet.reset FbinExample.opened = Some (s', Ok tt)
     /\ BigANNVectorDataSet.file s'
          = Some (mkFileObj FbinExample.u8bin_bytes 8)).
Proof. split; eexists; split; reflexivity. Qed.

(** C6 (amended): in any state [reset] sets the cursor to 0.  The Parquet
    reader also drops its file, so that the next access opens the file
    again and starts its batch iterator and window from the beginning;
    the HDF5 reader keeps its loaded data set, and the BigANN reader
    keeps its open file, moved to byte 8, and its header fields. *)
Theorem reset_rewinds :
  (forall (V : Type) (s : HDF5DataSet.t V),
      exists s', HDF5DataSet.reset V s = Some (s', Ok tt)
        /\ HDF5DataSet.current V s' = 0
        /\ HDF5DataSet.data V s' = HDF5DataSet.data V s)
  /\ (forall (s : BigANNVectorDataSet.t),
      exists s', BigANNVectorDataSet.reset s = Some (s', Ok tt)
        /\ BigANNVectorDataSet.current s' = 0
        /\ BigANNVectorDataSet.file s'
             = (fun f => mkFileObj (content f) 8) <$> BigANNVectorDataSet.file s
        /\ BigANNVectorDataSet.num_points s' = BigANNVectorDataSet.num_points s
        /\ BigANNVectorDataSet.dimension s' = BigANNVectorDataSet.dimension s
        /\ BigANNVectorDataSet.bytes_per_num s' = BigANNVectorDataSet.bytes_per_num s
        /\ BigANNVectorDataSet.reader s' = BigANNVectorDataSet.reader s)
  /\ (forall (V : Type) (fs : gmap string (ParquetDataSet.ParquetFile V))
        (s : ParquetDataSet.t V),
      exists s', ParquetDataSet.reset V s = Some (s', Ok tt)
        /\ ParquetDataSet.current V s' = 0
        /\ ParquetDataSet.file V s' = None
        /\ forall f,
             ParquetDataSet.pq_ParquetFile V fs (ParquetDataSet.dataset_path V s) = Ok f ->
             ParquetDataSet._load V fs s'
             = Some (ParquetDataSet.mk V (ParquetDataSet.dataset_path V s) (Some f)
                       (ParquetDataSet.column V s) 0
                       (Some (ParquetDataSet.iter_batches V f
                                ParquetDataSet.DEFAULT_BATCH_SIZE
                                [ParquetDataSet.column V s]))
                       [] 0 0, Ok tt)).
Proof.
  split; [|split].
  - intros V s. eexists. split; [reflexivity|]. split; reflexivity.
  - intros s. unfold BigANNVectorDataSet.reset. rewrite bind_get.
    destruct s as [p [f|] c n d b r]; simpl.
    + unfold bind, BigANNVectorDataSet.with_file; simpl.
      eexists. split; [reflexivity|]. repeat split; reflexivity.
    + eexists. split; [reflexivity|]. repeat split; reflexivity.
  - intros V fs s. eexists. split; [reflexivity|].
    split; [reflexivity|]. split; [reflexivity|].
    intros f Hf. unfold ParquetDataSet._load. rewrite bind_get. simpl.
    unfold bind, lift. now rewrite Hf.
Qed.

Lemma reset_rewinds_witness :
  exists s', ParquetDataSet.reset Z SmallParquet.used = Some (s', Ok tt)
    /\ ParquetDataSet._load Z SmallParquet.files s'
       = Some (ParquetDataSet.mk Z "vectors.parquet" (Some SmallParquet.pq) "emb" 0
                 (Some SmallParquet.batches) [] 0 0, Ok tt).
Proof.
  destruct (proj2 (proj2 reset_rewinds) Z SmallParquet.files SmallParquet.used)
    as (s' & Hr & _ & _ & Hl).
  exists s'. split; [exact Hr|].
  apply (Hl SmallParquet.pq). reflexivity.
Defined.

(** ** Size and seek of the HDF5 and Parquet readers *)

Ltac run := cbv [bind ret raise get modify lift] in *.



Lemma hdf5_seek_cases (V : Type) fs (s s1 : HDF5DataSet.t V) n offset :
  HDF5DataSet.size V fs s = Some (s1, Ok n) ->
  HDF5DataSet.seek V fs offset s =
    if offset <? 0
    then Some (s, Raise (PyException "Offset must be greater than or equal to 0"))
    else if offset >=? n
    then Some (s1, Raise (PyException "Offset must be less than the data set size"))
    else Some (HDF5DataSet.set_current V offset s1, Ok tt).
Proof.
  intros Hs. unfold HDF5DataSet.seek, DataSet.BEGINNING.
  destruct (offset <? 0); [reflexivity|].
  rewrite (bind_ok _ _ _ _ _ Hs). now destruct (offset >=? n).
Qed.

Lemma parquet_seek_cases (V : Type) fs (s s1 : ParquetDataSet.t V) n offset :
  ParquetDataSet.size V fs s = Some (s1, Ok n) ->
  ParquetDataSet.seek V fs offset s =
    if offset <? 0
    then Some (s, Raise (PyException "Offset must be greater than or equal to 0"))
    else if offset >=? n
    then Some (s1, Raise (PyException "Offset must be less than the data set size"))
    else Some (ParquetDataSet.set_current V offset s1, Ok tt).
Proof.
  intros Hs. unfold ParquetDataSet.seek, DataSet.BEGINNING.
  destruct (offset <? 0); [reflexivity|].
  rewrite (bind_ok _ _ _ _ _ Hs). now destruct (offset >=? n).
Qed.

(** ** File objects *)

Lemma len_nonneg {A} (l : list A) : 0 <= len l.
Proof. unfold len. lia. Qed.

Lemma fits_offset_spec offset :
  fits_offset offset = true <-> - MAX_OFFSET - 1 <= offset <= MAX_OFFSET.
Proof. unfold fits_offset. rewrite andb_true_iff, !Z.leb_le. tauto. Qed.

Lemma f_seek_ok offset f :
  0 <= offset <= MAX_OFFSET ->
  f_seek offset f = Some (mkFileObj (content f) offset, Ok tt).
Proof.
  intros H. unfold f_seek.
  rewrite (proj2 (fits_offset_spec offset)) by (unfold MAX_OFFSET in *; lia).
  cbn [negb]. destruct (Z.ltb_spec offset 0); [lia|reflexivity].
Qed.


Lemma f_seek_end_ok bytes pos :
  f_seek_end 0 (mkFileObj bytes pos) = Some (mkFileObj bytes (len bytes), Ok tt).
Proof.
  unfold f_seek_end. change (negb (fits_offset 0)) with false. cbv iota.
  rewrite bind_get. cbn [content]. rewrite Z.add_0_r.
  destruct (Z.ltb_spec (len bytes) 0); [pose proof (len_nonneg bytes); lia|reflexivity].
Qed.

Lemma f_read_ok n bytes pos :
  0 <= pos -> 0 <= n -> pos + n <= len bytes ->
  f_read n (mkFileObj bytes pos)
    = Some (mkFileObj bytes (pos + n),
            Ok (take (Z.to_nat n) (drop (Z.to_nat pos) bytes))).
Proof.
  intros Hp Hn Hl. unfold f_read. cbn [content position].
  do 3 f_equal. unfold len in *. rewrite length_take, length_drop. lia.
Qed.

Lemma int_from_bytes_little_nonneg bs : 0 <= int_from_bytes_little bs.
Proof. induction bs as [|b bs IH]; simpl; lia. Qed.

(** ** The BigANN reader: initialisation *)

Ltac bigann_attrs :=
  cbn [BigANNVectorDataSet.set_file BigANNVectorDataSet.set_current
       BigANNVectorDataSet.set_num_points BigANNVectorDataSet.set_dimension
       BigANNVectorDataSet.set_bytes_per_num BigANNVectorDataSet.set_reader
       BigANNVectorDataSet.dataset_path BigANNVectorDataSet.file
       BigANNVectorDataSet.current BigANNVectorDataSet.num_points
       BigANNVectorDataSet.dimension BigANNVectorDataSet.bytes_per_num
       BigANNVectorDataSet.reader] in *.

Section BigANNInit.
Import BigANNVectorDataSet.
Variable fs : gmap string (list byte).

Lemma with_file_eq {A} (m : M FileObj A) p f c n d b r f' x :
  m f = Some (f', x) ->
  with_file m (mk p (Some f) c n d b r) = Some (mk p (Some f') c n d b r, x).
Proof. intros H. unfold with_file. cbn [file]. now rewrite H. Qed.

Lemma bigann_init_eq p f c n d b r bytes :
  py_open fs p = Ok (mkFileObj bytes 0) ->
  _init_internal_params fs (mk p f c n d b r) =
    if len bytes <? 8
    then Some (mk p (Some (mkFileObj bytes 0)) c n d b r,
               Raise (PyException "Invalid file: file size cannot be less than 8 bytes"))
    else
      let np := header_num_points bytes in
      let dim := header_dimension bytes in
      let opened := Some (mkFileObj bytes 8) in
      match _get_data_size p with
      | Raise e => Some (mk p opened c np dim b r, Raise e)
      | Ok None => Some (mk p opened c np dim None r, Raise TypeError)
      | Ok (Some bpv) =>
          if negb (len bytes - 8 =? np * dim * bpv)
          then Some (mk p opened c np dim (Some bpv) r,
                     Raise (PyException "Invalid file. File size is not matching with expected estimated value based on number of points, dimension and bytes per point"))
          else match _value_reader p with
               | Raise e => Some (mk p opened c np dim (Some bpv) r, Raise e)
               | Ok rd => Some (mk p opened c np dim (Some bpv) (Some rd), Ok tt)
               end
      end.
Proof.
  intros Ho. unfold _init_internal_params.
  rewrite bind_get. bigann_attrs. rewrite Ho.
  unfold lift at 1. unfold bind at 1. rewrite bind_modify. bigann_attrs.
  erewrite bind_ok by (apply with_file_eq, f_seek_end_ok).
  erewrite bind_ok by (apply with_file_eq; reflexivity).
  erewrite bind_ok by (apply with_file_eq, f_seek_ok; unfold DataSet.BEGINNING, MAX_OFFSET; lia).
  cbn [content position]. unfold DATA_SET_HEADER_LENGTH, DataSet.BEGINNING.
  destruct (Z.ltb_spec (len bytes) 8) as [Hl|Hl]; [reflexivity|].
  erewrite bind_ok by (apply with_file_eq, f_read_ok; lia).
  rewrite bind_modify. bigann_attrs.
  erewrite bind_ok by (apply with_file_eq, f_read_ok; lia).
  rewrite bind_modify, bind_get. bigann_attrs.
  change (Z.to_nat (0 + 4)) with 4%nat. change (Z.to_nat 4) with 4%nat.
  change (Z.to_nat 0) with 0%nat. rewrite drop_0.
  fold (header_num_points bytes). fold (header_dimension bytes).
  change (0 + 4 + 4) with 8.
  destruct (_get_data_size p) as [[bpv|]|e]; unfold lift at 1; unfold bind at 1;
    [| |reflexivity].
  - rewrite bind_modify, bind_get. bigann_attrs. unfold mul_int, lift at 1, bind at 1.
    destruct (negb _); [reflexivity|].
    destruct (_value_reader p); unfold lift, bind, modify; reflexivity.
  - rewrite bind_modify, bind_get. bigann_attrs. reflexivity.
Qed.

(** What the extension decides. *)
Lemma get_extension_cases p :
  (extension p = "u8bin" /\ _get_extension p = Ok "u8bin")
  \/ (extension p = "fbin" /\ _get_extension p = Ok "fbin")
  \/ (~ supported (extension p) /\ exists msg,
        _get_extension p = Raise (InvalidExtensionException msg)).
Proof.
  unfold _get_extension. fold (extension p).
  unfold SUPPORTED_EXTENSION, FBIN_EXTENSION, U8BIN_EXTENSION. cbn [existsb].
  destruct (String.eqb_spec (extension p) "fbin") as [E|E].
  - right; left. rewrite E. split; reflexivity.
  - destruct (String.eqb_spec (extension p) "u8bin") as [E'|E'].
    + left. rewrite E'. split; reflexivity.
    + right; right. split; [intros [?|?]; congruence|]. cbn. eauto.
Qed.

Lemma get_data_size_cases p :
  (extension p = "u8bin" /\ _get_data_size p = Ok (Some 1)
     /\ _value_reader p = Ok (Some u8_reader))
  \/ (extension p = "fbin" /\ _get_data_size p = Ok (Some 4)
     /\ _value_reader p = Ok (Some f32_reader))
  \/ (~ supported (extension p) /\ exists msg,
        _get_data_size p = Raise (InvalidExtensionException msg)).
Proof.
  unfold _get_data_size, _value_reader.
  destruct (get_extension_cases p) as [[E ->]|[[E ->]|[E [msg ->]]]].
  - left. repeat split; [exact E|reflexivity..].
  - right; left. repeat split; [exact E|reflexivity..].
  - right; right. split; [exact E|]. eauto.
Qed.

End BigANNInit.

(** ** What a method leaves unchanged *)

Section Preserves.
Context {S : Type} (R : S -> S -> Prop).
Hypothesis R_refl : forall s, R s s.
Hypothesis R_trans : forall s1 s2 s3, R s1 s2 -> R s2 s3 -> R s1 s3.

Lemma preserves_ret {A} (a : A) : preserves R (ret a).
Proof. intros s s' r H. inversion H. apply R_refl. Qed.

Lemma preserves_raise {A} e : preserves R (@raise S A e).
Proof. intros s s' r H. inversion H. apply R_refl. Qed.

Lemma preserves_lift {A} (x : result A) : preserves R (lift x).
Proof. intros s s' r H. inversion H. apply R_refl. Qed.

Lemma preserves_get : preserves R get.
Proof. intros s s' r H. inversion H. apply R_refl. Qed.

Lemma preserves_bind {A B} (m : M S A) (k : A -> M S B) :
  preserves R m -> (forall a, preserves R (k a)) -> preserves R (bind m k).
Proof.
  intros Hm Hk s s' r. unfold bind.
  destruct (m s) as [[s1 [a|e]]|] eqn:E; [| |discriminate].
  - intros H. eapply R_trans; [eapply Hm, E|eapply Hk, H].
  - intros H. inversion H; subst. eapply Hm, E.
Qed.

Lemma preserves_if {A} (b : bool) (m1 m2 : M S A) :
  preserves R m1 -> preserves R m2 -> preserves R (if b then m1 else m2).
Proof. now destruct b. Qed.

Lemma preserves_replicateM {A} (n : nat) (m : M S A) :
  preserves R m -> preserves R (replicateM n m).
Proof.
  intros Hm. induction n as [|n IH]; simpl.
  - apply preserves_ret.
  - apply preserves_bind; [exact Hm|]. intros a.
    apply preserves_bind; [exact IH|]. intros xs. apply preserves_ret.
Qed.

End Preserves.

Lemma preserves_modify {S} (R : S -> S -> Prop) (f : S -> S) :
  (forall s, R s (f s)) -> preserves R (modify f).
Proof. intros H s s' r E. inversion E; subst. apply H. Qed.

Lemma preserves_bind_lift {S A B} (R : S -> S -> Prop) (x : result A) (k : A -> M S B) :
  (forall s, R s s) ->
  (forall a, x = Ok a -> preserves R (k a)) -> preserves R (bind (lift x) k).
Proof.
  intros Hrefl Hk s s' r. unfold bind, lift. destruct x as [a|e].
  - apply (Hk a eq_refl).
  - intros E. inversion E; subst. apply Hrefl.
Qed.

(** Walks through a method along its binds, given that the relation is
    reflexive and transitive; the calls it does not know are left. *)
Ltac preserves_steps refl trans :=
  repeat match goal with
    | |- forall _, _ => intro
    | |- preserves _ (bind (lift _) _) => apply (preserves_bind_lift _ _ _ refl)
    | |- preserves _ (bind _ _) => apply (preserves_bind _ trans)
    | |- preserves _ (ret _) => apply (preserves_ret _ refl)
    | |- preserves _ (raise _) => apply (preserves_raise _ refl)
    | |- preserves _ (lift _) => apply (preserves_lift _ refl)
    | |- preserves _ get => apply (preserves_get _ refl)
    | |- preserves _ (if _ then _ else _) => apply preserves_if
    | |- preserves _ (replicateM _ _) => apply (preserves_replicateM _ refl trans)
    | H : preserves ?R ?m |- preserves ?R ?m => exact H
    | H : forall x, preserves ?R (?m x) |- preserves ?R (?m _) => apply H
    end.

Section BigANNHeader.
Import BigANNVectorDataSet.
Variable fs : gmap string (list byte).

Lemma header_kept_refl s : header_kept s s.
Proof. intros H. now repeat split. Qed.

Lemma header_kept_trans s1 s2 s3 :
  header_kept s1 s2 -> header_kept s2 s3 -> header_kept s1 s3.
Proof.
  intros H12 H23 H1. destruct (H12 H1) as (F2 & ? & ? & ? & ?).
  destruct (H23 F2) as (F3 & ? & ? & ? & ?). repeat split; congruence.
Qed.

Ltac header_kept_steps := preserves_steps header_kept_refl header_kept_trans.

Lemma header_kept_with_file {A} (m : M FileObj A) : preserves header_kept (with_file m).
Proof.
  intros s s' r. unfold with_file. destruct (file s) as [f|] eqn:Hf.
  - destruct (m f) as [[f' x]|]; [|discriminate].
    intros H _. inversion H; subst. bigann_attrs. repeat split. discriminate.
  - intros H. inversion H; subst. apply header_kept_refl.
Qed.

Lemma header_kept_set_current v : preserves header_kept (modify (set_current v)).
Proof. intros s s' r H F. inversion H; subst. bigann_attrs. now repeat split. Qed.

Lemma header_kept_load : preserves header_kept (_load fs).
Proof.
  intros s s' r. unfold _load. rewrite bind_get.
  destruct (file s) eqn:Hf.
  - intros H. inversion H; subst. apply header_kept_refl.
  - intros _ F. congruence.
Qed.

Lemma header_kept_size : preserves header_kept (size fs).
Proof. pose proof header_kept_load. unfold size. header_kept_steps. Qed.

Lemma header_kept_read_value : preserves header_kept read_value.
Proof.
  unfold read_value. header_kept_steps.
  destruct (reader _) as [[r|]|]; header_kept_steps.
  apply header_kept_with_file.
Qed.

Lemma header_kept_read_vector : preserves header_kept _read_vector.
Proof. pose proof header_kept_read_value. unfold _read_vector. header_kept_steps. Qed.

Lemma header_kept_read n : preserves header_kept (read fs n).
Proof.
  pose proof header_kept_load. pose proof header_kept_size.
  pose proof header_kept_read_vector.
  unfold read. header_kept_steps. apply header_kept_set_current.
Qed.

Lemma header_kept_seek k : preserves header_kept (seek fs k).
Proof.
  pose proof header_kept_load. pose proof header_kept_size.
  unfold seek. header_kept_steps;
    [apply header_kept_with_file|apply header_kept_set_current].
Qed.

Lemma header_kept_reset : preserves header_kept reset.
Proof.
  unfold reset. header_kept_steps; [|apply header_kept_set_current].
  destruct (file _); header_kept_steps. apply header_kept_with_file.
Qed.

Lemma header_kept_call c s : header_kept s (bigann_call fs c s).
Proof.
  destruct c as [n|k| |]; unfold bigann_call, state_after.
  - destruct (read fs n s) as [[s' r]|] eqn:E;
      [eapply header_kept_read, E|apply header_kept_refl].
  - destruct (seek fs k s) as [[s' r]|] eqn:E;
      [eapply header_kept_seek, E|apply header_kept_refl].
  - destruct (size fs s) as [[s' r]|] eqn:E;
      [eapply header_kept_size, E|apply header_kept_refl].
  - destruct (reset s) as [[s' r]|] eqn:E;
      [eapply header_kept_reset, E|apply header_kept_refl].
Qed.

Lemma header_kept_calls cs s : header_kept s (foldl (fun s c => bigann_call fs c s) s cs).
Proof.
  revert s. induction cs as [|c cs IH]; intros s; simpl.
  - apply header_kept_refl.
  - eapply header_kept_trans; [apply header_kept_call|apply IH].
Qed.

End BigANNHeader.

(** ** C7: first access of a BigANN file *)

Section BigANNFirstAccess.
Import BigANNVectorDataSet.
Variable fs : gmap string (list byte).

Lemma py_open_existing path bytes :
  path <> EmptyString -> fs !! path = Some bytes ->
  py_open fs path = Ok (mkFileObj bytes 0).
Proof.
  intros Hp Hf. unfold py_open. apply String.eqb_neq in Hp. now rewrite Hp, Hf.
Qed.

Lemma load_unopened p c n d b r :
  _load fs (mk p None c n d b r) = _init_internal_params fs (mk p None c n d b r).
Proof. reflexivity. Qed.

(** The outcome of the first access to a well-formed file. *)
Lemma load_well_formed p c n d b r bytes :
  p <> EmptyString -> fs !! p = Some bytes ->
  8 <= len bytes -> supported (extension p) ->
  len bytes - 8
    = header_num_points bytes * header_dimension bytes * bytes_per_value (extension p) ->
  _load fs (mk p None c n d b r)
    = Some (mk p (Some (mkFileObj bytes 8)) c
              (header_num_points bytes) (header_dimension bytes)
              (Some (bytes_per_value (extension p)))
              (Some (Some (reader_for (extension p)))), Ok tt).
Proof.
  intros Hp Hf Hl Hsup Heq.
  rewrite load_unopened, (bigann_init_eq fs _ _ _ _ _ _ _ bytes (py_open_existing _ _ Hp Hf)).
  destruct (Z.ltb_spec (len bytes) 8) as [?|_]; [lia|]. cbv zeta.
  destruct (get_data_size_cases p) as [(E & Hs & Hr)|[(E & Hs & Hr)|(E & _)]];
    [| |contradiction].
  all: rewrite Hs, Hr; rewrite E in Heq |- *.
  all: try change (bytes_per_value "u8bin") with 1 in Heq |- *.
  all: try change (bytes_per_value "fbin") with 4 in Heq |- *.
  all: match goal with |- context [negb (?a =? ?b)] =>
         destruct (Z.eqb_spec a b) as [_|Hne]; [reflexivity|contradiction] end.
Qed.

(** The outcome of the first access to a malformed file: a format
    error, the cursor as it was. *)
Lemma load_malformed p c n d b r bytes :
  p <> EmptyString -> fs !! p = Some bytes ->
  len bytes < 8 \/ ~ supported (extension p)
  \/ len bytes - 8
      <> header_num_points bytes * header_dimension bytes * bytes_per_value (extension p) ->
  exists s' e, _load fs (mk p None c n d b r) = Some (s', Raise e)
    /\ is_format_error e = true /\ current s' = c.
Proof.
  intros Hp Hf Hm.
  rewrite load_unopened, (bigann_init_eq fs _ _ _ _ _ _ _ bytes (py_open_existing _ _ Hp Hf)).
  destruct (Z.ltb_spec (len bytes) 8) as [Hl|Hl]; [eauto|]. cbv zeta.
  destruct (get_data_size_cases p) as [(E & Hs & Hr)|[(E & Hs & Hr)|(E & msg & Hs)]];
    rewrite Hs; [| |eauto].
  all: assert (Hsup : supported (extension p)) by (rewrite E; unfold supported; auto).
  all: destruct Hm as [?|[?|Hne]]; [lia|contradiction|].
  all: rewrite E in Hne.
  all: try change (bytes_per_value "u8bin") with 1 in Hne.
  all: try change (bytes_per_value "fbin") with 4 in Hne.
  all: match goal with |- context [negb (?a =? ?b)] =>
         destruct (Z.eqb_spec a b) as [?|_]; [contradiction|cbn [negb]; eauto] end.
Qed.

End BigANNFirstAccess.

(** C7: for an existing BigANN file, the first access fails with a format
    error exactly when the file has fewer than 8 bytes, or its extension
    is neither u8bin nor fbin, or its length less the 8 header bytes is
    not points x dimension x bytes per value (1 for u8bin, 4 for fbin);
    otherwise it succeeds, and the header fields it has read stay as they
    are under every later call. *)
Theorem bigann_first_access_fails_iff_malformed
    (fs : gmap string (list byte)) (path : string) (bytes : list byte) :
  path <> EmptyString -> fs !! path = Some bytes ->
  let s := BigANNVectorDataSet.__init__ path in
  let np := header_num_points bytes in
  let dim := header_dimension bytes in
  let bpv := bytes_per_value (extension path) in
  let malformed :=
    len bytes < 8 \/ ~ supported (extension path)
    \/ len bytes - 8 <> np * dim * bpv in
  ((exists s' e, BigANNVectorDataSet._load fs s = Some (s', Raise e)
                 /\ is_format_error e = true) <-> malformed)
  /\ (~ malformed ->
      exists s', BigANNVectorDataSet._load fs s = Some (s', Ok tt)
        /\ BigANNVectorDataSet.num_points s' = np
        /\ BigANNVectorDataSet.dimension s' = dim
        /\ BigANNVectorDataSet.bytes_per_num s' = Some bpv
        /\ forall calls,
             let s'' := foldl (fun s c => bigann_call fs c s) s' calls in
             BigANNVectorDataSet.num_points s'' = np
             /\ BigANNVectorDataSet.dimension s'' = dim
             /\ BigANNVectorDataSet.bytes_per_num s'' = Some bpv).
Proof.
  intros Hp Hf s np dim bpv malformed.
  assert (Hwf : ~ malformed ->
                8 <= len bytes /\ supported (extension path)
                /\ len bytes - 8 = np * dim * bpv).
  { intros Hm. split; [|split].
    - destruct (Z.le_gt_cases 8 (len bytes)); [assumption|].
      exfalso; apply Hm; left; lia.
    - destruct (get_data_size_cases path) as [(E & _)|[(E & _)|(E & _)]];
        [rewrite E; left; reflexivity|rewrite E; right; reflexivity|].
      exfalso; apply Hm; right; left; exact E.
    - destruct (Z.eq_dec (len bytes - 8) (np * dim * bpv)); [assumption|].
      exfalso; apply Hm; right; right; assumption. }
  assert (Hok : ~ malformed ->
                BigANNVectorDataSet._load fs s
                = Some (BigANNVectorDataSet.mk path (Some (mkFileObj bytes 8)) DataSet.BEGINNING
                          np dim (Some bpv) (Some (Some (reader_for (extension path)))),
                        Ok tt)).
  { intros Hm. destruct (Hwf Hm) as (H8 & Hsup & Heq).
    now apply load_well_formed. }
  split; [split|].
  - intros (s' & e & Hl & _).
    destruct (Z.le_gt_cases 8 (len bytes)) as [H8|H8]; [|left; lia].
    right.
    destruct (get_data_size_cases path) as [(E & _)|[(E & _)|(E & _)]];
      [| |left; exact E].
    all: right; intros Heq.
    all: assert (Hm : ~ malformed)
           by (intros [?|[Hu|?]];
               [lia|apply Hu; rewrite E; unfold supported; auto|contradiction]).
    all: rewrite (Hok Hm) in Hl; discriminate Hl.
  - intros Hm. destruct (load_malformed fs path DataSet.BEGINNING 0 0 (Some 0) None bytes Hp Hf Hm)
      as (s' & e & Hl & He & _). eauto.
  - intros Hm. eexists. split; [apply (Hok Hm)|].
    bigann_attrs. repeat split.
    all: pose proof (header_kept_calls fs calls
           (BigANNVectorDataSet.mk path (Some (mkFileObj bytes 8)) DataSet.BEGINNING
              np dim (Some bpv) (Some (Some (reader_for (extension path))))))
           as Hk.
    all: destruct Hk as (_ & Hn & Hd & Hb & _); [discriminate|].
    all: bigann_attrs; assumption.
Qed.

Lemma bigann_first_access_fails_iff_malformed_witness :
  (exists s' e,
      BigANNVectorDataSet._load FbinExample.files
        (BigANNVectorDataSet.__init__ "truncated.fbin") = Some (s', Raise e)
      /\ is_format_error e = true)
  /\ (exists s',
      BigANNVectorDataSet._load FbinExample.files
        (BigANNVectorDataSet.__init__ "vectors.fbin") = Some (s', Ok tt)
      /\ BigANNVectorDataSet.num_points s' = 2
      /\ BigANNVectorDataSet.dimension s' = 2
      /\ BigANNVectorDataSet.bytes_per_num s' = Some 4).
Proof.
  split.
  - apply (proj1 (bigann_first_access_fails_iff_malformed
                    FbinExample.files "truncated.fbin"
                    (take 23 FbinExample.fbin_bytes)
                    ltac:(discriminate) ltac:(reflexivity))).
    right; right. vm_compute. discriminate.
  - destruct (proj2 (bigann_first_access_fails_iff_malformed
                       FbinExample.files "vectors.fbin"
                       FbinExample.fbin_bytes
                       ltac:(discriminate) ltac:(reflexivity)))
      as (s' & Hl & Hn & Hd & Hb & _).
    + intros [H|[H|H]].
      * vm_compute in H. discriminate H.
      * apply H. right. reflexivity.
      * apply H. reflexivity.
    + exists s'. repeat split; assumption.
Defined.

(** ** The BigANN reader: the cursor, the attributes and seek *)

Section BigANNSeek.
Import BigANNVectorDataSet.
Variable fs : gmap string (list byte).

Lemma cursor_kept_refl s : cursor_kept s s.
Proof. reflexivity. Qed.

Lemma cursor_kept_trans s1 s2 s3 :
  cursor_kept s1 s2 -> cursor_kept s2 s3 -> cursor_kept s1 s3.
Proof. unfold cursor_kept. congruence. Qed.

Lemma cursor_kept_with_file {A} (m : M FileObj A) : preserves cursor_kept (with_file m).
Proof.
  intros s s' r. unfold with_file. destruct (file s) as [f|].
  - destruct (m f) as [[f' x]|]; [|discriminate]. intros H. now inversion H.
  - intros H. now inversion H.
Qed.

Lemma cursor_kept_init : preserves cursor_kept (_init_internal_params fs).
Proof.
  pose proof (@cursor_kept_with_file).
  unfold _init_internal_params.
  preserves_steps cursor_kept_refl cursor_kept_trans.
  all: try (apply preserves_modify; reflexivity).
  all: apply cursor_kept_with_file.
Qed.

Lemma cursor_kept_load : preserves cursor_kept (_load fs).
Proof.
  pose proof cursor_kept_init. unfold _load.
  preserves_steps cursor_kept_refl cursor_kept_trans.
  destruct (file _); preserves_steps cursor_kept_refl cursor_kept_trans.
Qed.












Lemma load_ok_file s s1 :
  _load fs s = Some (s1, Ok tt) -> file s1 <> None.
Proof.
  unfold _load. rewrite bind_get. destruct (file s) eqn:Hf.
  - intros H. inversion H; subst. congruence.
  - destruct s as [p f c n d b r]. cbn [file] in Hf. subst f.
    destruct (py_open fs p) as [[bytes pos]|e] eqn:Ho.
    + assert (pos = 0) as ->.
      { unfold py_open in Ho. destruct (String.eqb p EmptyString); [discriminate|].
        destruct (fs !! p); now inversion Ho. }
      rewrite (bigann_init_eq fs _ _ _ _ _ _ _ _ Ho).
      destruct (len bytes <? 8); [discriminate|]. cbv zeta.
      destruct (_get_data_size p) as [[bpv|]|]; try discriminate.
      destruct (negb _); [discriminate|].
      destruct (_value_reader p); [|discriminate].
      intros H. inversion H; subst. discriminate.
    + unfold _init_internal_params. rewrite bind_get. cbn [dataset_path].
      rewrite Ho. discriminate.
Qed.

Lemma size_inv s s1 n :
  size fs s = Some (s1, Ok n) ->
  _load fs s = Some (s1, Ok tt) /\ n = num_points s1.
Proof.
  unfold size, bind at 1.
  destruct (_load fs s) as [[s' [[]|e]]|]; [|discriminate..].
  rewrite bind_get. intros H. inversion H; subst. now split.
Qed.

Lemma load_opened s : file s <> None -> _load fs s = Some (s, Ok tt).
Proof.
  intros H. unfold _load. rewrite bind_get. now destruct (file s).
Qed.


End BigANNSeek.



(** ** Slices *)

Lemma py_slice_in_range {A} (l : list A) a b :
  0 <= a <= b -> b <= len l -> py_slice l a b = rows_range l a b.
Proof.
  intros Ha Hb. unfold py_slice, rows_range, slice_index, len in *.
  destruct (Z.ltb_spec a 0); [lia|]. destruct (Z.ltb_spec b 0); [lia|].
  now rewrite !Z.min_l by lia.
Qed.

Lemma py_slice_from_in_range {A} (l : list A) a :
  0 <= a <= len l -> py_slice_from l a = rows_range l a (len l).
Proof.
  intros Ha. unfold py_slice_from, rows_range, slice_index, len in *.
  destruct (Z.ltb_spec a 0); [lia|]. rewrite Z.min_l by lia.
  rewrite take_ge; [reflexivity|]. rewrite length_drop. lia.
Qed.

Lemma rows_range_split {A} (l : list A) a b c :
  0 <= a <= b -> b <= c ->
  rows_range l a c = rows_range l a b ++ rows_range l b c.
Proof.
  intros Ha Hb. unfold rows_range.
  replace (drop (Z.to_nat b) l)
    with (drop (Z.to_nat (b - a)) (drop (Z.to_nat a) l))
    by (rewrite drop_drop; f_equal; lia).
  rewrite take_take_drop. f_equal. lia.
Qed.

Lemma rows_range_middle {A} (pre l post : list A) i j :
  0 <= i <= j -> j <= len l ->
  rows_range (pre ++ l ++ post) (len pre + i) (len pre + j) = rows_range l i j.
Proof.
  intros Hi Hj. unfold rows_range, len in *.
  replace (Z.to_nat (Z.of_nat (length pre) + i))
    with (length pre + Z.to_nat i)%nat by lia.
  rewrite drop_app_add, drop_app_le by lia.
  replace (Z.of_nat (length pre) + j - (Z.of_nat (length pre) + i)) with (j - i) by lia.
  apply take_app_le. rewrite length_drop. lia.
Qed.

Lemma len_app {A} (l k : list A) : len (l ++ k) = len l + len k.
Proof. unfold len. rewrite length_app. lia. Qed.

Lemma rows_range_length {A} (l : list A) a b :
  0 <= a <= b -> b <= len l -> len (rows_range l a b) = b - a.
Proof.
  intros Ha Hb. unfold rows_range, len in *.
  rewrite length_take, length_drop. lia.
Qed.

(** ** The Parquet reader: extraction *)

Section ParquetExtract.
Import ParquetDataSet.
Context {V : Type}.
Implicit Types (s : t V) (batch cur : list V) (rest pre : list (list V)).

Lemma get_batch_held p f col c it prev ws we :
  prev <> [] ->
  get_batch V (mk V p f col c it prev ws we)
    = Some (mk V p f col c it prev ws we, Ok prev).
Proof. intros H. unfold get_batch. rewrite bind_get. now destruct prev. Qed.

Lemma get_batch_pull p f col c batch rest ws we :
  get_batch V (mk V p f col c (Some (batch :: rest)) [] ws we)
    = Some (mk V p f col c (Some rest) [] we (we + len batch), Ok batch).
Proof. reflexivity. Qed.

Lemma truthy_nonempty {A} (l : list A) : l <> [] -> truthy l = true.
Proof. now destruct l. Qed.

Lemma concat_nonempty_len rest :
  0 < len (concat rest) -> rest <> [].
Proof. intros H. destruct rest; [unfold len in H; simpl in H; lia|discriminate]. Qed.

(** The loop, entered with no batch held and [rest] still to come. *)
Lemma extract_loop_pull rest : forall pre p f col c ws start_offset end_offset vectors fuel,
  Forall (fun batch => batch <> []) rest -> rest <> [] ->
  Z.max start_offset (len (concat pre)) <= end_offset ->
  end_offset <= len (concat (pre ++ rest)) ->
  (length rest <= fuel)%nat ->
  exists s',
    _extract_vectors_loop V fuel start_offset end_offset vectors
      (mk V p f col c (Some rest) [] ws (len (concat pre)))
    = Some (s', Ok (vectors ++ rows_range (concat (pre ++ rest))
                                  (Z.max start_offset (len (concat pre))) end_offset))
    /\ holds (pre ++ rest) s'
    /\ file_batch_start V s' <= end_offset <= file_batch_end V s'
    /\ same_reader (mk V p f col c (Some rest) [] ws (len (concat pre))) s'.
Proof.
  induction rest as [|batch rest IH];
    intros pre p f col c ws start_offset end_offset vectors fuel Hne Hrest Hlo Hhi Hfuel;
    [contradiction|].
  destruct fuel as [|fuel]; [simpl in Hfuel; lia|].
  apply Forall_cons in Hne as [Hb Hne].
  pose proof (len_nonneg (concat pre)) as Hpre0.
  assert (Hblen : 0 < len batch) by (destruct batch; [contradiction|unfold len; simpl; lia]).
  set (E := len (concat pre)) in *.
  assert (Hrows : concat (pre ++ batch :: rest) = concat pre ++ batch ++ concat rest)
    by (rewrite concat_app; reflexivity).
  assert (HE' : len (concat (pre ++ [batch])) = E + len batch).
  { rewrite concat_app, len_app. simpl. rewrite app_nil_r. reflexivity. }
  assert (Hhi' : end_offset <= E + len batch + len (concat rest)).
  { rewrite Hrows, !len_app in Hhi. fold E in Hhi. lia. }
  cbn [_extract_vectors_loop].
  rewrite (bind_ok _ _ _ _ _ (get_batch_pull _ _ _ _ _ _ _ _)).
  rewrite (truthy_nonempty _ Hb). cbn [negb]. rewrite bind_get.
  cbn [file_batch_end file_batch_start].
  destruct (Z.gtb_spec start_offset (E + len batch)) as [Hskip|Hin].
  - (* the batch lies before the range *)
    destruct (IH (pre ++ [batch]) p f col c E start_offset end_offset vectors fuel)
      as (s' & Hrun & Hh & Hw & Hs); try assumption.
    + apply concat_nonempty_len. lia.
    + rewrite HE'. lia.
    + rewrite <- app_assoc. exact Hhi.
    + simpl in Hfuel. lia.
    + rewrite HE' in Hrun. rewrite <- app_assoc in Hrun, Hh. cbn [app] in Hrun, Hh.
      exists s'. rewrite Hrun.
      replace (Z.max start_offset (E + len batch)) with (Z.max start_offset E) by lia.
      split; [reflexivity|]. split; [exact Hh|]. split; [exact Hw|exact Hs].
  - set (start := if start_offset <? E then E else start_offset).
    assert (Hstart : start = Z.max start_offset E)
      by (unfold start; destruct (Z.ltb_spec start_offset E); lia).
    destruct (Z.leb_spec end_offset (E + len batch)) as [Hend|Hmore].
    + (* the range ends in this batch *)
      rewrite bind_modify. eexists. split; [|split; [|split]].
      * unfold ret. do 3 f_equal.
        rewrite py_slice_in_range by lia.
        replace (len batch - (E + len batch - start)) with (start - E) by lia.
        replace (len batch - (E + len batch - end_offset)) with (end_offset - E) by lia.
        rewrite Hrows, <- Hstart.
        replace start with (E + (start - E)) at 2 by lia.
        replace end_offset with (E + (end_offset - E)) at 2 by lia.
        f_equal. symmetry. apply rows_range_middle; lia.
      * exists pre, batch, rest. repeat split; try reflexivity. exact Hb.
      * cbn. lia.
      * repeat split.
    + (* the range goes on into the next batch *)
      rewrite bind_modify.
      destruct (IH (pre ++ [batch]) p f col c E start end_offset
                  (vectors ++ py_slice_from batch (len batch - (E + len batch - start))) fuel)
        as (s' & Hrun & Hh & Hw & Hs); try assumption.
      * apply concat_nonempty_len. lia.
      * rewrite HE'. lia.
      * rewrite <- app_assoc. exact Hhi.
      * simpl in Hfuel. lia.
      * rewrite HE' in Hrun. rewrite <- app_assoc in Hrun, Hh. cbn [app] in Hrun, Hh.
        exists s'. unfold set_prev_batch.
        cbn [dataset_path file column current batch_iterator
             prev_batch file_batch_start file_batch_end].
        rewrite Hrun. split; [|split; [exact Hh|split; [exact Hw|exact Hs]]].
        do 3 f_equal. rewrite <- app_assoc. f_equal.
        rewrite py_slice_from_in_range by lia.
        replace (len batch - (E + len batch - start)) with (start - E) by lia.
        replace (Z.max start (E + len batch)) with (E + len batch) by lia.
        rewrite <- Hstart.
        rewrite (rows_range_split _ start (E + len batch) end_offset) by lia.
        f_equal. rewrite Hrows.
        replace start with (E + (start - E)) at 2 by lia.
        replace (E + len batch) with (E + (len batch)) at 2 by lia.
        symmetry. apply rows_range_middle; lia.
Qed.

(** The loop, entered with the batch [cur] held and the range starting
    inside its window. *)
Lemma extract_loop_held pre cur rest p f col c start_offset end_offset vectors fuel :
  Forall (fun batch => batch <> []) rest -> cur <> [] ->
  len (concat pre) <= start_offset <= len (concat pre) + len cur ->
  start_offset <= end_offset ->
  end_offset <= len (concat (pre ++ cur :: rest)) ->
  (length rest < fuel)%nat ->
  exists s',
    _extract_vectors_loop V fuel start_offset end_offset vectors
      (mk V p f col c (Some rest) cur (len (concat pre)) (len (concat pre) + len cur))
    = Some (s', Ok (vectors ++ rows_range (concat (pre ++ cur :: rest))
                                  start_offset end_offset))
    /\ holds (pre ++ cur :: rest) s'
    /\ file_batch_start V s' <= end_offset <= file_batch_end V s'
    /\ same_reader
         (mk V p f col c (Some rest) cur (len (concat pre)) (len (concat pre) + len cur)) s'.
Proof.
  intros Hne Hcur Hstart Hse Hhi Hfuel.
  destruct fuel as [|fuel]; [lia|].
  pose proof (len_nonneg (concat pre)) as Hpre0.
  set (E := len (concat pre)) in *.
  assert (Hrows : concat (pre ++ cur :: rest) = concat pre ++ cur ++ concat rest)
    by (rewrite concat_app; reflexivity).
  assert (HE' : len (concat (pre ++ [cur])) = E + len cur).
  { rewrite concat_app, len_app. simpl. rewrite app_nil_r. reflexivity. }
  cbn [_extract_vectors_loop].
  rewrite (bind_ok _ _ _ _ _ (get_batch_held _ _ _ _ _ _ _ _ Hcur)).
  rewrite (truthy_nonempty _ Hcur). cbn [negb]. rewrite bind_get.
  cbn [file_batch_end file_batch_start].
  destruct (Z.gtb_spec start_offset (E + len cur)) as [?|_]; [lia|].
  destruct (Z.ltb_spec start_offset E) as [?|_]; [lia|].
  replace (len cur - (E + len cur - start_offset)) with (start_offset - E) by lia.
  destruct (Z.leb_spec end_offset (E + len cur)) as [Hend|Hmore].
  - rewrite bind_modify. eexists. split; [|split; [|split]].
    + unfold ret. do 3 f_equal.
      rewrite py_slice_in_range by lia.
      replace (len cur - (E + len cur - end_offset)) with (end_offset - E) by lia.
      rewrite Hrows.
      replace start_offset with (E + (start_offset - E)) at 2 by lia.
      replace end_offset with (E + (end_offset - E)) at 2 by lia.
      f_equal. symmetry. apply rows_range_middle; lia.
    + exists pre, cur, rest. repeat split; try reflexivity. exact Hcur.
    + cbn. lia.
    + repeat split.
  - rewrite bind_modify. unfold set_prev_batch.
    cbn [dataset_path file column current batch_iterator
         prev_batch file_batch_start file_batch_end].
    rewrite <- HE'.
    destruct (extract_loop_pull rest (pre ++ [cur]) p f col c E start_offset end_offset
                (vectors ++ py_slice_from cur (start_offset - E)) fuel)
      as (s' & Hrun & Hh & Hw & Hs); try assumption.
    + apply concat_nonempty_len. rewrite Hrows, !len_app in Hhi. fold E in Hhi. lia.
    + rewrite HE'. lia.
    + rewrite <- app_assoc. exact Hhi.
    + lia.
    + rewrite <- app_assoc in Hrun, Hh. cbn [app] in Hrun, Hh.
      exists s'. rewrite Hrun. split; [|split; [exact Hh|split; [exact Hw|exact Hs]]].
      do 3 f_equal. rewrite <- app_assoc. f_equal.
      rewrite py_slice_from_in_range by lia. rewrite HE'.
      replace (Z.max start_offset (E + len cur)) with (E + len cur) by lia.
      rewrite (rows_range_split _ start_offset (E + len cur) end_offset) by lia.
      f_equal. rewrite Hrows.
      replace start_offset with (E + (start_offset - E)) at 2 by lia.
      symmetry. apply rows_range_middle; lia.
Qed.

(** [_extract_vectors] returns the rows of the range, within fuel for
    one pass per batch and one more, and holds the batch the range ends
    in. *)
Lemma extract_vectors_spec batches s start_offset end_offset fuel :
  Forall (fun batch => batch <> []) batches -> batches <> [] ->
  window_ok batches s start_offset ->
  0 <= start_offset <= end_offset ->
  end_offset <= len (concat batches) ->
  (length batches < fuel)%nat ->
  exists s',
    _extract_vectors V fuel start_offset end_offset s
    = Some (s', Ok (rows_range (concat batches) start_offset end_offset))
    /\ holds batches s'
    /\ file_batch_start V s' <= end_offset <= file_batch_end V s'
    /\ same_reader s s'.
Proof.
  intros Hne Hb Hw Hse Hhi Hfuel. unfold _extract_vectors.
  destruct s as [p f col c it prev ws we].
  destruct Hw as [(Hit & Hprev & Hwe)|((pre & cur & rest & -> & Hcur & Hit & Hprev & Hws & Hwe) & Hin)];
    cbn [batch_iterator prev_batch file_batch_start file_batch_end] in *;
    subst it we; [subst prev|subst cur ws].
  - destruct (extract_loop_pull batches [] p f col c ws start_offset end_offset [] fuel)
      as (s' & Hrun & Hh & Hwin & Hs); try assumption.
    + change (len (concat [])) with 0. lia.
    + lia.
    + change (len (concat [])) with 0 in Hrun.
      replace (Z.max start_offset 0) with start_offset in Hrun by lia.
      exists s'. auto.
  - apply Forall_app in Hne as [_ Hne]. apply Forall_cons in Hne as [_ Hne].
    destruct (extract_loop_held pre prev rest p f col c start_offset end_offset [] fuel)
      as (s' & Hrun & Hh & Hwin & Hs); try assumption; try lia.
    + rewrite length_app in Hfuel. simpl in Hfuel. lia.
    + exists s'. auto.
Qed.

End ParquetExtract.

(** ** The Parquet reader: read *)

Section ParquetRead.
Import ParquetDataSet.
Context {V : Type}.
Variable fs : gmap string (ParquetFile V).
Implicit Types (s : t V) (f : ParquetFile V).

Lemma parquet_load_spec f s :
  parquet_inv fs f s ->
  exists s1,
    _load V fs s = Some (s1, Ok tt)
    /\ file V s1 = Some f /\ column V s1 = column V s
    /\ current V s1 = current V s /\ dataset_path V s1 = dataset_path V s
    /\ (untouched (batches_of f (column V s)) s1 \/ holds (batches_of f (column V s)) s1)
    /\ forall x, in_window s x -> window_ok (batches_of f (column V s)) s1 x.
Proof.
  intros (Hc & [(Hf & Ho)|(Hf & Hst)]); unfold _load; rewrite bind_get, Hf.
  - unfold lift at 1, bind at 1. rewrite Ho. rewrite !bind_modify.
    eexists. split; [reflexivity|].
    destruct s as [p f0 col c it prev ws we]. cbn.
    repeat split; try reflexivity.
    + left. repeat split.
    + intros x _. left. repeat split.
  - exists s. split; [reflexivity|]. repeat split; try assumption.
    intros x [Hn|[Hp|Hw]]; [congruence| |].
    + destruct Hst as [Hu|(pre & cur & rest & _ & Hcur & _ & Hprev & _)];
        [left; exact Hu|congruence].
    + destruct Hst as [Hu|Hh]; [left; exact Hu|right; split; assumption].
Qed.

Lemma parquet_size_loaded f s :
  file V s = Some f -> size V fs s = Some (s, Ok (metadata_num_rows V f)).
Proof.
  intros Hf. unfold size.
  erewrite bind_ok by (unfold _load; rewrite bind_get, Hf; reflexivity).
  now rewrite bind_get, Hf.
Qed.

Lemma window_ok_in_window batches s x : window_ok batches s x -> in_window s x.
Proof.
  intros [(_ & Hp & _)|(_ & Hw)]; [right; left; exact Hp|right; right; exact Hw].
Qed.

Lemma holds_set_current batches s v : holds batches s -> holds batches (set_current V v s).
Proof. intros (pre & cur & rest & H). exists pre, cur, rest. exact H. Qed.

(** [read] from a cursor that can be read next: the rows from the
    cursor on, at most [chunk_size] of them, and the cursor moved past
    them; [None] at the end of the data. *)
Lemma parquet_read_spec f s chunk_size fuel :
  parquet_inv fs f s -> in_window s (current V s) ->
  0 <= current V s -> 0 <= chunk_size ->
  (length (batches_of f (column V s)) < fuel)%nat ->
  let n := metadata_num_rows V f in
  let cur := current V s in
  let stop := Z.min (cur + chunk_size) n in
  exists s',
    read V fs fuel chunk_size s
    = Some (s', Ok (if cur >=? n then None
                    else Some (rows_range (rows_of f (column V s)) cur stop)))
    /\ current V s' = (if cur >=? n then cur else stop)
    /\ parquet_inv fs f s' /\ in_window s' (current V s')
    /\ column V s' = column V s
    /\ (cur < n ->
        holds (batches_of f (column V s)) s'
        /\ file_batch_start V s' <= stop <= file_batch_end V s').
Proof.
  intros Hinv Hwin Hcur Hchunk Hfuel n cur stop.
  destruct (parquet_load_spec f s Hinv) as (s1 & Hl & Hf1 & Hcol1 & Hc1 & Hp1 & Hst1 & Hw1).
  pose proof Hinv as ((Hne & Hn) & _). fold n in Hn.
  pose proof (parquet_size_loaded f s1 Hf1) as Hsz. fold n in Hsz.
  unfold read. rewrite (bind_ok _ _ _ _ _ Hl), bind_get, (bind_ok _ _ _ _ _ Hsz).
  rewrite Hc1. fold cur.
  assert (Hinv1 : parquet_inv fs f s1).
  { split; [rewrite Hcol1; split; assumption|]. right. rewrite Hcol1. auto. }
  destruct (Z.geb_spec cur n) as [Hend|Hmore].
  - exists s1. split; [reflexivity|]. split; [exact Hc1|]. split; [exact Hinv1|].
    split; [|split; [exact Hcol1|lia]].
    rewrite Hc1. eapply window_ok_in_window, Hw1, Hwin.
  - rewrite (bind_ok _ _ _ _ _ Hsz).
    assert (Hstop : (if cur + chunk_size >? n then size V fs else ret (cur + chunk_size)) s1
                    = Some (s1, Ok stop)).
    { unfold stop. destruct (Z.gtb_spec (cur + chunk_size) n).
      - rewrite Hsz. do 3 f_equal. lia.
      - unfold ret. do 3 f_equal. lia. }
    rewrite (bind_ok _ _ _ _ _ Hstop).
    destruct (extract_vectors_spec (batches_of f (column V s)) s1 cur stop fuel)
      as (s2 & Hx & Hh2 & Hw2 & Hp2 & Hf2 & Hcol2 & Hc2); try assumption.
    + apply concat_nonempty_len. fold (rows_of f (column V s)). lia.
    + apply Hw1, Hwin.
    + unfold stop. lia.
    + fold (rows_of f (column V s)). unfold stop. lia.
    + rewrite (bind_ok _ _ _ _ _ Hx), bind_modify.
      exists (set_current V stop s2). split; [reflexivity|]. split; [reflexivity|].
      split; [|split; [|split]].
      * split; [cbn; rewrite Hcol2, Hcol1; split; assumption|]. right.
        cbn [file column set_current]. split; [congruence|]. right.
        rewrite Hcol2, Hcol1. now apply holds_set_current.
      * right; right. exact Hw2.
      * cbn. congruence.
      * intros _. split; [now apply holds_set_current|exact Hw2].
Qed.

End ParquetRead.

(** ** C5: contiguous reads of a Parquet file *)

Lemma read_chunks_spec {V} (fs : gmap string (ParquetDataSet.ParquetFile V))
    f col fuel chunks :
  Forall (fun c => 0 <= c) chunks ->
  (length (batches_of f col) < fuel)%nat ->
  forall s,
    parquet_inv fs f s -> in_window s (ParquetDataSet.current V s) ->
    0 <= ParquetDataSet.current V s -> ParquetDataSet.column V s = col ->
    read_chunks fs fuel chunks s
    = Some (contiguous_ranges (rows_of f col) (ParquetDataSet.current V s) chunks).
Proof.
  intros Hpos Hfuel. induction Hpos as [|c chunks Hc _ IH]; intros s Hinv Hwin Hcur Hcol.
  - reflexivity.
  - pose proof Hinv as ((_ & Hn) & _). rewrite Hcol in Hn.
    destruct (parquet_read_spec fs f s c fuel Hinv Hwin Hcur Hc
                ltac:(rewrite Hcol; exact Hfuel))
      as (s' & Hr & Hc' & Hinv' & Hwin' & Hcol' & _).
    cbn [read_chunks contiguous_ranges]. rewrite Hr, Hcol, <- Hn.
    rewrite (IH s' Hinv' Hwin'); [|rewrite Hc'|congruence].
    + rewrite Hc'. now destruct (ParquetDataSet.current V s >=? _).
    + pose proof (len_nonneg (rows_of f col)).
      destruct (ParquetDataSet.current V s >=? _); lia.
Qed.

(** C5: over a Parquet file whose batches are not empty and add up to
    the declared row count, a run of [read] calls from the constructed
    reader, each range starting where the one before ended, returns
    every range it asks for; each call ends within one pass of the
    extraction loop per batch of the file, and one more. *)
Theorem parquet_contiguous_reads_terminate (V : Type)
    (fs : gmap string (ParquetDataSet.ParquetFile V))
    (path column : string) (f : ParquetDataSet.ParquetFile V)
    (s0 : ParquetDataSet.t V) (chunks : list Z) (fuel : nat) :
  ParquetDataSet.__init__ V path (Some column) = Ok s0 ->
  fs !! path = Some f ->
  consistent f column ->
  Forall (fun chunk_size => 0 < chunk_size) chunks ->
  (length (batches_of f column) < fuel)%nat ->
  read_chunks fs fuel chunks s0
  = Some (contiguous_ranges (rows_of f column) 0 chunks).
Proof.
  intros Hinit Hf Hcons Hpos Hfuel.
  unfold ParquetDataSet.__init__ in Hinit.
  destruct (String.eqb_spec path EmptyString) as [|Hp]; [discriminate|].
  assert (Hs0 : s0 = ParquetDataSet.mk V path None column DataSet.BEGINNING None [] 0 0).
  { destruct column; [discriminate|]. now inversion Hinit. }
  subst s0.
  apply (read_chunks_spec fs f column fuel chunks); try exact Hfuel; try reflexivity.
  - eapply Forall_impl; [exact Hpos|]. cbn. intros; lia.
  - split; [exact Hcons|]. left. split; [reflexivity|].
    unfold ParquetDataSet.pq_ParquetFile. cbn.
    apply String.eqb_neq in Hp. now rewrite Hp, Hf.
  - left. reflexivity.
Qed.

Lemma parquet_contiguous_reads_terminate_witness :
  read_chunks SmallParquet.files 3 [2; 1; 1]
    SmallParquet.constructed
  = Some (contiguous_ranges (rows_of SmallParquet.pq "emb") 0 [2; 1; 1])
  /\ contiguous_ranges (rows_of SmallParquet.pq "emb") 0 [2; 1; 1]
     = [Some [1; 2]; Some [3]; None].
Proof.
  split; [|reflexivity].
  apply (parquet_contiguous_reads_terminate Z SmallParquet.files
           "vectors.parquet" "emb" SmallParquet.pq).
  - reflexivity.
  - reflexivity.
  - split; [|reflexivity]. repeat constructor; discriminate.
  - repeat constructor; lia.
  - simpl. lia.
Defined.

(** ** C2: a range across two batches *)

Section ParquetSeek.
Import ParquetDataSet.
Context {V : Type}.
Variable fs : gmap string (ParquetFile V).

Lemma parquet_seek_spec f (s : t V) offset :
  parquet_inv fs f s -> 0 <= offset < metadata_num_rows V f ->
  exists s',
    seek V fs offset s = Some (s', Ok tt)
    /\ current V s' = offset /\ parquet_inv fs f s'
    /\ column V s' = column V s
    /\ (in_window s offset -> in_window s' offset).
Proof.
  intros Hinv Ho.
  destruct (parquet_load_spec fs f s Hinv) as (s1 & Hl & Hf1 & Hcol1 & Hc1 & Hp1 & Hst1 & Hw1).
  pose proof (parquet_size_loaded fs f s1 Hf1) as Hsz1.
  assert (Hsz : size V fs s = Some (s1, Ok (metadata_num_rows V f))).
  { unfold size. rewrite (bind_ok _ _ _ _ _ Hl), bind_get. now rewrite Hf1. }
  rewrite (parquet_seek_cases V fs s s1 _ offset Hsz).
  destruct (Z.ltb_spec offset 0); [lia|].
  destruct (Z.geb_spec offset (metadata_num_rows V f)); [lia|].
  exists (set_current V offset s1). split; [reflexivity|]. split; [reflexivity|].
  destruct Hinv as (Hc & _). split; [|split; [exact Hcol1|]].
  - split; [cbn; now rewrite Hcol1|]. right. cbn [file column set_current].
    split; [exact Hf1|]. rewrite Hcol1.
    destruct Hst1 as [Hu|Hh]; [left; exact Hu|right; now apply holds_set_current].
  - intros Hw. apply (window_ok_in_window (batches_of f (column V s))).
    destruct (Hw1 _ Hw) as [Hu|(Hh & Hin)];
      [left; exact Hu|right; split; [now apply holds_set_current|exact Hin]].
Qed.

(** Which of three batches is held, by a row inside the second. *)
Lemma holds_second b1 b2 b3 (s : t V) x :
  holds [b1; b2; b3] s ->
  file_batch_start V s <= x <= file_batch_end V s ->
  len b1 < x < len b1 + len b2 ->
  prev_batch V s = b2 /\ batch_iterator V s = Some [b3]
  /\ file_batch_start V s = len b1 /\ file_batch_end V s = len b1 + len b2.
Proof.
  intros (pre & cur & rest & Hb & _ & Hit & Hprev & Hws & Hwe) Hin Hx.
  pose proof (len_nonneg b3).
  destruct pre as [|a [|b [|c pre]]]; simplify_eq/=.
  - unfold len in *; simpl in *; lia.
  - rewrite app_nil_r in *. repeat split; assumption.
  - rewrite app_nil_r, len_app in *. lia.
  - destruct pre; discriminate.
Qed.

End ParquetSeek.

(** C2: over batches of 500, 500 and 300 rows, the read for rows
    [450, 950), issued after [read(450)] or after [seek(450)] on the
    constructed reader, returns the 500 rows made of rows 450.. of the
    first batch and rows ..450 of the second; afterwards the iterator
    has only the third batch left, and the second batch is held with the
    window [500, 1000), so that the next [get_batch] returns it without
    a fetch. *)
Theorem parquet_read_stitches_two_batches (V : Type)
    (fs : gmap string (ParquetDataSet.ParquetFile V))
    (path column : string) (f : ParquetDataSet.ParquetFile V)
    (b1 b2 b3 : list V) (s0 : ParquetDataSet.t V) (fuel : nat) :
  ParquetDataSet.__init__ V path (Some column) = Ok s0 ->
  fs !! path = Some f ->
  ParquetDataSet.metadata_num_rows V f = 1300 ->
  batches_of f column = [b1; b2; b3] ->
  len b1 = 500 -> len b2 = 500 -> len b3 = 300 ->
  (3 < fuel)%nat ->
  let stitched := drop 450 b1 ++ take 450 b2 in
  let left_with (s : ParquetDataSet.t V) :=
    ParquetDataSet.current V s = 950
    /\ ParquetDataSet.prev_batch V s = b2
    /\ ParquetDataSet.file_batch_start V s = 500
    /\ ParquetDataSet.file_batch_end V s = 1000
    /\ ParquetDataSet.batch_iterator V s = Some [b3]
    /\ ParquetDataSet.get_batch V s = Some (s, Ok b2) in
  len stitched = 500
  /\ (exists s1 s2,
        ParquetDataSet.read V fs fuel 450 s0 = Some (s1, Ok (Some (take 450 b1)))
        /\ ParquetDataSet.read V fs fuel 500 s1 = Some (s2, Ok (Some stitched))
        /\ left_with s2)
  /\ (exists s1 s2,
        ParquetDataSet.seek V fs 450 s0 = Some (s1, Ok tt)
        /\ ParquetDataSet.read V fs fuel 500 s1 = Some (s2, Ok (Some stitched))
        /\ left_with s2).
Proof.
  intros Hinit Hf Hn Hb H1 H2 H3 Hfuel stitched left_with.
  unfold ParquetDataSet.__init__ in Hinit.
  destruct (String.eqb_spec path EmptyString) as [|Hp]; [discriminate|].
  assert (Hs0 : s0 = ParquetDataSet.mk V path None column DataSet.BEGINNING None [] 0 0).
  { destruct column; [discriminate|]. now inversion Hinit. }
  subst s0. clear Hinit.
  set (s0 := ParquetDataSet.mk V path None column DataSet.BEGINNING None [] 0 0).
  assert (Hrows : rows_of f column = b1 ++ b2 ++ b3).
  { unfold rows_of. rewrite Hb. simpl. now rewrite app_nil_r. }
  assert (Hcons : consistent f column).
  { split.
    - rewrite Hb. repeat constructor; intros ->; discriminate.
    - rewrite Hrows, !len_app. lia. }
  assert (Hinv0 : parquet_inv fs f s0).
  { split; [exact Hcons|]. left. split; [reflexivity|].
    unfold ParquetDataSet.pq_ParquetFile. cbn.
    apply String.eqb_neq in Hp. now rewrite Hp, Hf. }
  assert (Hfuel' : (length (batches_of f column) < fuel)%nat)
    by (rewrite Hb; simpl; lia).
  assert (Hrange : rows_range (rows_of f column) 450 950 = stitched).
  { rewrite Hrows. unfold rows_range, stitched, len in *.
    rewrite drop_app_le by lia. rewrite take_app, length_drop.
    rewrite (take_ge (drop _ b1)) by (rewrite length_drop; lia).
    f_equal.
    replace (Z.to_nat (950 - 450) - (length b1 - Z.to_nat 450))%nat with 450%nat by lia.
    apply take_app_le. lia. }
  assert (Hlen : len stitched = 500).
  { unfold stitched, len in *. rewrite length_app, length_drop, length_take. lia. }
  assert (Hfinish : forall s1,
            parquet_inv fs f s1 -> in_window s1 450 ->
            ParquetDataSet.current V s1 = 450 -> ParquetDataSet.column V s1 = column ->
            exists s2, ParquetDataSet.read V fs fuel 500 s1 = Some (s2, Ok (Some stitched))
                       /\ left_with s2).
  { intros s1 Hinv1 Hwin1 Hc1 Hcol1.
    pose proof (parquet_read_spec fs f s1 500 fuel Hinv1) as Hspec.
    rewrite Hc1, Hcol1, Hn in Hspec.
    specialize (Hspec Hwin1 ltac:(lia) ltac:(lia) Hfuel'). cbv zeta in Hspec.
    change (450 >=? 1300) with false in Hspec.
    change (Z.min (450 + 500) 1300) with 950 in Hspec.
    destruct Hspec as (s2 & Hr & Hc2 & _ & _ & _ & Hh).
    destruct Hh as (Hh & Hw2); [lia|]. rewrite Hb in Hh.
    destruct (holds_second b1 b2 b3 s2 950 Hh Hw2 ltac:(lia)) as (Hp2 & Hit2 & Hws2 & Hwe2).
    exists s2. rewrite Hr, Hrange. split; [reflexivity|].
    unfold left_with. rewrite Hc2, Hp2, Hit2, Hws2, Hwe2, H1, H2.
    repeat split.
    destruct s2 as [p0 f0 col0 c0 it0 prev0 ws0 we0]. cbn in Hp2. subst prev0.
    apply get_batch_held. intros ->. discriminate. }
  split; [exact Hlen|]. split.
  - pose proof (parquet_read_spec fs f s0 450 fuel Hinv0) as Hspec.
    cbn [ParquetDataSet.current ParquetDataSet.column s0] in Hspec.
    rewrite Hn in Hspec. unfold DataSet.BEGINNING in Hspec.
    specialize (Hspec ltac:(left; reflexivity) ltac:(lia) ltac:(lia) Hfuel').
    cbv zeta in Hspec.
    change (0 >=? 1300) with false in Hspec.
    change (Z.min (0 + 450) 1300) with 450 in Hspec.
    destruct Hspec as (s1 & Hr & Hc1 & Hinv1 & Hwin1 & Hcol1 & _).
    destruct (Hfinish s1 Hinv1) as (s2 & Hr2 & Hleft); try assumption;
      [now rewrite <- Hc1|].
    exists s1, s2. split; [|split; assumption].
    rewrite Hr. do 4 f_equal. rewrite Hrows. unfold rows_range, len in *.
    rewrite drop_0. change (Z.to_nat (450 - 0)) with 450%nat. apply take_app_le. lia.
  - destruct (parquet_seek_spec fs f s0 450 Hinv0) as (s1 & Hk & Hc1 & Hinv1 & Hcol1 & Hwin1);
      [lia|].
    destruct (Hfinish s1 Hinv1) as (s2 & Hr2 & Hleft); try assumption.
    + apply Hwin1. left. reflexivity.
    + exists s1, s2. auto.
Qed.

Lemma parquet_read_stitches_two_batches_witness :
  exists s1 s2,
    ParquetDataSet.read Z StitchExample.files 4 450 StitchExample.constructed
      = Some (s1, Ok (Some (take 450 StitchExample.b1)))
    /\ ParquetDataSet.read Z StitchExample.files 4 500 s1
      = Some (s2, Ok (Some (drop 450 StitchExample.b1 ++ take 450 StitchExample.b2)))
    /\ ParquetDataSet.prev_batch Z s2 = StitchExample.b2
    /\ ParquetDataSet.batch_iterator Z s2 = Some [StitchExample.b3].
Proof.
  destruct (proj1 (proj2
    (parquet_read_stitches_two_batches Z StitchExample.files
       "vectors.parquet" "emb" StitchExample.pq
       StitchExample.b1 StitchExample.b2 StitchExample.b3
       StitchExample.constructed 4
       eq_refl eq_refl eq_refl eq_refl eq_refl eq_refl eq_refl ltac:(lia))))
    as (s1 & s2 & Hr1 & Hr2 & _ & Hp & _ & _ & Hit & _).
  exists s1, s2. repeat split; assumption.
Defined.

(** ** The HDF5 reader: read and seek *)

Section HDF5Read.
Import HDF5DataSet.
Context {V : Type}.
Variable fs : gmap string (gmap string (list V)).
Implicit Types (s : t V) (d : list V).

Lemma hdf5_load_spec s d :
  hdf5_rows fs s d -> _load V fs s = Some (set_data V (Some d) s, Ok tt).
Proof.
  intros [Hd|(Hd & file & Ho & Hl)]; unfold _load; rewrite bind_get, Hd.
  - destruct s. cbn in Hd. now subst.
  - unfold lift at 1, bind at 1. rewrite Ho, Hl. reflexivity.
Qed.

Lemma hdf5_size_spec s d :
  hdf5_rows fs s d -> size V fs s = Some (set_data V (Some d) s, Ok (len d)).
Proof.
  intros H. unfold size. rewrite (bind_ok _ _ _ _ _ (hdf5_load_spec s d H)).
  reflexivity.
Qed.

Lemma hdf5_rows_loaded s d : hdf5_rows fs (set_data V (Some d) s) d.
Proof. left. reflexivity. Qed.

Lemma hdf5_read_spec s d chunk_size :
  hdf5_rows fs s d -> 0 <= current V s -> 0 <= chunk_size ->
  let n := len d in
  let cur := current V s in
  let stop := Z.min (cur + chunk_size) n in
  read V fs chunk_size s
  = Some (mk V (dataset_path V s) (context V s)
               (if cur >=? n then cur else stop) (Some d),
          Ok (if cur >=? n then None else Some (rows_range d cur stop))).
Proof.
  intros Hd Hcur Hchunk n cur stop.
  pose proof (hdf5_size_spec _ _ (hdf5_rows_loaded s d)) as Hsz.
  replace (set_data V (Some d) (set_data V (Some d) s))
    with (set_data V (Some d) s) in Hsz by reflexivity.
  unfold read. rewrite (bind_ok _ _ _ _ _ (hdf5_load_spec s d Hd)), bind_get.
  rewrite (bind_ok _ _ _ _ _ Hsz). cbn [current set_data]. fold cur n.
  destruct (Z.geb_spec cur n) as [Hend|Hmore].
  - destruct s; reflexivity.
  - rewrite (bind_ok _ _ _ _ _ Hsz).
    assert (Hstop : (if cur + chunk_size >? n then size V fs else ret (cur + chunk_size))
                      (set_data V (Some d) s)
                    = Some (set_data V (Some d) s, Ok stop)).
    { unfold stop. destruct (Z.gtb_spec (cur + chunk_size) n).
      - rewrite Hsz. do 3 f_equal. fold n. lia.
      - unfold ret. do 3 f_equal. lia. }
    rewrite (bind_ok _ _ _ _ _ Hstop), bind_get. cbn [data set_data current].
    rewrite bind_modify. unfold ret. fold cur.
    rewrite py_slice_in_range by (fold n; unfold stop; lia). reflexivity.
Qed.

Lemma hdf5_seek_spec s d offset :
  hdf5_rows fs s d -> 0 <= offset < len d ->
  seek V fs offset s
  = Some (mk V (dataset_path V s) (context V s) offset (Some d), Ok tt).
Proof.
  intros Hd Ho. rewrite (hdf5_seek_cases V fs s _ _ offset (hdf5_size_spec s d Hd)).
  destruct (Z.ltb_spec offset 0); [lia|].
  destruct (Z.geb_spec offset (len d)); [lia|]. reflexivity.
Qed.

End HDF5Read.

(** ** The BigANN reader: read and seek *)

Lemma value_size_reader_for ext : value_size (reader_for ext) = bytes_per_value ext.
Proof. unfold reader_for, bytes_per_value. now destruct (String.eqb ext "u8bin"). Qed.

Lemma np_asarray_arrays (vs : list ndarray) : np_asarray (List.map PyArray vs) = Array vs.
Proof.
  unfold np_asarray. f_equal. rewrite List.map_map. cbn. apply List.map_id.
Qed.

Lemma value_size_pos r : 0 < value_size r.
Proof. destruct r; cbn; lia. Qed.

Lemma call_reader_ok r bytes pos :
  0 <= pos -> pos + value_size r <= len bytes ->
  BigANNVectorDataSet.call_reader r (mkFileObj bytes pos)
  = Some (mkFileObj bytes (pos + value_size r),
          Ok (decode_value r (take (Z.to_nat (value_size r))
                                   (drop (Z.to_nat pos) bytes)))).
Proof.
  intros Hp Hl. destruct r; cbn [BigANNVectorDataSet.call_reader value_size decode_value] in *.
  - unfold BigANNVectorDataSet.BYTES_PER_U8INT.
    now rewrite (bind_ok _ _ _ _ _ (f_read_ok 1 bytes pos Hp ltac:(lia) Hl)).
  - unfold BigANNVectorDataSet.BYTES_PER_FLOAT.
    rewrite (bind_ok _ _ _ _ _ (f_read_ok 4 bytes pos Hp ltac:(lia) Hl)).
    unfold lift, struct_unpack_f.
    replace (len (take (Z.to_nat 4) (drop (Z.to_nat pos) bytes)) =? 4) with true;
      [reflexivity|].
    symmetry. apply Z.eqb_eq. unfold len in *. rewrite length_take, length_drop. lia.
Qed.

Section BigANNRead.
Import BigANNVectorDataSet.
Variable fs : gmap string (list byte).

Lemma read_values_ok r bytes p c n d b k : forall pos,
  0 <= pos -> pos + Z.of_nat k * value_size r <= len bytes ->
  replicateM k read_value (mk p (Some (mkFileObj bytes pos)) c n d b (Some (Some r)))
  = Some (mk p (Some (mkFileObj bytes (pos + Z.of_nat k * value_size r))) c n d b
             (Some (Some r)),
          Ok (values_at r bytes pos k)).
Proof.
  pose proof (value_size_pos r) as Hr.
  induction k as [|k IH]; intros pos Hp Hl.
  - cbn [replicateM values_at].
    replace (pos + Z.of_nat 0 * value_size r) with pos by lia. reflexivity.
  - cbn [replicateM values_at].
    assert (Hv : read_value (mk p (Some (mkFileObj bytes pos)) c n d b (Some (Some r)))
                 = Some (mk p (Some (mkFileObj bytes (pos + value_size r))) c n d b
                            (Some (Some r)),
                         Ok (decode_value r (take (Z.to_nat (value_size r))
                                                  (drop (Z.to_nat pos) bytes))))).
    { unfold read_value. rewrite bind_get. cbn [reader].
      apply with_file_eq, call_reader_ok; lia. }
    rewrite (bind_ok _ _ _ _ _ Hv), (bind_ok _ _ _ _ _ (IH (pos + value_size r) ltac:(lia) ltac:(lia))).
    replace (pos + value_size r + Z.of_nat k * value_size r)
      with (pos + Z.of_nat (S k) * value_size r) by lia.
    reflexivity.
Qed.

Lemma read_vectors_ok r bytes p c n d b k : forall pos,
  0 <= d -> 0 <= pos -> pos + Z.of_nat k * (d * value_size r) <= len bytes ->
  replicateM k _read_vector (mk p (Some (mkFileObj bytes pos)) c n d b (Some (Some r)))
  = Some (mk p (Some (mkFileObj bytes (pos + Z.of_nat k * (d * value_size r)))) c n d b
             (Some (Some r)),
          Ok (vectors_at r bytes d pos k)).
Proof.
  pose proof (value_size_pos r) as Hr.
  induction k as [|k IH]; intros pos Hd Hp Hl.
  - cbn [replicateM vectors_at].
    replace (pos + Z.of_nat 0 * (d * value_size r)) with pos by lia. reflexivity.
  - cbn [replicateM vectors_at].
    assert (Hv : _read_vector (mk p (Some (mkFileObj bytes pos)) c n d b (Some (Some r)))
                 = Some (mk p (Some (mkFileObj bytes (pos + d * value_size r))) c n d b
                            (Some (Some r)),
                         Ok (np_asarray (values_at r bytes pos (Z.to_nat d))))).
    { unfold _read_vector. rewrite bind_get. cbn [dimension].
      rewrite (bind_ok _ _ _ _ _ (read_values_ok r bytes p c n d b (Z.to_nat d) pos Hp
                                    ltac:(nia))).
      replace (pos + Z.of_nat (Z.to_nat d) * value_size r)
        with (pos + d * value_size r) by lia.
      reflexivity. }
    rewrite (bind_ok _ _ _ _ _ Hv), (bind_ok _ _ _ _ _ (IH (pos + d * value_size r) Hd ltac:(nia) ltac:(nia))).
    replace (pos + d * value_size r + Z.of_nat k * (d * value_size r))
      with (pos + Z.of_nat (S k) * (d * value_size r)) by lia.
    reflexivity.
Qed.

Lemma bigann_load_spec bytes s :
  bigann_inv fs bytes s ->
  exists s1, _load fs s = Some (s1, Ok tt)
    /\ bigann_loaded bytes s1 /\ current s1 = current s
    /\ dataset_path s1 = dataset_path s.
Proof.
  intros ((Hp & H8 & Hsup & Hlen) & Hcur & [(Hf & Hc & Hfs)|Hl]).
  - destruct s as [p f c n d b r]. bigann_attrs. subst f c.
    rewrite (load_well_formed fs p 0 n d b r bytes Hp Hfs (proj1 H8) Hsup Hlen).
    eexists. split; [reflexivity|]. split; [|split; reflexivity].
    unfold bigann_loaded. bigann_attrs.
    rewrite value_size_reader_for. repeat split. do 2 f_equal. lia.
  - exists s. split; [|auto]. apply load_opened. destruct Hl as (Hf & _). congruence.
Qed.

Lemma bigann_size_loaded bytes s :
  bigann_loaded bytes s -> size fs s = Some (s, Ok (header_num_points bytes)).
Proof.
  intros (Hf & Hn & _). unfold size.
  rewrite (bind_ok _ _ _ _ _ (load_opened fs s ltac:(congruence))), bind_get.
  now rewrite Hn.
Qed.

Lemma bigann_read_spec bytes s chunk_size :
  bigann_inv fs bytes s -> 0 <= chunk_size ->
  let r := reader_for (extension (dataset_path s)) in
  let n := header_num_points bytes in
  let cur := current s in
  let stop := Z.min (cur + chunk_size) n in
  exists s',
    read fs chunk_size s
    = Some (s', Ok (if cur >=? n then None
                    else Some (Array (vectors_range r bytes (header_dimension bytes)
                                        cur stop))))
    /\ current s' = (if cur >=? n then cur else stop)
    /\ bigann_inv fs bytes s' /\ dataset_path s' = dataset_path s.
Proof.
  intros Hinv Hchunk r n cur stop.
  destruct (bigann_load_spec bytes s Hinv) as (s1 & Hl & Hld & Hc1 & Hp1).
  destruct Hinv as (Hwf & Hcur & _).
  pose proof (bigann_size_loaded bytes s1 Hld) as Hsz. fold n in Hsz.
  unfold read. rewrite (bind_ok _ _ _ _ _ Hl), bind_get, (bind_ok _ _ _ _ _ Hsz).
  rewrite Hc1. fold cur.
  assert (Hinv1 : bigann_inv fs bytes s1).
  { split; [now rewrite Hp1|]. split; [now rewrite Hc1|]. now right. }
  destruct (Z.geb_spec cur n) as [Hend|Hmore].
  - exists s1. auto.
  - rewrite (bind_ok _ _ _ _ _ Hsz).
    assert (Hstop : (if cur + chunk_size >? n then size fs else ret (cur + chunk_size)) s1
                    = Some (s1, Ok stop)).
    { unfold stop. destruct (Z.gtb_spec (cur + chunk_size) n).
      - rewrite Hsz. do 3 f_equal. lia.
      - unfold ret. do 3 f_equal. lia. }
    rewrite (bind_ok _ _ _ _ _ Hstop), bind_get. rewrite Hc1. fold cur.
    destruct s1 as [p1 f1 c1 n1 d1 b1 r1]. unfold bigann_loaded in Hld.
    bigann_attrs. subst p1 c1. fold r in Hld.
    destruct Hld as (-> & -> & -> & -> & ->).
    pose proof Hwf as (Hp & H8 & Hsup & Hlen). fold n in Hlen.
    rewrite <- value_size_reader_for in Hlen. fold r in Hlen.
    pose proof (value_size_pos r) as Hr.
    pose proof (int_from_bytes_little_nonneg (take 4 (drop 4 bytes))) as Hd.
    fold (header_dimension bytes) in Hd.
    set (dim := header_dimension bytes) in *.
    rewrite (bind_ok _ _ _ _ _
               (read_vectors_ok r bytes _ cur n dim _ (Z.to_nat (stop - cur))
                  (8 + dim * value_size r * cur) Hd ltac:(nia) ltac:(unfold stop; nia))).
    rewrite bind_modify. unfold ret, set_current. bigann_attrs.
    rewrite np_asarray_arrays. eexists. split; [reflexivity|].
    bigann_attrs. split; [reflexivity|]. split; [|reflexivity].
    split; [bigann_attrs; exact Hwf|].
    split; [bigann_attrs; unfold stop; lia|]. right.
    unfold bigann_loaded. bigann_attrs. fold r. repeat split.
    do 2 f_equal. unfold stop. nia.
Qed.

Lemma bigann_seek_spec bytes s offset :
  bigann_inv fs bytes s -> 0 <= offset < header_num_points bytes ->
  exists s',
    seek fs offset s = Some (s', Ok tt)
    /\ current s' = offset /\ bigann_inv fs bytes s'
    /\ dataset_path s' = dataset_path s.
Proof.
  intros Hinv Ho.
  destruct (bigann_load_spec bytes s Hinv) as (s1 & Hl & Hld & Hc1 & Hp1).
  destruct Hinv as (Hwf & Hcur & _).
  pose proof (bigann_size_loaded bytes s1 Hld) as Hsz.
  unfold seek. rewrite (bind_ok _ _ _ _ _ Hl). unfold DataSet.BEGINNING.
  destruct (Z.ltb_spec offset 0); [lia|].
  rewrite (bind_ok _ _ _ _ _ Hsz).
  destruct (Z.geb_spec offset (header_num_points bytes)); [lia|].
  rewrite bind_get.
  destruct s1 as [p1 f1 c1 n1 d1 b1 r1]. unfold bigann_loaded in Hld.
  bigann_attrs. subst p1 c1.
  set (r := reader_for (extension (dataset_path s))) in *.
  destruct Hld as (-> & -> & -> & -> & ->).
  pose proof (value_size_pos r) as Hr.
  pose proof (int_from_bytes_little_nonneg (take 4 (drop 4 bytes))) as Hd.
  fold (header_dimension bytes) in Hd.
  unfold mul_int, lift at 1, bind at 1. unfold DATA_SET_HEADER_LENGTH.
  assert (0 <= 8 + header_dimension bytes * value_size r * offset <= MAX_OFFSET) as Hfit.
  { pose proof Hwf as (_ & H8 & _ & Hlen).
    rewrite <- value_size_reader_for in Hlen. fold r in Hlen.
    assert (0 <= header_dimension bytes * value_size r) as Hrow by nia.
    assert (offset <= header_num_points bytes) as Hle by lia.
    pose proof (Z.mul_le_mono_nonneg_l _ _ _ Hrow Hle).
    assert (0 <= header_dimension bytes * value_size r * offset) by nia. lia. }
  erewrite bind_ok by (apply with_file_eq, f_seek_ok; exact Hfit).
  cbn [content]. eexists. split; [reflexivity|]. bigann_attrs.
  split; [reflexivity|]. split; [|reflexivity].
  split; [bigann_attrs; exact Hwf|]. split; [bigann_attrs; lia|]. right.
  unfold bigann_loaded. bigann_attrs. fold r. repeat split.
Qed.

Lemma bigann_inv_loaded bytes s :
  bigann_inv fs bytes s ->
  exists s1, _load fs s = Some (s1, Ok tt) /\ bigann_inv fs bytes s1
    /\ size fs s = Some (s1, Ok (header_num_points bytes)).
Proof.
  intros Hinv.
  destruct (bigann_load_spec bytes s Hinv) as (s1 & Hl & Hld & Hc1 & Hp1).
  destruct Hinv as (Hwf & Hcur & _).
  exists s1. split; [exact Hl|]. split.
  - split; [now rewrite Hp1|]. split; [now rewrite Hc1|]. now right.
  - unfold size. rewrite (bind_ok _ _ _ _ _ Hl), bind_get.
    destruct Hld as (_ & Hn & _). now rewrite Hn.
Qed.

(** A valid call on a reader of a well-formed file leaves a reader of
    that file. *)
Lemma bigann_inv_call bytes c s :
  valid_call c -> bigann_inv fs bytes s -> bigann_inv fs bytes (bigann_call fs c s).
Proof.
  intros Hc Hinv. destruct c as [n|k| |]; unfold bigann_call, state_after.
  - destruct (bigann_read_spec bytes s n Hinv Hc) as (s' & Hr & _ & Hinv' & _).
    now rewrite Hr.
  - destruct (bigann_inv_loaded bytes s Hinv) as (s1 & Hl & Hinv1 & Hsz).
    destruct (Z.ltb_spec k 0) as [Hneg|Hpos].
    + unfold seek. rewrite (bind_ok _ _ _ _ _ Hl). unfold DataSet.BEGINNING.
      destruct (Z.ltb_spec k 0); [exact Hinv1|lia].
    + destruct (Z.geb_spec k (header_num_points bytes)) as [Hout|Hin].
      * unfold seek. rewrite (bind_ok _ _ _ _ _ Hl). unfold DataSet.BEGINNING.
        destruct (Z.ltb_spec k 0); [lia|].
        destruct (bigann_inv_loaded bytes s1 Hinv1) as (s2 & Hl2 & _ & Hsz2).
        assert (s2 = s1) as ->.
        { destruct Hinv1 as (_ & _ & [(Hf & _)|(Hf & _)]).
          - destruct (bigann_load_spec bytes s Hinv) as (s1' & Hl' & (Hf' & _) & _).
            rewrite Hl in Hl'. inversion Hl'; subst. congruence.
          - rewrite (load_opened fs s1) in Hl2 by congruence. now inversion Hl2. }
        rewrite (bind_ok _ _ _ _ _ Hsz2).
        destruct (Z.geb_spec k (header_num_points bytes)); [exact Hinv1|lia].
      * destruct (bigann_seek_spec bytes s k Hinv ltac:(lia)) as (s' & Hk & _ & Hinv' & _).
        now rewrite Hk.
  - destruct (bigann_inv_loaded bytes s Hinv) as (s1 & _ & Hinv1 & Hsz).
    now rewrite Hsz.
  - destruct Hinv as (Hwf & Hcur & [(Hf & Hc0 & Hfs)|Hld]).
    + unfold reset. rewrite bind_get, Hf, bind_ret. unfold modify.
      split; [exact Hwf|]. split; [cbn; unfold DataSet.BEGINNING; lia|].
      left. repeat split; assumption.
    + destruct s as [p f c n d b r]. unfold bigann_loaded in Hld. bigann_attrs.
      destruct Hld as (-> & -> & -> & -> & ->).
      unfold reset. rewrite bind_get. bigann_attrs.
      unfold DataSet.BEGINNING, DATA_SET_HEADER_LENGTH.
      erewrite bind_ok by (apply with_file_eq, f_seek_ok; unfold MAX_OFFSET; lia).
      unfold modify. cbn [content]. unfold set_current. bigann_attrs.
      split; [exact Hwf|]. split; [bigann_attrs; lia|]. right.
      unfold bigann_loaded. bigann_attrs. repeat split. do 2 f_equal. lia.
Qed.

(** Every state the valid calls of a BigANN reader reach from its
    construction over a well-formed file. *)
Lemma bigann_inv_reachable path bytes calls :
  well_formed path bytes -> fs !! path = Some bytes ->
  Forall valid_call calls ->
  bigann_inv fs bytes (foldl (fun s c => bigann_call fs c s) (__init__ path) calls).
Proof.
  intros Hwf Hfs Hcalls.
  assert (H0 : bigann_inv fs bytes (__init__ path)).
  { split; [exact Hwf|]. split.
    - cbn. pose proof (int_from_bytes_little_nonneg (take 4 bytes)).
      unfold DataSet.BEGINNING, header_num_points. lia.
    - left. repeat split. exact Hfs. }
  revert H0. generalize (__init__ path).
  induction Hcalls as [|c calls Hc _ IH]; intros s Hs; simpl; [exact Hs|].
  apply IH. now apply bigann_inv_call.
Qed.

End BigANNRead.

(** ** C8: the contract of seek *)



(** The reader a refused first access leaves takes the header as it
    is: [size()] returns its [2^32 - 1] points, and [seek] of the last
    of them asks the file for a byte past the largest offset, which
    raises [ValueError] and leaves the cursor at 0. *)
Lemma seek_past_the_largest_offset :
  returned (BigANNVectorDataSet.size HugeHeader.files) HugeHeader.refused
    = Some (Ok 4294967295)
  /\ MAX_OFFSET < bigann_byte_offset HugeHeader.refused 4294967294
  /\ BigANNVectorDataSet.seek HugeHeader.files 4294967294 HugeHeader.refused
     = Some (HugeHeader.refused, Raise ValueError)
  /\ BigANNVectorDataSet.current HugeHeader.refused = 0
  /\ returned (BigANNVectorDataSet.seek HugeHeader.files 4294967295) HugeHeader.refused
     = Some (Raise (PyException "Offset must be less than the data set size")).
Proof. repeat split; vm_compute; reflexivity. Qed.



(** Vectors cut out of a run of vectors are the vectors at their place. *)
Lemma vectors_at_app r bytes dim pos j k :
  vectors_at r bytes dim pos (j + k)
  = vectors_at r bytes dim pos j
    ++ vectors_at r bytes dim (pos + Z.of_nat j * (dim * value_size r)) k.
Proof.
  revert pos. induction j as [|j IH]; intros pos.
  - cbn. f_equal. lia.
  - cbn [Nat.add vectors_at app]. f_equal. rewrite IH. do 2 f_equal. lia.
Qed.

Lemma vectors_at_length r bytes dim pos k : length (vectors_at r bytes dim pos k) = k.
Proof. revert pos. induction k as [|k IH]; intros pos; cbn; [|rewrite IH]; reflexivity. Qed.

Lemma vectors_range_one r bytes dim offset n :
  0 <= offset < n ->
  take 1 (drop (Z.to_nat offset) (vectors_range r bytes dim 0 n))
  = vectors_range r bytes dim offset (offset + 1).
Proof.
  intros Ho. unfold vectors_range.
  replace (Z.to_nat (n - 0)) with (Z.to_nat offset + S (Z.to_nat (n - offset - 1)))%nat by lia.
  rewrite vectors_at_app, drop_app_length' by (now rewrite vectors_at_length).
  replace (Z.to_nat (offset + 1 - offset)) with 1%nat by lia.
  replace (8 + dim * value_size r * 0 + Z.of_nat (Z.to_nat offset) * (dim * value_size r))
    with (8 + dim * value_size r * offset) by (rewrite Z2Nat.id by lia; ring).
  reflexivity.
Qed.

(** ** What a call that returned tells about the reader *)

Lemma bind_inv {S A B} (m : M S A) (k : A -> M S B) s s' r :
  bind m k s = Some (s', r) ->
  (exists s1 a, m s = Some (s1, Ok a) /\ k a s1 = Some (s', r))
  \/ (exists e, m s = Some (s', Raise e) /\ r = Raise e).
Proof.
  unfold bind. destruct (m s) as [[s1 [a|e]]|]; intros H.
  - left. eauto.
  - right. simplify_eq. eauto.
  - discriminate.
Qed.

Lemma bind_inv_ok {S A B} (m : M S A) (k : A -> M S B) s s' b :
  bind m k s = Some (s', Ok b) ->
  exists s1 a, m s = Some (s1, Ok a) /\ k a s1 = Some (s', Ok b).
Proof.
  intros H. destruct (bind_inv _ _ _ _ _ H) as [H1|(e & _ & He)]; [exact H1|discriminate].
Qed.

Section HDF5Loaded.
Import HDF5DataSet.
Context {V : Type}.
Variable fs : gmap string (gmap string (list V)).
Implicit Types (s : t V) (d : list V).

(** A load that succeeds has the rows in [data] and changes nothing else. *)
Lemma hdf5_load_inv s s1 :
  _load V fs s = Some (s1, Ok tt) ->
  exists d, hdf5_rows fs s d /\ s1 = set_data V (Some d) s.
Proof.
  unfold _load. rewrite bind_get. destruct (data V s) as [d|] eqn:Hd.
  - intros H. unfold ret in H. injection H as <-. exists d. split; [now left|].
    destruct s; cbn in *; now subst.
  - unfold lift at 1, bind at 1.
    destruct (h5py_File V fs (dataset_path V s)) as [file|e] eqn:Ho; [|discriminate].
    destruct (file !! context V s) as [d|] eqn:Hl; [|discriminate].
    intros H. exists d. split; [right; eauto|]. unfold modify in H. now simplify_eq.
Qed.

Lemma hdf5_size_inv s s1 n :
  size V fs s = Some (s1, Ok n) ->
  exists d, hdf5_rows fs s d /\ s1 = set_data V (Some d) s /\ n = len d.
Proof.
  intros H. apply bind_inv_ok in H as (s0 & [] & Hl & H).
  apply hdf5_load_inv in Hl as (d & Hd & ->). exists d.
  rewrite bind_get in H. cbn in H. unfold ret in H. now simplify_eq.
Qed.

(** [read] in terms of the rows: [None] exactly at or past the end. *)
Lemma hdf5_read_none s s' chunk_size :
  read V fs chunk_size s = Some (s', Ok None) ->
  exists d, hdf5_rows fs s d /\ s' = set_data V (Some d) s /\ len d <= current V s.
Proof.
  intros H. apply bind_inv_ok in H as (s0 & [] & Hl & H).
  apply hdf5_load_inv in Hl as (d & Hd & ->). exists d.
  rewrite bind_get in H.
  rewrite (bind_ok _ _ _ _ _ (hdf5_size_spec fs _ _ (hdf5_rows_loaded fs s d))) in H.
  cbn [current set_data] in H.
  destruct (Z.geb_spec (current V s) (len d)) as [Hc|Hc].
  - unfold ret in H. simplify_eq. auto.
  - exfalso.
    rewrite (bind_ok _ _ _ _ _ (hdf5_size_spec fs _ _ (hdf5_rows_loaded fs s d))) in H.
    apply bind_inv_ok in H as (s2 & e & He & H).
    assert (exists d2, data V s2 = Some d2) as (d2 & Hd2).
    { destruct (_ >? _) in He.
      - apply hdf5_size_inv in He as (d' & _ & -> & _). eexists; reflexivity.
      - unfold ret in He. injection He as <- <-. eexists; reflexivity. }
    rewrite bind_get, Hd2, bind_modify in H. discriminate.
Qed.

End HDF5Loaded.

Section ParquetLoaded.
Import ParquetDataSet.
Context {V : Type}.
Variable fs : gmap string (ParquetFile V).
Implicit Types (s : t V) (f : ParquetFile V).

(** A load that succeeds has a file and keeps the cursor. *)
Lemma parquet_load_inv s s1 :
  _load V fs s = Some (s1, Ok tt) ->
  exists f, file V s1 = Some f /\ current V s1 = current V s
    /\ dataset_path V s1 = dataset_path V s /\ column V s1 = column V s.
Proof.
  unfold _load. rewrite bind_get. destruct (file V s) as [f|] eqn:Hf.
  - intros H. unfold ret in H. injection H as <-. eauto.
  - unfold lift at 1, bind at 1.
    destruct (pq_ParquetFile V fs (dataset_path V s)) as [f|e]; [|discriminate].
    intros H. run. injection H as <-. exists f. repeat split.
Qed.

Lemma parquet_size_inv s s1 n :
  size V fs s = Some (s1, Ok n) ->
  exists f, file V s1 = Some f /\ n = metadata_num_rows V f
    /\ current V s1 = current V s.
Proof.
  intros H. apply bind_inv_ok in H as (s0 & [] & Hl & H).
  apply parquet_load_inv in Hl as (f & Hf & Hc & _). exists f.
  rewrite bind_get, Hf in H. unfold ret in H. injection H as <- <-. auto.
Qed.

Lemma parquet_read_none fuel s s' chunk_size :
  read V fs fuel chunk_size s = Some (s', Ok None) ->
  exists f, file V s' = Some f /\ metadata_num_rows V f <= current V s'
    /\ current V s' = current V s.
Proof.
  intros H. apply bind_inv_ok in H as (s0 & [] & Hl & H).
  apply parquet_load_inv in Hl as (f & Hf & Hc & _). exists f.
  rewrite bind_get, (bind_ok _ _ _ _ _ (parquet_size_loaded fs f s0 Hf)) in H.
  destruct (Z.geb_spec (current V s0) (metadata_num_rows V f)) as [Hge|Hlt].
  - unfold ret in H. injection H as <-. repeat split; [assumption|lia|assumption].
  - exfalso.
    rewrite (bind_ok _ _ _ _ _ (parquet_size_loaded fs f s0 Hf)) in H.
    apply bind_inv_ok in H as (s2 & e & _ & H).
    apply bind_inv_ok in H as (s3 & vs & _ & H).
    rewrite bind_modify in H. discriminate.
Qed.

End ParquetLoaded.

Section BigANNLoaded.
Import BigANNVectorDataSet.
Variable fs : gmap string (list byte).

Lemma bigann_size_opened s :
  file s <> None -> size fs s = Some (s, Ok (num_points s)).
Proof.
  intros Hf. unfold size. rewrite (bind_ok _ _ _ _ _ (load_opened fs s Hf)).
  reflexivity.
Qed.

Lemma bigann_read_none s s' chunk_size :
  read fs chunk_size s = Some (s', Ok None) ->
  file s' <> None /\ num_points s' <= current s' /\ current s' = current s.
Proof.
  intros H. apply bind_inv_ok in H as (s0 & [] & Hl & H).
  pose proof (load_ok_file fs _ _ Hl) as Hf.
  pose proof (cursor_kept_load fs _ _ _ Hl) as Hc. unfold cursor_kept in Hc.
  rewrite bind_get, (bind_ok _ _ _ _ _ (bigann_size_opened s0 Hf)) in H.
  destruct (Z.geb_spec (current s0) (num_points s0)) as [Hge|Hlt].
  - unfold ret in H. injection H as <-. repeat split; [assumption|lia|assumption].
  - exfalso.
    rewrite (bind_ok _ _ _ _ _ (bigann_size_opened s0 Hf)) in H.
    apply bind_inv_ok in H as (s2 & e & _ & H).
    rewrite bind_get in H.
    apply bind_inv_ok in H as (s3 & vs & _ & H).
    rewrite bind_modify in H. discriminate.
Qed.

End BigANNLoaded.

Section BigANNReadAfterLoad.
Import BigANNVectorDataSet.
Variable fs : gmap string (list byte).

(** [read] on a reader is [read] on the reader its load leaves. *)
Lemma bigann_read_after_load s s0 chunk_size :
  _load fs s = Some (s0, Ok tt) -> read fs chunk_size s = read fs chunk_size s0.
Proof.
  intros Hl. unfold read.
  rewrite (bind_ok _ _ _ _ _ Hl).
  now rewrite (bind_ok _ _ _ _ _ (load_opened fs s0 (load_ok_file fs _ _ Hl))).
Qed.

End BigANNReadAfterLoad.

(** ** C3, C4, C10: the contract of read, and seek followed by read *)

(** [l[a:a]] is empty, wherever [a] lies. *)
Lemma py_slice_empty {A} (l : list A) a : py_slice l a a = [].
Proof. unfold py_slice. now rewrite Z.sub_diag. Qed.




(** Before the end of the data [read(0)] returns an empty batch and
    keeps the cursor, in any state in which [size()] returns. *)
Lemma hdf5_read_zero (V : Type) fs (s s1 : HDF5DataSet.t V) n :
  HDF5DataSet.size V fs s = Some (s1, Ok n) -> HDF5DataSet.current V s < n ->
  exists s', HDF5DataSet.read V fs 0 s = Some (s', Ok (Some []))
    /\ HDF5DataSet.current V s' = HDF5DataSet.current V s.
Proof.
  intros Hs Hc. apply hdf5_size_inv in Hs as (d & Hd & -> & ->).
  pose proof (hdf5_size_spec fs _ d (hdf5_rows_loaded fs s d)) as Hsz.
  unfold HDF5DataSet.read.
  rewrite (bind_ok _ _ _ _ _ (hdf5_load_spec fs s d Hd)), bind_get.
  rewrite (bind_ok _ _ _ _ _ Hsz).
  cbn [HDF5DataSet.current HDF5DataSet.set_data].
  destruct (Z.geb_spec (HDF5DataSet.current V s) (len d)); [lia|].
  rewrite (bind_ok _ _ _ _ _ Hsz), Z.add_0_r.
  destruct (Z.gtb_spec (HDF5DataSet.current V s) (len d)); [lia|].
  eexists. split.
  - run. cbn [HDF5DataSet.data HDF5DataSet.current HDF5DataSet.set_data].
    rewrite py_slice_empty. reflexivity.
  - reflexivity.
Qed.

Lemma bigann_read_zero fs (s s1 : BigANNVectorDataSet.t) n :
  BigANNVectorDataSet.size fs s = Some (s1, Ok n) -> BigANNVectorDataSet.current s < n ->
  exists s', BigANNVectorDataSet.read fs 0 s = Some (s', Ok (Some (Array [])))
    /\ BigANNVectorDataSet.current s' = BigANNVectorDataSet.current s.
Proof.
  intros Hs Hc. apply size_inv in Hs as (Hl & ->).
  pose proof (load_ok_file fs _ _ Hl) as Hf.
  pose proof (cursor_kept_load fs _ _ _ Hl) as Hcur. unfold cursor_kept in Hcur.
  pose proof (bigann_size_opened fs s1 Hf) as Hsz.
  unfold BigANNVectorDataSet.read.
  rewrite (bind_ok _ _ _ _ _ Hl), bind_get, (bind_ok _ _ _ _ _ Hsz).
  destruct (Z.geb_spec (BigANNVectorDataSet.current s1)
              (BigANNVectorDataSet.num_points s1)); [lia|].
  rewrite (bind_ok _ _ _ _ _ Hsz), Z.add_0_r.
  destruct (Z.gtb_spec (BigANNVectorDataSet.current s1)
              (BigANNVectorDataSet.num_points s1)); [lia|].
  eexists. split.
  - run. rewrite Z.sub_diag. cbn [Z.to_nat replicateM]. run. reflexivity.
  - destruct s1. bigann_attrs. exact Hcur.
Qed.


(** C3 (counterexample): after the Parquet reader has read rows
    [0, 600), [seek(10)] succeeds and [read(1)] returns the eleven rows
    500..510, not the single row 10 that a fresh sequential read yields
    after discarding ten rows. *)
Lemma parquet_seek_back_reads_other_rows :
  returned (ParquetDataSet.read Z StitchExample.files 4 1300) StitchExample.constructed
    = Some (Ok (Some (seqZ 0 1300)))
  /\ returned (ParquetDataSet.seek Z StitchExample.files 10) StitchExample.advanced
    = Some (Ok tt)
  /\ returned (ParquetDataSet.read Z StitchExample.files 4 1) StitchExample.at_10
    = Some (Ok (Some (seqZ 500 11)))
  /\ seqZ 500 11 <> take 1 (drop 10 (seqZ 0 1300)).
Proof.
  split; [vm_compute; reflexivity|]. split; [vm_compute; reflexivity|].
  split; [vm_compute; reflexivity|]. vm_compute. discriminate.
Qed.


(** C10 (counterexample): in the same state, after [seek(10)], the
    cursor is below the size and [read(0)] returns the ten rows
    500..509, not an empty batch. *)
Lemma parquet_read_zero_after_seek_back_returns_rows :
  ParquetDataSet.current Z StitchExample.at_10 = 10
  /\ returned (ParquetDataSet.size Z StitchExample.files) StitchExample.at_10
     = Some (Ok 1300)
  /\ returned (ParquetDataSet.read Z StitchExample.files 4 0) StitchExample.at_10
     = Some (Ok (Some (seqZ 500 10)))
  /\ seqZ 500 10 <> [].
Proof.
  split; [vm_compute; reflexivity|]. split; [vm_compute; reflexivity|].
  split; [vm_compute; reflexivity|]. vm_compute. discriminate.
Qed.

(** With a batch held and the range starting past its window, the
    extraction loop passes through its skip branch for ever. *)
Lemma extract_loop_skips_for_ever {V} p f col c it (prev : list V) ws we
    start_offset end_offset vectors fuel :
  prev <> [] -> we < start_offset ->
  ParquetDataSet._extract_vectors_loop V fuel start_offset end_offset vectors
    (ParquetDataSet.mk V p f col c it prev ws we) = None.
Proof.
  intros Hp Hs. induction fuel as [|fuel IH]; [reflexivity|].
  cbn [ParquetDataSet._extract_vectors_loop].
  rewrite (bind_ok _ _ _ _ _ (get_batch_held _ _ _ _ _ _ _ _ Hp)).
  rewrite (truthy_nonempty _ Hp). cbn [negb]. rewrite bind_get.
  cbn [ParquetDataSet.file_batch_end].
  destruct (Z.gtb_spec start_offset we); [exact IH|lia].
Qed.

(** After [read(450)] and [seek(600)] the first batch is held and row
    600 lies past its window: [read(1)] returns with no amount of fuel. *)
Lemma parquet_seek_past_held_batch_never_returns fuel :
  ParquetDataSet.read Z StitchExample.files fuel 1 StitchExample.at_600 = None.
Proof.
  assert (E : StitchExample.at_600
              = ParquetDataSet.mk Z "vectors.parquet" (Some StitchExample.pq) "emb" 600
                  (Some [StitchExample.b2; StitchExample.b3]) StitchExample.b1 0 500)
    by (vm_compute; reflexivity).
  rewrite E. clear E.
  set (s := ParquetDataSet.mk Z _ _ _ _ _ _ _ _).
  assert (Hl : ParquetDataSet._load Z StitchExample.files s = Some (s, Ok tt))
    by reflexivity.
  pose proof (parquet_size_loaded StitchExample.files StitchExample.pq s eq_refl) as Hsz.
  change (ParquetDataSet.metadata_num_rows Z StitchExample.pq) with 1300 in Hsz.
  unfold ParquetDataSet.read.
  rewrite (bind_ok _ _ _ _ _ Hl), bind_get, (bind_ok _ _ _ _ _ Hsz).
  change (ParquetDataSet.current Z s) with 600.
  change (600 >=? 1300) with false. cbv iota.
  rewrite (bind_ok _ _ _ _ _ Hsz).
  change (600 + 1 >? 1300) with false. cbv iota. rewrite bind_ret.
  apply bind_timeout. apply extract_loop_skips_for_ever; [discriminate|lia].
Qed.

Lemma rows_range_all {A} (l : list A) : rows_range l 0 (len l) = l.
Proof. unfold rows_range, len. rewrite drop_0. apply take_ge. lia. Qed.

Lemma rows_range_one {A} (l : list A) k :
  rows_range l k (k + 1) = take 1 (drop (Z.to_nat k) l).
Proof. unfold rows_range. now replace (Z.to_nat (k + 1 - k)) with 1%nat by lia. Qed.

Lemma rows_range_empty {A} (l : list A) k : rows_range l k k = [].
Proof. unfold rows_range. now rewrite Z.sub_diag. Qed.

Lemma vectors_range_length r bytes dim a b :
  a <= b -> len (vectors_range r bytes dim a b) = b - a.
Proof. intros H. unfold vectors_range, len. rewrite vectors_at_length. lia. Qed.


(** C10 (amended): with the cursor below the size, [read(0)] returns an
    empty batch and leaves the cursor where it is: for the HDF5 reader
    and for the BigANN reader in any state in which [size()] returns,
    and for the Parquet reader when its cursor can be read next (the
    file is not loaded, or no batch is held, or the cursor lies in the
    window of the held batch). *)
Theorem read_zero_returns_an_empty_batch :
  (forall (V : Type) fs (s s1 : HDF5DataSet.t V) n,
      HDF5DataSet.size V fs s = Some (s1, Ok n) -> HDF5DataSet.current V s < n ->
      exists s', HDF5DataSet.read V fs 0 s = Some (s', Ok (Some []))
                 /\ HDF5DataSet.current V s' = HDF5DataSet.current V s)
  /\ (forall fs (s s1 : BigANNVectorDataSet.t) n,
      BigANNVectorDataSet.size fs s = Some (s1, Ok n) ->
      BigANNVectorDataSet.current s < n ->
      exists s', BigANNVectorDataSet.read fs 0 s = Some (s', Ok (Some (Array [])))
                 /\ BigANNVectorDataSet.current s' = BigANNVectorDataSet.current s)
  /\ (forall (V : Type) fs f (s : ParquetDataSet.t V) fuel,
      parquet_inv fs f s -> in_window s (ParquetDataSet.current V s) ->
      0 <= ParquetDataSet.current V s < ParquetDataSet.metadata_num_rows V f ->
      (length (batches_of f (ParquetDataSet.column V s)) < fuel)%nat ->
      exists s', ParquetDataSet.read V fs fuel 0 s = Some (s', Ok (Some []))
                 /\ ParquetDataSet.current V s' = ParquetDataSet.current V s).
Proof.
  split; [exact hdf5_read_zero|]. split; [exact bigann_read_zero|].
  intros V fs f s fuel Hinv Hwin Hcur Hfuel.
  destruct (parquet_read_spec fs f s 0 fuel Hinv Hwin ltac:(lia) ltac:(lia) Hfuel)
    as (s' & Hr & Hc & _). cbv zeta in Hr, Hc.
  destruct (Z.geb_spec (ParquetDataSet.current V s)
              (ParquetDataSet.metadata_num_rows V f)); [lia|].
  replace (Z.min (ParquetDataSet.current V s + 0) (ParquetDataSet.metadata_num_rows V f))
    with (ParquetDataSet.current V s) in Hr, Hc by lia.
  exists s'. split; [|exact Hc]. now rewrite Hr, rows_range_empty.
Qed.

(** C3 (amended): for every offset in [0, size()), [seek(offset)] and
    then [read(1)] return the vector a fresh sequential read yields
    after discarding [offset] vectors: for the HDF5 reader and for the
    BigANN reader of a well-formed file in any state, also when the seek
    moves backward; for the Parquet reader when the offset can be read
    next, that is the file is not loaded, or no batch is held, or the
    offset lies in the window of the held batch. *)
Theorem seek_then_read_one_agrees :
  (forall (V : Type) fs (s fresh : HDF5DataSet.t V) d offset,
      hdf5_rows fs s d -> hdf5_rows fs fresh d ->
      HDF5DataSet.current V fresh = 0 -> 0 <= offset < len d ->
      seek_read_agrees (HDF5_DataSet V fs)
        first_row_after (len d) fresh s offset)
  /\ (forall fs bytes (s fresh : BigANNVectorDataSet.t) offset,
      bigann_inv fs bytes s -> bigann_inv fs bytes fresh ->
      BigANNVectorDataSet.current fresh = 0 ->
      BigANNVectorDataSet.dataset_path fresh = BigANNVectorDataSet.dataset_path s ->
      0 <= offset < header_num_points bytes ->
      seek_read_agrees (BigANN_DataSet fs)
        first_vector_after (header_num_points bytes) fresh s offset)
  /\ (forall (V : Type) fs f (s fresh : ParquetDataSet.t V) offset fuel,
      parquet_inv fs f s -> in_window s offset ->
      parquet_inv fs f fresh -> in_window fresh 0 ->
      ParquetDataSet.current V fresh = 0 ->
      ParquetDataSet.column V fresh = ParquetDataSet.column V s ->
      0 <= offset < ParquetDataSet.metadata_num_rows V f ->
      (length (batches_of f (ParquetDataSet.column V s)) < fuel)%nat ->
      seek_read_agrees (Parquet_DataSet V fs fuel)
        first_row_after (ParquetDataSet.metadata_num_rows V f) fresh s offset).
Proof.
  split; [|split].
  - intros V fs s fresh d offset Hd Hfresh Hc0 Ho. unfold seek_read_agrees.
    cbn [DataSet.read DataSet.seek HDF5_DataSet].
    pose proof (hdf5_read_spec fs fresh d (len d) Hfresh ltac:(lia) ltac:(lia)) as Hall.
    cbv zeta in Hall. rewrite Hc0 in Hall.
    destruct (Z.geb_spec 0 (len d)); [lia|].
    replace (Z.min (0 + len d) (len d)) with (len d) in Hall by lia.
    rewrite rows_range_all in Hall.
    pose proof (hdf5_seek_spec fs s d offset Hd Ho) as Hk.
    set (s1 := HDF5DataSet.mk V _ _ offset (Some d)) in Hk.
    pose proof (hdf5_read_spec fs s1 d 1 ltac:(left; reflexivity)
                  ltac:(cbn; lia) ltac:(lia)) as Hone.
    cbv zeta in Hone. cbn [HDF5DataSet.current s1] in Hone.
    destruct (Z.geb_spec offset (len d)); [lia|].
    replace (Z.min (offset + 1) (len d)) with (offset + 1) in Hone by lia.
    rewrite rows_range_one in Hone.
    do 4 eexists. split; [exact Hall|]. split; [exact Hk|exact Hone].
  - intros fs bytes s fresh offset Hinv Hfresh Hc0 Hpath Ho. unfold seek_read_agrees.
    cbn [DataSet.read DataSet.seek BigANN_DataSet].
    destruct (bigann_read_spec fs bytes fresh (header_num_points bytes) Hfresh ltac:(lia))
      as (s0 & Hall & _). cbv zeta in Hall. rewrite Hc0, Hpath in Hall.
    destruct (Z.geb_spec 0 (header_num_points bytes)); [lia|].
    replace (Z.min (0 + header_num_points bytes) (header_num_points bytes))
      with (header_num_points bytes) in Hall by lia.
    destruct (bigann_seek_spec fs bytes s offset Hinv Ho) as (s1 & Hk & Hc1 & Hinv1 & Hp1).
    destruct (bigann_read_spec fs bytes s1 1 Hinv1 ltac:(lia)) as (s2 & Hone & _).
    cbv zeta in Hone. rewrite Hc1, Hp1 in Hone.
    destruct (Z.geb_spec offset (header_num_points bytes)); [lia|].
    replace (Z.min (offset + 1) (header_num_points bytes)) with (offset + 1) in Hone by lia.
    do 4 eexists. split; [exact Hall|]. split; [exact Hk|].
    rewrite Hone. cbn [first_vector_after]. unfold first_row_after.
    now rewrite vectors_range_one.
  - intros V fs f s fresh offset fuel Hinv Hwin Hfresh Hwin0 Hc0 Hcol Ho Hfuel.
    unfold seek_read_agrees. cbn [DataSet.read DataSet.seek Parquet_DataSet].
    pose proof Hinv as ((_ & Hn) & _).
    destruct (parquet_read_spec fs f fresh (ParquetDataSet.metadata_num_rows V f) fuel
                Hfresh ltac:(now rewrite Hc0) ltac:(lia) ltac:(lia)
                ltac:(now rewrite Hcol))
      as (s0 & Hall & _). cbv zeta in Hall. rewrite Hc0, Hcol in Hall.
    destruct (Z.geb_spec 0 (ParquetDataSet.metadata_num_rows V f)); [lia|].
    replace (Z.min (0 + ParquetDataSet.metadata_num_rows V f)
               (ParquetDataSet.metadata_num_rows V f))
      with (ParquetDataSet.metadata_num_rows V f) in Hall by lia.
    rewrite Hn, rows_range_all in Hall.
    destruct (parquet_seek_spec fs f s offset Hinv Ho) as (s1 & Hk & Hc1 & Hinv1 & Hcol1 & Hw1).
    destruct (parquet_read_spec fs f s1 1 fuel Hinv1
                ltac:(rewrite Hc1; now apply Hw1) ltac:(lia) ltac:(lia)
                ltac:(now rewrite Hcol1))
      as (s2 & Hone & _). cbv zeta in Hone. rewrite Hc1, Hcol1 in Hone.
    destruct (Z.geb_spec offset (ParquetDataSet.metadata_num_rows V f)); [lia|].
    replace (Z.min (offset + 1) (ParquetDataSet.metadata_num_rows V f))
      with (offset + 1) in Hone by lia.
    rewrite rows_range_one in Hone.
    do 4 eexists. split; [rewrite Hn; exact Hall|]. split; [exact Hk|exact Hone].
Qed.

(** The reader [SmallParquet.used] is a Parquet reader of a consistent
    file, holding the first batch with the window [0, 2]. *)
Lemma used_reader_inv : parquet_inv SmallParquet.files SmallParquet.pq SmallParquet.used.
Proof.
  split.
  - split; [repeat constructor; discriminate|reflexivity].
  - right. split; [reflexivity|]. right.
    exists [], [1; 2], [[3]]. repeat split. discriminate.
Qed.

Lemma constructed_reader_inv :
  parquet_inv SmallParquet.files SmallParquet.pq
    SmallParquet.constructed.
Proof.
  split.
  - split; [repeat constructor; discriminate|reflexivity].
  - left. split; reflexivity.
Qed.


Lemma read_zero_returns_an_empty_batch_witness :
  exists s',
    ParquetDataSet.read Z SmallParquet.files 3 0 SmallParquet.used
      = Some (s', Ok (Some []))
    /\ ParquetDataSet.current Z s' = 2.
Proof.
  apply (proj2 (proj2 read_zero_returns_an_empty_batch) Z SmallParquet.files
           SmallParquet.pq SmallParquet.used 3%nat used_reader_inv).
  - right; right. cbn. lia.
  - cbn. lia.
  - cbn. lia.
Defined.

Lemma seek_then_read_one_agrees_witness :
  exists s0 s1 s2,
    ParquetDataSet.read Z SmallParquet.files 3 3 SmallParquet.constructed
      = Some (s0, Ok (Some [1; 2; 3]))
    /\ ParquetDataSet.seek Z SmallParquet.files 1 SmallParquet.used = Some (s1, Ok tt)
    /\ ParquetDataSet.read Z SmallParquet.files 3 1 s1 = Some (s2, Ok (Some [2])).
Proof.
  destruct (proj2 (proj2 seek_then_read_one_agrees) Z SmallParquet.files
              SmallParquet.pq SmallParquet.used SmallParquet.constructed
              1 3%nat used_reader_inv)
    as (all & s0 & s1 & s2 & Hall & Hk & Hone).
  - right; right. cbn. lia.
  - exact constructed_reader_inv.
  - left. reflexivity.
  - reflexivity.
  - reflexivity.
  - cbn. lia.
  - cbn. lia.
  - assert (E : all = [1; 2; 3]).
    { assert (Hv : ParquetDataSet.read Z SmallParquet.files 3 3 SmallParquet.constructed
                   = Some (ParquetDataSet.mk Z "vectors.parquet" (Some SmallParquet.pq)
                             "emb" 3 (Some []) [3] 2 3, Ok (Some [1; 2; 3])))
        by reflexivity.
      cbn [DataSet.read Parquet_DataSet ParquetDataSet.metadata_num_rows SmallParquet.pq]
        in Hall.
      rewrite Hv in Hall. now inversion Hall. }
    subst all. exists s0, s1, s2. split; [exact Hall|]. split; [exact Hk|exact Hone].
Defined.

(** * Further properties of the readers *)

(** ** The factory *)

(** X1: [get_data_set] returns a reader exactly for the format "hdf5"
    with a context of the enum, for "bigann", and for "parquet" with a
    path and a column that are not empty.  The reader it returns has the
    path it was given, its cursor at 0 and no file open; the HDF5 reader
    has the data set name of its context and the Parquet reader its
    column.  Every exception it raises is a [ConfigurationError], except
    the one of the HDF5 constructor. *)
Theorem get_data_set_succeeds_iff (V : Type) (fmt path : string)
    (ctx : option Context) (col : option string) :
  ((exists r, get_data_set V fmt path ctx col = Ok r)
   <-> ((fmt = "hdf5" /\ ctx <> None)
        \/ fmt = "bigann"
        \/ (fmt = "parquet" /\ path <> EmptyString
            /\ exists c, col = Some c /\ c <> EmptyString)))
  /\ match get_data_set V fmt path ctx col with
     | Ok (HDF5 _ r) =>
         HDF5DataSet.dataset_path V r = path /\ HDF5DataSet.current V r = 0
         /\ HDF5DataSet.data V r = None
         /\ exists c, ctx = Some c /\ HDF5DataSet.context V r = data_set_name c
     | Ok (BigANN _ r) =>
         BigANNVectorDataSet.dataset_path r = path
         /\ BigANNVectorDataSet.current r = 0 /\ BigANNVectorDataSet.file r = None
     | Ok (Parquet _ r) =>
         ParquetDataSet.dataset_path V r = path /\ ParquetDataSet.current V r = 0
         /\ ParquetDataSet.file V r = None
         /\ col = Some (ParquetDataSet.column V r)
     | Raise e =>
         is_configuration_error e = negb (String.eqb fmt "hdf5")
     end.
Proof.
  unfold get_data_set, HDF5DataSet.FORMAT_NAME, BigANNVectorDataSet.FORMAT_NAME,
    ParquetDataSet.FORMAT_NAME.
  destruct (String.eqb_spec fmt "hdf5") as [->|Hh].
  { destruct ctx as [c|]; cbn.
    - split.
      + split; [intros _; left; split; [reflexivity|discriminate]|].
        intros _. destruct c; eexists; reflexivity.
      + destruct c; cbn; repeat split; eexists; split; reflexivity.
    - split; [|reflexivity]. split.
      + intros (r & Hr). discriminate.
      + intros [(_ & H)|[H|(H & _)]]; [now destruct H|discriminate|discriminate]. }
  destruct (String.eqb_spec fmt "bigann") as [->|Hb].
  { cbn. split; [split|repeat split].
    - intros _. right; left; reflexivity.
    - intros _. eexists; reflexivity. }
  destruct (String.eqb_spec fmt "parquet") as [->|Hp].
  { unfold ParquetDataSet.__init__.
    destruct (String.eqb_spec path EmptyString) as [->|Hpath].
    { split; [split|reflexivity].
      - intros (r & Hr). discriminate.
      - intros [(H & _)|[H|(_ & H & _)]]; [discriminate|discriminate|now destruct H]. }
    destruct col as [[|a c]|].
    - split; [split|reflexivity].
      + intros (r & Hr). discriminate.
      + intros [(H & _)|[H|(_ & _ & c & Hc & Hne)]]; [discriminate|discriminate|].
        congruence.
    - split; [split|cbn; repeat split].
      + intros _. right; right. split; [reflexivity|]. split; [assumption|].
        eexists; split; [reflexivity|discriminate].
      + intros _. eexists; reflexivity.
    - split; [split|reflexivity].
      + intros (r & Hr). discriminate.
      + intros [(H & _)|[H|(_ & _ & c & Hc & Hne)]]; discriminate. }
  split; [split|reflexivity].
  - intros (r & Hr). discriminate.
  - intros [(H & _)|[H|(H & _)]]; contradiction.
Qed.

Lemma get_data_set_succeeds_iff_witness :
  (exists r, get_data_set Z "parquet" "vectors.parquet" None (Some "emb") = Ok r)
  /\ ~ (exists r, get_data_set Z "hdf5" "vectors.hdf5" None None = Ok r).
Proof.
  split.
  - apply (proj1 (get_data_set_succeeds_iff Z "parquet" "vectors.parquet" None (Some "emb"))).
    right; right. split; [reflexivity|]. split; [discriminate|].
    exists "emb". split; [reflexivity|discriminate].
  - intros H.
    apply (proj1 (get_data_set_succeeds_iff Z "hdf5" "vectors.hdf5" None None)) in H.
    destruct H as [(_ & H)|[H|(H & _)]]; [now apply H|discriminate|discriminate].
Defined.

(** ** The end of the data, and the size *)

(** X5: for each of the three readers, in any state: once [read] has
    returned [None], the cursor is where it was and every further
    [read], with any chunk size, returns [None] and leaves the reader
    unchanged. *)
Theorem read_stays_at_the_end :
  (forall (V : Type) fs, eof_sticky (HDF5_DataSet V fs))
  /\ (forall fs, eof_sticky (BigANN_DataSet fs))
  /\ (forall (V : Type) fs fuel, eof_sticky (Parquet_DataSet V fs fuel)).
Proof.
  split; [|split].
  - intros V fs s s' k H. cbn in *.
    apply hdf5_read_none in H as (d & Hd & -> & Hlen). split; [reflexivity|].
    intros k'. unfold HDF5DataSet.read.
    rewrite (bind_ok _ _ _ _ _ (hdf5_load_spec fs _ _ (hdf5_rows_loaded fs s d))), bind_get.
    rewrite (bind_ok _ _ _ _ _ (hdf5_size_spec fs _ _ (hdf5_rows_loaded fs _ d))).
    cbn [HDF5DataSet.current HDF5DataSet.set_data].
    destruct (Z.geb_spec (HDF5DataSet.current V s) (len d)); [reflexivity|lia].
  - intros fs s s' k H. cbn in *.
    apply bigann_read_none in H as (Hf & Hlen & Hc). split; [exact Hc|].
    intros k'. unfold BigANNVectorDataSet.read.
    rewrite (bind_ok _ _ _ _ _ (load_opened fs s' Hf)), bind_get.
    rewrite (bind_ok _ _ _ _ _ (bigann_size_opened fs s' Hf)).
    destruct (Z.geb_spec (BigANNVectorDataSet.current s')
                (BigANNVectorDataSet.num_points s')); [reflexivity|lia].
  - intros V fs fuel s s' k H. cbn in *.
    apply parquet_read_none in H as (f & Hf & Hlen & Hc). split; [exact Hc|].
    intros k'. unfold ParquetDataSet.read.
    assert (ParquetDataSet._load V fs s' = Some (s', Ok tt)) as Hl.
    { unfold ParquetDataSet._load. now rewrite bind_get, Hf. }
    rewrite (bind_ok _ _ _ _ _ Hl), bind_get.
    rewrite (bind_ok _ _ _ _ _ (parquet_size_loaded fs f s' Hf)).
    destruct (Z.geb_spec (ParquetDataSet.current V s')
                (ParquetDataSet.metadata_num_rows V f)); [reflexivity|lia].
Qed.

Lemma read_stays_at_the_end_witness :
  BigANNVectorDataSet.read FbinExample.files 7 FbinExample.opened
  = Some (FbinExample.opened, Ok None).
Proof.
  assert (BigANNVectorDataSet.read FbinExample.files 1 FbinExample.opened
          = Some (FbinExample.opened, Ok None)) as H by reflexivity.
  apply (proj1 (proj2 read_stays_at_the_end) FbinExample.files
           FbinExample.opened FbinExample.opened 1) in H.
  exact (proj2 H 7).
Defined.

(** X6: for each of the three readers, in any state: a [size()] that
    returns a number does not move the cursor, and the next [size()]
    returns the same number and changes nothing. *)
Theorem size_is_repeatable :
  (forall (V : Type) fs, size_repeatable (HDF5_DataSet V fs))
  /\ (forall fs, size_repeatable (BigANN_DataSet fs))
  /\ (forall (V : Type) fs fuel, size_repeatable (Parquet_DataSet V fs fuel)).
Proof.
  split; [|split].
  - intros V fs s s1 n H. cbn in *.
    apply hdf5_size_inv in H as (d & Hd & -> & ->).
    split; [|reflexivity]. apply (hdf5_size_spec fs _ d (hdf5_rows_loaded fs s d)).
  - intros fs s s1 n H. cbn in *.
    apply size_inv in H as (Hl & ->).
    split; [apply bigann_size_opened, (load_ok_file fs _ _ Hl)|].
    apply (cursor_kept_load fs _ _ _ Hl).
  - intros V fs fuel s s1 n H. cbn in *.
    apply parquet_size_inv in H as (f & Hf & -> & Hc).
    split; [apply parquet_size_loaded, Hf|exact Hc].
Qed.

Lemma size_is_repeatable_witness :
  HDF5DataSet.size Z {[ "vectors.hdf5" := {[ "train" := [10; 20; 30] ]} ]}
    (HDF5DataSet.mk Z "vectors.hdf5" "train" 0 (Some [10; 20; 30]))
  = Some (HDF5DataSet.mk Z "vectors.hdf5" "train" 0 (Some [10; 20; 30]), Ok 3).
Proof.
  assert (HDF5DataSet.size Z {[ "vectors.hdf5" := {[ "train" := [10; 20; 30] ]} ]}
            (HDF5DataSet.mk Z "vectors.hdf5" "train" 0 None)
          = Some (HDF5DataSet.mk Z "vectors.hdf5" "train" 0 (Some [10; 20; 30]), Ok 3))
    as H by reflexivity.
  apply (proj1 size_is_repeatable) in H. exact (proj1 H).
Defined.

(** ** Opening the file *)

(** X2: the HDF5 reader [get_data_set] makes for a context reads the
    data set that context names ("train" for INDEX, "test" for QUERY,
    "neighbors" for NEIGHBORS): over a file that has it, [size()] is its
    number of rows and the first [read(k)] returns its first [k] rows
    ([None] if it has no row). *)
Theorem hdf5_reads_the_data_set_of_its_context (V : Type)
    (fs : gmap string (gmap string (list V))) (path : string) (ctx : Context)
    (col : option string) (file : gmap string (list V)) (d : list V) (k : Z) :
  path <> EmptyString -> fs !! path = Some file ->
  file !! data_set_name ctx = Some d -> 0 <= k ->
  exists r s1 s2,
    get_data_set V "hdf5" path (Some ctx) col = Ok (HDF5 V r)
    /\ HDF5DataSet.size V fs r = Some (s1, Ok (len d))
    /\ HDF5DataSet.read V fs k r
       = Some (s2, Ok (if len d =? 0 then None else Some (take (Z.to_nat k) d))).
Proof.
  intros Hp Hfs Hd Hk.
  exists (HDF5DataSet.mk V path (data_set_name ctx) 0 None).
  assert (hdf5_rows fs (HDF5DataSet.mk V path (data_set_name ctx) 0 None) d) as Hrows.
  { right. split; [reflexivity|]. exists file. split; [|exact Hd].
    unfold HDF5DataSet.h5py_File. cbn. apply String.eqb_neq in Hp. now rewrite Hp, Hfs. }
  eexists.
  exists (HDF5DataSet.mk V path (data_set_name ctx)
            (if 0 >=? len d then 0 else Z.min (0 + k) (len d)) (Some d)).
  split; [now destruct ctx|]. split.
  - apply (hdf5_size_spec fs _ d Hrows).
  - rewrite (hdf5_read_spec fs _ d k Hrows) by (cbn; lia). cbn.
    pose proof (len_nonneg d) as Hn.
    destruct (Z.geb_spec 0 (len d)), (Z.eqb_spec (len d) 0); try lia; [reflexivity|].
    assert (rows_range d 0 (Z.min (0 + k) (len d)) = take (Z.to_nat k) d) as ->;
      [|reflexivity].
    unfold rows_range. rewrite drop_0.
    destruct (Z.le_ge_cases k (len d)).
    + do 2 f_equal. lia.
    + rewrite !take_ge; [reflexivity| |]; unfold len in *; lia.
Qed.

Lemma hdf5_reads_the_data_set_of_its_context_witness :
  exists r s1 s2,
    get_data_set Z "hdf5" "vectors.hdf5" (Some QUERY) None = Ok (HDF5 Z r)
    /\ HDF5DataSet.size Z {[ "vectors.hdf5" := {[ "train" := [1; 2; 3]; "test" := [7; 8] ]} ]} r
       = Some (s1, Ok 2)
    /\ HDF5DataSet.read Z {[ "vectors.hdf5" := {[ "train" := [1; 2; 3]; "test" := [7; 8] ]} ]} 1 r
       = Some (s2, Ok (Some [7])).
Proof.
  apply (hdf5_reads_the_data_set_of_its_context Z
           {[ "vectors.hdf5" := {[ "train" := [1; 2; 3]; "test" := [7; 8] ]} ]}
           "vectors.hdf5" QUERY None {[ "train" := [1; 2; 3]; "test" := [7; 8] ]}
           [7; 8] 1).
  - discriminate.
  - reflexivity.
  - reflexivity.
  - lia.
Defined.

(** X3: a reader whose file cannot be opened fails at every access and
    stays as it was, so that the next access tries again.  With no file
    at the path, [read], [size] and [seek] (for the HDF5 and Parquet
    readers: [seek] of an offset that is not negative) raise [OSError];
    an HDF5 file without the data set of the context makes them raise
    [KeyError]. *)
Theorem failed_open_leaves_the_reader_unopened :
  (forall (V : Type) fs (s : HDF5DataSet.t V) e k,
      HDF5DataSet.data V s = None ->
      (fs !! HDF5DataSet.dataset_path V s = None /\ e = OSError)
      \/ (exists file, HDF5DataSet.dataset_path V s <> EmptyString
            /\ fs !! HDF5DataSet.dataset_path V s = Some file
            /\ file !! HDF5DataSet.context V s = None /\ e = KeyError) ->
      HDF5DataSet.read V fs k s = Some (s, Raise e)
      /\ HDF5DataSet.size V fs s = Some (s, Raise e)
      /\ (0 <= k -> HDF5DataSet.seek V fs k s = Some (s, Raise e)))
  /\ (forall fs (s : BigANNVectorDataSet.t) k,
      BigANNVectorDataSet.file s = None ->
      fs !! BigANNVectorDataSet.dataset_path s = None ->
      BigANNVectorDataSet.read fs k s = Some (s, Raise OSError)
      /\ BigANNVectorDataSet.size fs s = Some (s, Raise OSError)
      /\ BigANNVectorDataSet.seek fs k s = Some (s, Raise OSError))
  /\ (forall (V : Type) fs fuel (s : ParquetDataSet.t V) k,
      ParquetDataSet.file V s = None ->
      fs !! ParquetDataSet.dataset_path V s = None ->
      ParquetDataSet.read V fs fuel k s = Some (s, Raise OSError)
      /\ ParquetDataSet.size V fs s = Some (s, Raise OSError)
      /\ (0 <= k -> ParquetDataSet.seek V fs k s = Some (s, Raise OSError))).
Proof.
  split; [|split].
  - intros V fs s e k Hd He.
    assert (HDF5DataSet._load V fs s = Some (s, Raise e)) as Hl.
    { unfold HDF5DataSet._load. rewrite bind_get, Hd.
      unfold lift at 1, bind at 1, HDF5DataSet.h5py_File.
      destruct He as [(Hfs & ->)|(file & Hp & Hfs & Hk & ->)].
      - rewrite Hfs. now destruct (String.eqb _ _).
      - apply String.eqb_neq in Hp. now rewrite Hp, Hfs, Hk. }
    assert (HDF5DataSet.size V fs s = Some (s, Raise e)) as Hs.
    { unfold HDF5DataSet.size. now rewrite (bind_raise _ _ _ _ _ Hl). }
    split; [|split; [exact Hs|]].
    + unfold HDF5DataSet.read. now rewrite (bind_raise _ _ _ _ _ Hl).
    + intros Hk. unfold HDF5DataSet.seek, DataSet.BEGINNING.
      destruct (Z.ltb_spec k 0); [lia|]. now rewrite (bind_raise _ _ _ _ _ Hs).
  - intros fs s k Hf Hfs.
    assert (BigANNVectorDataSet._load fs s = Some (s, Raise OSError)) as Hl.
    { unfold BigANNVectorDataSet._load. rewrite bind_get, Hf.
      unfold BigANNVectorDataSet._init_internal_params. rewrite bind_get.
      unfold lift at 1, bind at 1, BigANNVectorDataSet.py_open.
      rewrite Hfs. now destruct (String.eqb _ _). }
    split; [|split].
    + unfold BigANNVectorDataSet.read. now rewrite (bind_raise _ _ _ _ _ Hl).
    + unfold BigANNVectorDataSet.size. now rewrite (bind_raise _ _ _ _ _ Hl).
    + unfold BigANNVectorDataSet.seek. now rewrite (bind_raise _ _ _ _ _ Hl).
  - intros V fs fuel s k Hf Hfs.
    assert (ParquetDataSet._load V fs s = Some (s, Raise OSError)) as Hl.
    { unfold ParquetDataSet._load. rewrite bind_get, Hf.
      unfold lift at 1, bind at 1, ParquetDataSet.pq_ParquetFile.
      rewrite Hfs. now destruct (String.eqb _ _). }
    assert (ParquetDataSet.size V fs s = Some (s, Raise OSError)) as Hs.
    { unfold ParquetDataSet.size. now rewrite (bind_raise _ _ _ _ _ Hl). }
    split; [|split; [exact Hs|]].
    + unfold ParquetDataSet.read. now rewrite (bind_raise _ _ _ _ _ Hl).
    + intros Hk. unfold ParquetDataSet.seek, DataSet.BEGINNING.
      destruct (Z.ltb_spec k 0); [lia|]. now rewrite (bind_raise _ _ _ _ _ Hs).
Qed.

Lemma failed_open_leaves_the_reader_unopened_witness :
  HDF5DataSet.read Z {[ "vectors.hdf5" := {[ "train" := [1; 2; 3] ]} ]} 1
    (HDF5DataSet.mk Z "vectors.hdf5" "test" 0 None)
  = Some (HDF5DataSet.mk Z "vectors.hdf5" "test" 0 None, Raise KeyError)
  /\ BigANNVectorDataSet.size FbinExample.files (BigANNVectorDataSet.__init__ "absent.fbin")
     = Some (BigANNVectorDataSet.__init__ "absent.fbin", Raise OSError).
Proof.
  split.
  - apply (proj1 failed_open_leaves_the_reader_unopened Z
             {[ "vectors.hdf5" := {[ "train" := [1; 2; 3] ]} ]}
             (HDF5DataSet.mk Z "vectors.hdf5" "test" 0 None) KeyError 1).
    + reflexivity.
    + right. exists {[ "train" := [1; 2; 3] ]}.
      split; [discriminate|]. repeat split; reflexivity.
  - apply (proj1 (proj2 failed_open_leaves_the_reader_unopened) FbinExample.files
             (BigANNVectorDataSet.__init__ "absent.fbin") 0); reflexivity.
Defined.

(** X4: once a reader has loaded its data (HDF5) or opened its file
    (BigANN, Parquet), [read], [seek] and [size] do not go back to the
    file system: they give the same outcome whatever files exist. *)
Theorem opened_reader_does_not_open_its_file_again :
  (forall (V : Type) fs fs' (s : HDF5DataSet.t V) k,
      HDF5DataSet.data V s <> None ->
      HDF5DataSet.read V fs k s = HDF5DataSet.read V fs' k s
      /\ HDF5DataSet.seek V fs k s = HDF5DataSet.seek V fs' k s
      /\ HDF5DataSet.size V fs s = HDF5DataSet.size V fs' s)
  /\ (forall fs fs' (s : BigANNVectorDataSet.t) k,
      BigANNVectorDataSet.file s <> None ->
      BigANNVectorDataSet.read fs k s = BigANNVectorDataSet.read fs' k s
      /\ BigANNVectorDataSet.seek fs k s = BigANNVectorDataSet.seek fs' k s
      /\ BigANNVectorDataSet.size fs s = BigANNVectorDataSet.size fs' s)
  /\ (forall (V : Type) fs fs' fuel (s : ParquetDataSet.t V) k,
      ParquetDataSet.file V s <> None ->
      ParquetDataSet.read V fs fuel k s = ParquetDataSet.read V fs' fuel k s
      /\ ParquetDataSet.seek V fs k s = ParquetDataSet.seek V fs' k s
      /\ ParquetDataSet.size V fs s = ParquetDataSet.size V fs' s).
Proof.
  split; [|split].
  - intros V fs fs' s k Hd.
    destruct (HDF5DataSet.data V s) as [d|] eqn:Hdata; [clear Hd|now destruct Hd].
    assert (forall fs0, hdf5_rows fs0 s d) as Hrows by (intros; now left).
    assert (forall fs0, HDF5DataSet.size V fs0 s = Some (s, Ok (len d))) as Hs.
    { intros fs0. rewrite (hdf5_size_spec fs0 s d (Hrows fs0)).
      destruct s; cbn in *; now subst. }
    assert (forall fs0, HDF5DataSet._load V fs0 s = Some (s, Ok tt)) as Hl.
    { intros fs0. rewrite (hdf5_load_spec fs0 s d (Hrows fs0)).
      destruct s; cbn in *; now subst. }
    split; [|split].
    + unfold HDF5DataSet.read.
      rewrite !(bind_ok _ _ _ _ _ (Hl _)), !bind_get, !(bind_ok _ _ _ _ _ (Hs _)).
      destruct (_ >=? _); [reflexivity|].
      rewrite !(bind_ok _ _ _ _ _ (Hs _)).
      destruct (_ >? _); [|reflexivity].
      now rewrite !(bind_ok _ _ _ _ _ (Hs _)).
    + unfold HDF5DataSet.seek. destruct (_ <? _); [reflexivity|].
      now rewrite !(bind_ok _ _ _ _ _ (Hs _)).
    + now rewrite !Hs.
  - intros fs fs' s k Hf.
    pose proof (fun fs0 => load_opened fs0 s Hf) as Hl.
    pose proof (fun fs0 => bigann_size_opened fs0 s Hf) as Hs.
    split; [|split].
    + unfold BigANNVectorDataSet.read.
      rewrite !(bind_ok _ _ _ _ _ (Hl _)), !bind_get, !(bind_ok _ _ _ _ _ (Hs _)).
      destruct (_ >=? _); [reflexivity|].
      rewrite !(bind_ok _ _ _ _ _ (Hs _)).
      destruct (_ >? _); [|reflexivity].
      now rewrite !(bind_ok _ _ _ _ _ (Hs _)).
    + unfold BigANNVectorDataSet.seek. rewrite !(bind_ok _ _ _ _ _ (Hl _)).
      destruct (_ <? _); [reflexivity|].
      now rewrite !(bind_ok _ _ _ _ _ (Hs _)).
    + now rewrite !Hs.
  - intros V fs fs' fuel s k Hf.
    destruct (ParquetDataSet.file V s) as [f|] eqn:Hfile; [clear Hf|now destruct Hf].
    pose proof (fun fs0 => parquet_size_loaded fs0 f s Hfile) as Hs.
    assert (forall fs0, ParquetDataSet._load V fs0 s = Some (s, Ok tt)) as Hl.
    { intros fs0. unfold ParquetDataSet._load. now rewrite bind_get, Hfile. }
    split; [|split].
    + unfold ParquetDataSet.read.
      rewrite !(bind_ok _ _ _ _ _ (Hl _)), !bind_get, !(bind_ok _ _ _ _ _ (Hs _)).
      destruct (_ >=? _); [reflexivity|].
      rewrite !(bind_ok _ _ _ _ _ (Hs _)).
      destruct (_ >? _); [|reflexivity].
      now rewrite !(bind_ok _ _ _ _ _ (Hs _)).
    + unfold ParquetDataSet.seek. destruct (_ <? _); [reflexivity|].
      now rewrite !(bind_ok _ _ _ _ _ (Hs _)).
    + now rewrite !Hs.
Qed.

Lemma opened_reader_does_not_open_its_file_again_witness :
  ParquetDataSet.read Z SmallParquet.files 3 1 SmallParquet.used
  = ParquetDataSet.read Z ∅ 3 1 SmallParquet.used.
Proof.
  apply (proj2 (proj2 opened_reader_does_not_open_its_file_again) Z
           SmallParquet.files ∅ 3%nat SmallParquet.used 1).
  discriminate.
Defined.

(** ** Reading in chunks *)

Lemma total_nonneg chunks : Forall (fun c => 0 <= c) chunks -> 0 <= total chunks.
Proof. unfold total. induction 1; cbn; lia. Qed.

Lemma rows_read_cons_none {B A} (items : B -> list A) rs :
  rows_read items (None :: rs) = rows_read items rs.
Proof. reflexivity. Qed.

Lemma rows_read_cons_some {B A} (items : B -> list A) b rs :
  rows_read items (Some b :: rs) = items b ++ rows_read items rs.
Proof. reflexivity. Qed.

(** The contiguous ranges of a run, put together, are one range. *)
Lemma rows_read_contiguous_ranges {A} (rows : list A) chunks : forall cur,
  0 <= cur -> Forall (fun c => 0 <= c) chunks ->
  rows_read id (contiguous_ranges rows cur chunks)
  = rows_range rows cur (cur + total chunks).
Proof.
  induction chunks as [|c chunks IH]; intros cur Hcur Hall.
  - cbn. unfold rows_range. replace (cur + 0 - cur) with 0 by lia. reflexivity.
  - inversion Hall as [|? ? Hc Hrest]; subst.
    pose proof (total_nonneg _ Hrest) as Ht.
    cbn [contiguous_ranges total foldr]. fold (total chunks).
    destruct (Z.geb_spec cur (len rows)) as [Hend|Hmore].
    + rewrite rows_read_cons_none, IH by assumption.
      unfold rows_range. rewrite drop_ge by (unfold len in Hend; lia).
      now rewrite !take_nil.
    + rewrite rows_read_cons_some, IH by (try assumption; lia). cbn [id].
      unfold rows_range.
      destruct (Z.le_gt_cases (cur + c) (len rows)) as [Hin|Hout].
      * rewrite Z.min_l by lia.
        replace (Z.to_nat (cur + c)) with (Z.to_nat cur + Z.to_nat c)%nat by lia.
        replace (Z.to_nat (cur + c - cur)) with (Z.to_nat c) by lia.
        rewrite <- drop_drop, take_take_drop. f_equal. lia.
      * rewrite Z.min_r by lia.
        rewrite (drop_ge rows (Z.to_nat (len rows))) by (unfold len; lia).
        rewrite take_nil, app_nil_r.
        rewrite !take_ge; [reflexivity| |]; rewrite length_drop; unfold len in *; lia.
Qed.

Lemma read_run_parquet {V} (fs : gmap string (ParquetDataSet.ParquetFile V)) fuel chunks :
  forall s, read_run (Parquet_DataSet V fs fuel) chunks s = read_chunks fs fuel chunks s.
Proof.
  induction chunks as [|c chunks IH]; intros s; [reflexivity|].
  cbn. destruct (ParquetDataSet.read V fs fuel c s) as [[s' [r|e]]|]; try reflexivity.
  now rewrite IH.
Qed.

Lemma read_run_hdf5 {V} (fs : gmap string (gmap string (list V))) d chunks :
  Forall (fun c => 0 <= c) chunks ->
  forall s, hdf5_rows fs s d -> 0 <= HDF5DataSet.current V s ->
  read_run (HDF5_DataSet V fs) chunks s
  = Some (contiguous_ranges d (HDF5DataSet.current V s) chunks).
Proof.
  induction 1 as [|c chunks Hc _ IH]; intros s Hd Hcur; [reflexivity|].
  cbn [read_run contiguous_ranges DataSet.read HDF5_DataSet].
  rewrite (hdf5_read_spec fs s d c Hd Hcur Hc).
  destruct (Z.geb_spec (HDF5DataSet.current V s) (len d)) as [Hend|Hmore].
  - rewrite IH; [reflexivity|now left|exact Hcur].
  - rewrite IH; [reflexivity|now left|cbn; lia].
Qed.

(** X7: a run of [read] calls on an HDF5 reader, with chunk sizes that
    are not negative, never fails, and the batches it returns, put
    together, are the rows from the cursor on, as many as were asked for
    in all (fewer at the end of the data): no row is skipped or
    repeated.  From cursor 0, chunk sizes that add up to the number of
    rows or more return the whole data set. *)
Theorem hdf5_reads_return_the_rows_in_order (V : Type)
    (fs : gmap string (gmap string (list V))) (s : HDF5DataSet.t V)
    (d : list V) (chunks : list Z) :
  hdf5_rows fs s d -> 0 <= HDF5DataSet.current V s ->
  Forall (fun chunk_size => 0 <= chunk_size) chunks ->
  exists results,
    read_run (HDF5_DataSet V fs) chunks s = Some results
    /\ rows_read id results
       = rows_range d (HDF5DataSet.current V s)
           (HDF5DataSet.current V s + total chunks)
    /\ (HDF5DataSet.current V s = 0 -> len d <= total chunks ->
        rows_read id results = d).
Proof.
  intros Hd Hcur Hall. eexists. split; [exact (read_run_hdf5 fs d chunks Hall s Hd Hcur)|].
  rewrite rows_read_contiguous_ranges by assumption. split; [reflexivity|].
  intros -> Hlen. unfold rows_range. rewrite drop_0.
  apply take_ge. unfold len in Hlen. lia.
Qed.

Lemma hdf5_reads_return_the_rows_in_order_witness :
  exists results,
    read_run (HDF5_DataSet Z ∅) [1; 5; 2] HDF5Example.loaded = Some results
    /\ rows_read id results = [30].
Proof.
  destruct (hdf5_reads_return_the_rows_in_order Z ∅ HDF5Example.loaded
              [10; 20; 30] [1; 5; 2]) as (results & Hrun & Hrows & _).
  - left; reflexivity.
  - cbn; lia.
  - repeat constructor; lia.
  - exists results. split; [exact Hrun|]. rewrite Hrows. reflexivity.
Defined.

(** X9: a run of [read] calls on a newly constructed Parquet reader,
    with chunk sizes that are not negative, over a file whose batches
    are not empty and add up to the declared row count, finishes (each
    call within one pass more than there are batches), and the batches
    it returns, put together, are the first rows of the column, as many
    as were asked for in all; all of them when that is the row count or
    more. *)
Theorem parquet_reads_return_the_rows_in_order (V : Type)
    (fs : gmap string (ParquetDataSet.ParquetFile V))
    (path column : string) (f : ParquetDataSet.ParquetFile V)
    (s0 : ParquetDataSet.t V) (chunks : list Z) (fuel : nat) :
  ParquetDataSet.__init__ V path (Some column) = Ok s0 ->
  fs !! path = Some f ->
  consistent f column ->
  Forall (fun chunk_size => 0 <= chunk_size) chunks ->
  (length (batches_of f column) < fuel)%nat ->
  exists results,
    read_run (Parquet_DataSet V fs fuel) chunks s0 = Some results
    /\ rows_read id results = take (Z.to_nat (total chunks)) (rows_of f column)
    /\ (ParquetDataSet.metadata_num_rows V f <= total chunks ->
        rows_read id results = rows_of f column).
Proof.
  intros Hinit Hfs Hcons Hall Hfuel.
  unfold ParquetDataSet.__init__ in Hinit.
  destruct (String.eqb_spec path EmptyString) as [|Hp]; [discriminate|].
  assert (s0 = ParquetDataSet.mk V path None column DataSet.BEGINNING None [] 0 0
          /\ column <> EmptyString) as (-> & Hcol).
  { destruct column; [discriminate|]. split; [congruence|discriminate]. }
  eexists. split.
  - rewrite read_run_parquet.
    apply (read_chunks_spec fs f column fuel chunks Hall Hfuel).
    + split; [exact Hcons|]. left. split; [reflexivity|].
      unfold ParquetDataSet.pq_ParquetFile. cbn.
      apply String.eqb_neq in Hp. now rewrite Hp, Hfs.
    + now left.
    + cbn. unfold DataSet.BEGINNING. lia.
    + reflexivity.
  - cbn [ParquetDataSet.current]. unfold DataSet.BEGINNING.
    rewrite rows_read_contiguous_ranges by (assumption || lia).
    unfold rows_range. rewrite drop_0, Z.add_0_l, Z.sub_0_r.
    split; [reflexivity|]. intros Hlen. apply take_ge.
    destruct Hcons as (_ & Hn). rewrite Hn in Hlen. unfold len in Hlen. lia.
Qed.

Lemma parquet_reads_return_the_rows_in_order_witness :
  exists results,
    read_run (Parquet_DataSet Z SmallParquet.files 3) [2; 2] SmallParquet.constructed
      = Some results
    /\ rows_read id results = [1; 2; 3].
Proof.
  destruct (parquet_reads_return_the_rows_in_order Z SmallParquet.files
              "vectors.parquet" "emb" SmallParquet.pq SmallParquet.constructed
              [2; 2] 3) as (results & Hrun & _ & Hall).
  - reflexivity.
  - reflexivity.
  - split; [repeat constructor; discriminate|reflexivity].
  - repeat constructor; lia.
  - cbn; lia.
  - exists results. split; [exact Hrun|]. apply Hall. cbn. lia.
Defined.

Lemma vectors_range_app r bytes dim a b c :
  a <= b -> b <= c ->
  vectors_range r bytes dim a b ++ vectors_range r bytes dim b c
  = vectors_range r bytes dim a c.
Proof.
  intros Hab Hbc. unfold vectors_range.
  replace (Z.to_nat (c - a)) with (Z.to_nat (b - a) + Z.to_nat (c - b))%nat by lia.
  rewrite vectors_at_app. do 2 f_equal. rewrite Z2Nat.id by lia. ring.
Qed.

Lemma vectors_range_nil r bytes dim a : vectors_range r bytes dim a a = [].
Proof. unfold vectors_range. now rewrite Z.sub_diag. Qed.

Section BigANNRun.
Import BigANNVectorDataSet.
Variable fs : gmap string (list byte).

(** [read] of a reader with its file open at any byte: it reads from
    where the file stands, as many vectors as the cursor asks for. *)
Lemma bigann_read_opened r bytes p pos c n d b chunk_size :
  0 <= d -> 0 <= pos -> c < n ->
  let stop := Z.min (c + chunk_size) n in
  let k := Z.to_nat (stop - c) in
  pos + Z.of_nat k * (d * value_size r) <= len bytes ->
  read fs chunk_size (mk p (Some (mkFileObj bytes pos)) c n d b (Some (Some r)))
  = Some (mk p (Some (mkFileObj bytes (pos + Z.of_nat k * (d * value_size r))))
             stop n d b (Some (Some r)),
          Ok (Some (Array (vectors_at r bytes d pos k)))).
Proof.
  intros Hd Hpos Hc stop k Hlen.
  set (s := mk p (Some (mkFileObj bytes pos)) c n d b (Some (Some r))).
  assert (file s <> None) as Hf by discriminate.
  pose proof (bigann_size_opened fs s Hf) as Hsz. cbn [num_points s] in Hsz.
  unfold read.
  rewrite (bind_ok _ _ _ _ _ (load_opened fs s Hf)), bind_get, (bind_ok _ _ _ _ _ Hsz).
  cbn [current s]. destruct (Z.geb_spec c n); [lia|].
  rewrite (bind_ok _ _ _ _ _ Hsz).
  assert (Hstop : (if c + chunk_size >? n then size fs else ret (c + chunk_size)) s
                  = Some (s, Ok stop)).
  { unfold stop. destruct (Z.gtb_spec (c + chunk_size) n).
    - rewrite Hsz. do 3 f_equal. lia.
    - unfold ret. do 3 f_equal. lia. }
  rewrite (bind_ok _ _ _ _ _ Hstop), bind_get. cbn [current s]. fold k. unfold s.
  rewrite (bind_ok _ _ _ _ _ (read_vectors_ok r bytes p c n d b k pos Hd Hpos Hlen)).
  rewrite bind_modify. unfold ret, set_current. bigann_attrs.
  now rewrite np_asarray_arrays.
Qed.

Lemma read_run_bigann bytes chunks :
  Forall (fun c => 0 <= c) chunks ->
  forall s, bigann_inv fs bytes s ->
  exists results,
    read_run (BigANN_DataSet fs) chunks s = Some results
    /\ rows_read array_items results
       = vectors_range (reader_for (extension (dataset_path s))) bytes
           (header_dimension bytes) (current s)
           (Z.min (current s + total chunks) (header_num_points bytes)).
Proof.
  induction 1 as [|c chunks Hc Hall IH]; intros s Hinv.
  - exists []. split; [reflexivity|]. cbn [total foldr].
    destruct Hinv as (_ & Hcur & _).
    rewrite Z.add_0_r, Z.min_l by lia. now rewrite vectors_range_nil.
  - pose proof (total_nonneg _ Hall) as Ht.
    destruct (bigann_read_spec fs bytes s c Hinv Hc) as (s' & Hr & Hc' & Hinv' & Hp').
    destruct (IH s' Hinv') as (results & Hrun & Hrows).
    pose proof Hinv as (_ & Hcur & _).
    cbn [read_run DataSet.read BigANN_DataSet]. rewrite Hr, Hrun. cbn [fmap option_fmap option_map].
    eexists. split; [reflexivity|].
    cbn [total foldr]. fold (total chunks). rewrite Hp', Hc' in Hrows.
    destruct (Z.geb_spec (current s) (header_num_points bytes)) as [Hend|Hmore].
    + rewrite rows_read_cons_none, Hrows.
      rewrite !Z.min_r by lia. reflexivity.
    + rewrite rows_read_cons_some, Hrows. cbn [array_items].
      rewrite vectors_range_app by lia. f_equal. lia.
Qed.

End BigANNRun.

(** X8: a run of [read] calls on a newly constructed BigANN reader of a
    well-formed file, with chunk sizes that are not negative, never
    fails, and the batches it returns, put together, are the first
    vectors of the file, as many as were asked for in all and at most
    [num_points]. *)
Theorem bigann_reads_return_the_vectors_in_order (fs : gmap string (list byte))
    (path : string) (bytes : list byte) (chunks : list Z) :
  well_formed path bytes -> fs !! path = Some bytes ->
  Forall (fun chunk_size => 0 <= chunk_size) chunks ->
  let r := reader_for (extension path) in
  let n := header_num_points bytes in
  exists results,
    read_run (BigANN_DataSet fs) chunks (BigANNVectorDataSet.__init__ path) = Some results
    /\ rows_read array_items results
       = vectors_range r bytes (header_dimension bytes) 0 (Z.min (total chunks) n)
    /\ len (rows_read array_items results) = Z.min (total chunks) n.
Proof.
  intros Hwf Hfs Hall r n.
  pose proof (bigann_inv_reachable fs path bytes [] Hwf Hfs ltac:(constructor)) as Hinv.
  cbn [foldl] in Hinv.
  destruct (read_run_bigann fs bytes chunks Hall _ Hinv) as (results & Hrun & Hrows).
  unfold BigANNVectorDataSet.__init__ in Hrows at 1 2 3. bigann_attrs.
  unfold DataSet.BEGINNING in Hrows. rewrite Z.add_0_l in Hrows.
  fold r n in Hrows. exists results.
  split; [exact Hrun|]. split; [exact Hrows|].
  pose proof (total_nonneg _ Hall). pose proof (int_from_bytes_little_nonneg (take 4 bytes)).
  rewrite Hrows, vectors_range_length by (unfold n, header_num_points; lia). lia.
Qed.

Lemma bigann_reads_return_the_vectors_in_order_witness :
  exists results,
    read_run (BigANN_DataSet FbinExample.files) [1; 1; 1]
      (BigANNVectorDataSet.__init__ "vectors.u8bin") = Some results
    /\ rows_read array_items results
       = [Array [FbinExample.f 1; FbinExample.f 2]; Array [FbinExample.f 3; FbinExample.f 4]].
Proof.
  destruct (bigann_reads_return_the_vectors_in_order FbinExample.files
              "vectors.u8bin" FbinExample.u8bin_bytes [1; 1; 1])
    as (results & Hrun & Hrows & _).
  - split; [discriminate|]. split; [split; vm_compute; discriminate|].
    split; [left; reflexivity|reflexivity].
  - reflexivity.
  - repeat constructor; lia.
  - exists results. split; [exact Hrun|]. rewrite Hrows. reflexivity.
Defined.

(** ** The Parquet reader outside the window of its batch *)

Section ParquetOutOfWindow.
Import ParquetDataSet.
Context {V : Type}.
Variable fs : gmap string (ParquetFile V).
Implicit Types (s : t V) (f : ParquetFile V).

Lemma parquet_load_loaded f s : file V s = Some f -> _load V fs s = Some (s, Ok tt).
Proof. intros Hf. unfold _load. now rewrite bind_get, Hf. Qed.

(** [read] up to the computation of the range, on a loaded reader whose
    cursor is before the end. *)
Lemma parquet_read_loaded f s chunk_size fuel :
  file V s = Some f -> current V s < metadata_num_rows V f ->
  read V fs fuel chunk_size s
  = (vectors <- _extract_vectors V fuel (current V s)
                  (Z.min (current V s + chunk_size) (metadata_num_rows V f)) ;;
     modify (set_current V (Z.min (current V s + chunk_size) (metadata_num_rows V f))) ;;
     ret (Some vectors)) s.
Proof.
  intros Hf Hc. pose proof (parquet_size_loaded fs f s Hf) as Hsz.
  unfold read.
  rewrite (bind_ok _ _ _ _ _ (parquet_load_loaded f s Hf)), bind_get, (bind_ok _ _ _ _ _ Hsz).
  destruct (Z.geb_spec (current V s) (metadata_num_rows V f)); [lia|].
  rewrite (bind_ok _ _ _ _ _ Hsz).
  destruct (Z.gtb_spec (current V s + chunk_size) (metadata_num_rows V f)).
  - rewrite (bind_ok _ _ _ _ _ Hsz), Z.min_r by lia. reflexivity.
  - rewrite bind_ret, Z.min_l by lia. reflexivity.
Qed.

(** A cursor past the window of the held batch: no read returns. *)
Lemma parquet_read_past_window f s chunk_size fuel :
  file V s = Some f -> prev_batch V s <> [] ->
  file_batch_end V s < current V s < metadata_num_rows V f ->
  read V fs fuel chunk_size s = None.
Proof.
  intros Hf Hp Hc. rewrite (parquet_read_loaded f s chunk_size fuel Hf) by lia.
  apply bind_timeout. destruct s as [p fl col c it prev ws we]. cbn in *.
  now apply extract_loop_skips_for_ever.
Qed.

End ParquetOutOfWindow.

(** X11: a Parquet reader that has read [k] rows of the first batch
    ([0 < k <= len(batch)]) holds that batch.  After a [seek] to a row
    past the end of that batch, [seek] having moved only the cursor,
    no [read] returns: the extraction loop takes the held batch again
    and again. *)
Theorem parquet_seek_past_the_held_batch_hangs (V : Type)
    (fs : gmap string (ParquetDataSet.ParquetFile V))
    (path column : string) (f : ParquetDataSet.ParquetFile V)
    (b1 : list V) (rest : list (list V)) (s0 : ParquetDataSet.t V) (k offset : Z) :
  ParquetDataSet.__init__ V path (Some column) = Ok s0 ->
  fs !! path = Some f ->
  batches_of f column = b1 :: rest ->
  0 < k <= len b1 ->
  len b1 < offset < ParquetDataSet.metadata_num_rows V f ->
  exists s1 s2,
    (forall fuel, (0 < fuel)%nat ->
       ParquetDataSet.read V fs fuel k s0 = Some (s1, Ok (Some (take (Z.to_nat k) b1))))
    /\ ParquetDataSet.seek V fs offset s1 = Some (s2, Ok tt)
    /\ forall fuel chunk_size, ParquetDataSet.read V fs fuel chunk_size s2 = None.
Proof.
  intros Hinit Hfs Hb Hk Ho.
  unfold ParquetDataSet.__init__ in Hinit.
  destruct (String.eqb_spec path EmptyString) as [|Hp]; [discriminate|].
  assert (s0 = ParquetDataSet.mk V path None column DataSet.BEGINNING None [] 0 0)
    as -> by (destruct column; [discriminate|congruence]).
  set (n := ParquetDataSet.metadata_num_rows V f) in *.
  assert (b1 <> []) as Hne by (intros ->; unfold len in Hk; simpl in Hk; lia).
  exists (ParquetDataSet.mk V path (Some f) column k (Some rest) b1 0 (len b1)).
  exists (ParquetDataSet.mk V path (Some f) column offset (Some rest) b1 0 (len b1)).
  split; [|split].
  - intros [|fuel] Hfuel; [lia|].
    assert (ParquetDataSet._load V fs
              (ParquetDataSet.mk V path None column DataSet.BEGINNING None [] 0 0)
            = Some (ParquetDataSet.mk V path (Some f) column 0 (Some (b1 :: rest)) [] 0 0,
                    Ok tt)) as Hl.
    { unfold ParquetDataSet._load. rewrite bind_get. cbn [ParquetDataSet.file].
      unfold lift at 1, bind at 1, ParquetDataSet.pq_ParquetFile.
      cbn [ParquetDataSet.dataset_path]. apply String.eqb_neq in Hp. rewrite Hp, Hfs.
      run. cbn. unfold batches_of in Hb. now rewrite Hb. }
    unfold ParquetDataSet.read at 1. rewrite (bind_ok _ _ _ _ _ Hl), bind_get.
    set (s := ParquetDataSet.mk V path (Some f) column 0 (Some (b1 :: rest)) [] 0 0).
    pose proof (parquet_size_loaded fs f s eq_refl) as Hsz. fold n in Hsz.
    rewrite (bind_ok _ _ _ _ _ Hsz). cbn [ParquetDataSet.current s].
    destruct (Z.geb_spec 0 n); [lia|]. rewrite (bind_ok _ _ _ _ _ Hsz).
    destruct (Z.gtb_spec (0 + k) n); [lia|]. rewrite bind_ret.
    rewrite Z.add_0_l.
    assert (ParquetDataSet._extract_vectors V (S fuel) 0 k s
            = Some (ParquetDataSet.mk V path (Some f) column 0 (Some rest) b1 0 (len b1),
                    Ok (take (Z.to_nat k) b1))) as Hex.
    { unfold ParquetDataSet._extract_vectors, s.
      cbn [ParquetDataSet._extract_vectors_loop].
      rewrite (bind_ok _ _ _ _ _ (get_batch_pull _ _ _ _ _ _ _ _)).
      rewrite (truthy_nonempty _ Hne). cbn [negb]. rewrite bind_get.
      cbn [ParquetDataSet.file_batch_end ParquetDataSet.file_batch_start].
      rewrite Z.add_0_l.
      destruct (Z.gtb_spec 0 (len b1)); [lia|].
      destruct (Z.ltb_spec 0 0); [lia|].
      destruct (Z.leb_spec k (len b1)); [|lia].
      rewrite bind_modify. unfold ret.
      replace (len b1 - (len b1 - 0)) with 0 by lia.
      replace (len b1 - (len b1 - k)) with k by lia.
      rewrite py_slice_in_range by lia. cbn [app].
      unfold rows_range. rewrite Z.sub_0_r. reflexivity. }
    rewrite (bind_ok _ _ _ _ _ Hex). reflexivity.
  - set (s1 := ParquetDataSet.mk V path (Some f) column k (Some rest) b1 0 (len b1)).
    rewrite (parquet_seek_cases V fs s1 s1 n offset (parquet_size_loaded fs f s1 eq_refl)).
    destruct (Z.ltb_spec offset 0); [lia|].
    destruct (Z.geb_spec offset n); [lia|]. reflexivity.
  - intros fuel chunk_size. apply (parquet_read_past_window fs f); [reflexivity|exact Hne|].
    cbn. lia.
Qed.

Lemma parquet_seek_past_the_held_batch_hangs_witness :
  exists s1 s2,
    (forall fuel, (0 < fuel)%nat ->
       ParquetDataSet.read Z StitchExample.files fuel 450 StitchExample.constructed
       = Some (s1, Ok (Some (take 450 StitchExample.b1))))
    /\ ParquetDataSet.seek Z StitchExample.files 600 s1 = Some (s2, Ok tt)
    /\ forall fuel chunk_size,
         ParquetDataSet.read Z StitchExample.files fuel chunk_size s2 = None.
Proof.
  apply (parquet_seek_past_the_held_batch_hangs Z StitchExample.files
           "vectors.parquet" "emb" StitchExample.pq StitchExample.b1
           [StitchExample.b2; StitchExample.b3] StitchExample.constructed 450 600).
  - reflexivity.
  - reflexivity.
  - reflexivity.
  - vm_compute. split; [reflexivity|discriminate].
  - vm_compute. split; reflexivity.
Defined.

(** X12: a Parquet reader that holds a batch, with its cursor before
    the first row of that batch (after a [seek] backwards): a [read]
    whose range ends inside the batch returns the rows from the start
    of the batch to the end of the range, fewer than [chunk_size], and
    moves the cursor to the end of the range; the rows between the
    cursor and the batch are left out without an error. *)
Theorem parquet_read_from_before_the_window_skips_rows (V : Type)
    (fs : gmap string (ParquetDataSet.ParquetFile V))
    (f : ParquetDataSet.ParquetFile V) (s : ParquetDataSet.t V)
    (chunk_size : Z) (fuel : nat) :
  parquet_inv fs f s -> ParquetDataSet.file V s = Some f ->
  ParquetDataSet.prev_batch V s <> [] ->
  ParquetDataSet.current V s < ParquetDataSet.file_batch_start V s ->
  ParquetDataSet.file_batch_start V s <= ParquetDataSet.current V s + chunk_size
    <= ParquetDataSet.file_batch_end V s ->
  (0 < fuel)%nat ->
  let first := ParquetDataSet.file_batch_start V s in
  let stop := ParquetDataSet.current V s + chunk_size in
  exists s',
    ParquetDataSet.read V fs fuel chunk_size s
    = Some (s', Ok (Some (rows_range (rows_of f (ParquetDataSet.column V s)) first stop)))
    /\ ParquetDataSet.current V s' = stop
    /\ len (rows_range (rows_of f (ParquetDataSet.column V s)) first stop) < chunk_size.
Proof.
  intros (Hcons & Hinv) Hf Hp Hcur Hend Hfuel first stop.
  destruct Hinv as [(Hnone & _)|(_ & [(_ & Hu & _)|Hh])]; [congruence|contradiction|].
  destruct Hh as (pre & cur & rest & Hb & Hne & Hit & Hprev & Hws & Hwe).
  destruct Hcons as (Hall & Hn).
  set (rows := rows_of f (ParquetDataSet.column V s)) in *.
  assert (rows = concat pre ++ cur ++ concat rest) as Hrows.
  { unfold rows, rows_of. rewrite Hb, concat_app. reflexivity. }
  assert (len rows = len (concat pre) + len cur + len (concat rest)) as Hlen.
  { rewrite Hrows, !len_app. lia. }
  pose proof (len_nonneg (concat rest)) as Hrest.
  pose proof (len_nonneg (concat pre)) as Hpre.
  assert (rows_range rows first stop = rows_range cur 0 (stop - first)) as Hrange.
  { assert (0 <= 0 <= stop - first) as H0 by (unfold first, stop; lia).
    assert (stop - first <= len cur) as H1 by (unfold first, stop; lia).
    rewrite <- (rows_range_middle (concat pre) cur (concat rest) 0 (stop - first) H0 H1).
    rewrite Hrows. f_equal; unfold first; lia. }
  destruct fuel as [|fuel]; [lia|].
  rewrite (parquet_read_loaded fs f s chunk_size (S fuel) Hf) by lia.
  rewrite Z.min_l by lia. fold stop.
  destruct s as [p fl col c it prev ws we]. cbn in *. subst fl it prev ws we.
  assert (ParquetDataSet._extract_vectors V (S fuel) c stop
            (ParquetDataSet.mk V p (Some f) col c (Some rest) cur
               (len (concat pre)) (len (concat pre) + len cur))
          = Some (ParquetDataSet.mk V p (Some f) col c (Some rest) cur
                    (len (concat pre)) (len (concat pre) + len cur),
                  Ok (rows_range cur 0 (stop - first)))) as Hex.
  { unfold ParquetDataSet._extract_vectors.
    cbn [ParquetDataSet._extract_vectors_loop].
    rewrite (bind_ok _ _ _ _ _ (get_batch_held _ _ _ _ _ _ _ _ Hne)).
    rewrite (truthy_nonempty _ Hne). cbn [negb]. rewrite bind_get.
    cbn [ParquetDataSet.file_batch_end ParquetDataSet.file_batch_start].
    destruct (Z.gtb_spec c (len (concat pre) + len cur)); [lia|].
    destruct (Z.ltb_spec c (len (concat pre))); [|lia].
    destruct (Z.leb_spec stop (len (concat pre) + len cur)); [|unfold stop in *; lia].
    rewrite bind_modify. unfold ret.
    replace (len cur - (len (concat pre) + len cur - len (concat pre))) with 0 by lia.
    replace (len cur - (len (concat pre) + len cur - stop)) with (stop - first)
      by (unfold first; lia).
    rewrite py_slice_in_range by (unfold first, stop in *; lia). reflexivity. }
  rewrite (bind_ok _ _ _ _ _ Hex), bind_modify. unfold ret.
  eexists. split; [rewrite Hrange; reflexivity|]. split; [reflexivity|].
  rewrite Hrange, rows_range_length by (unfold first, stop in *; lia).
  unfold first, stop. lia.
Qed.

Lemma parquet_read_from_before_the_window_skips_rows_witness :
  exists s',
    ParquetDataSet.read Z StitchExample.files 1 450 StitchExample.at_100
    = Some (s', Ok (Some (seqZ 500 50)))
    /\ ParquetDataSet.current Z s' = 550.
Proof.
  assert (E : StitchExample.at_100
              = ParquetDataSet.mk Z "vectors.parquet" (Some StitchExample.pq) "emb" 100
                  (Some [StitchExample.b3]) StitchExample.b2 500 1000)
    by (vm_compute; reflexivity).
  destruct (parquet_read_from_before_the_window_skips_rows Z StitchExample.files
              StitchExample.pq StitchExample.at_100 450 1) as (s' & Hr & Hc & _).
  - rewrite E. split.
    + split; [repeat constructor; discriminate|vm_compute; reflexivity].
    + right. split; [reflexivity|]. right.
      exists [StitchExample.b1], StitchExample.b2, [StitchExample.b3].
      repeat split; try reflexivity. discriminate.
  - rewrite E. reflexivity.
  - rewrite E. discriminate.
  - rewrite E. cbn. lia.
  - rewrite E. cbn. lia.
  - lia.
  - exists s'. rewrite Hr, Hc. rewrite E. split; [|reflexivity].
    vm_compute. reflexivity.
Defined.

(** ** reset, then read *)

(** X10: after [reset()], [read(k)] returns the first [k] rows (all
    rows if there are fewer, [None] if there are none), whatever the
    reader did before: for an HDF5 reader in any state; for a BigANN
    reader that has its file open at any byte with any cursor; for a
    Parquet reader with any cursor, held batch and window. *)
Theorem reset_then_read_starts_at_the_first_row :
  (forall (V : Type) fs (s : HDF5DataSet.t V) d k,
      hdf5_rows fs s d -> 0 <= k ->
      exists s1 s2,
        HDF5DataSet.reset V s = Some (s1, Ok tt)
        /\ HDF5DataSet.read V fs k s1
           = Some (s2, Ok (if 0 >=? len d then None
                           else Some (rows_range d 0 (Z.min k (len d))))))
  /\ (forall fs bytes (s : BigANNVectorDataSet.t) k,
      well_formed (BigANNVectorDataSet.dataset_path s) bytes ->
      bigann_opened bytes s -> 0 <= k ->
      let r := reader_for (extension (BigANNVectorDataSet.dataset_path s)) in
      let n := header_num_points bytes in
      exists s1 s2,
        BigANNVectorDataSet.reset s = Some (s1, Ok tt)
        /\ BigANNVectorDataSet.read fs k s1
           = Some (s2, Ok (if 0 >=? n then None
                           else Some (Array (vectors_range r bytes (header_dimension bytes)
                                               0 (Z.min k n))))))
  /\ (forall (V : Type) fs f (s : ParquetDataSet.t V) k fuel,
      ParquetDataSet.pq_ParquetFile V fs (ParquetDataSet.dataset_path V s) = Ok f ->
      consistent f (ParquetDataSet.column V s) -> 0 <= k ->
      (length (batches_of f (ParquetDataSet.column V s)) < fuel)%nat ->
      let n := ParquetDataSet.metadata_num_rows V f in
      exists s1 s2,
        ParquetDataSet.reset V s = Some (s1, Ok tt)
        /\ ParquetDataSet.read V fs fuel k s1
           = Some (s2, Ok (if 0 >=? n then None
                           else Some (rows_range (rows_of f (ParquetDataSet.column V s))
                                        0 (Z.min k n))))).
Proof.
  split; [|split].
  - intros V fs s d k Hd Hk. eexists. eexists. split; [reflexivity|].
    assert (hdf5_rows fs (HDF5DataSet.set_current V DataSet.BEGINNING s) d) as Hd'
      by exact Hd.
    rewrite (hdf5_read_spec fs _ d k Hd') by (cbn; unfold DataSet.BEGINNING; lia).
    cbn [HDF5DataSet.current HDF5DataSet.set_current]. unfold DataSet.BEGINNING.
    rewrite Z.add_0_l. reflexivity.
  - intros fs bytes s k Hwf ((pos & Hf) & Hn & Hd & Hr) Hk r n.
    destruct s as [p f c np d b rd]. bigann_attrs. subst f np d rd. fold r.
    set (dim := header_dimension bytes).
    exists (BigANNVectorDataSet.mk p (Some (mkFileObj bytes 8)) 0 n dim b (Some (Some r))).
    assert (BigANNVectorDataSet.reset
              (BigANNVectorDataSet.mk p (Some (mkFileObj bytes pos)) c n dim b (Some (Some r)))
            = Some (BigANNVectorDataSet.mk p (Some (mkFileObj bytes 8)) 0 n dim b
                      (Some (Some r)), Ok tt)) as Hreset.
    { unfold BigANNVectorDataSet.reset. rewrite bind_get. bigann_attrs.
      unfold BigANNVectorDataSet.DATA_SET_HEADER_LENGTH.
      erewrite bind_ok by (apply with_file_eq, f_seek_ok; unfold MAX_OFFSET; lia). reflexivity. }
    destruct Hwf as (_ & H8 & _ & Hlen). fold n dim in Hlen.
    rewrite <- value_size_reader_for in Hlen. fold r in Hlen.
    pose proof (value_size_pos r) as Hvs.
    pose proof (int_from_bytes_little_nonneg (take 4 (drop 4 bytes))) as Hdim.
    fold (header_dimension bytes) in Hdim. fold dim in Hdim.
    pose proof (int_from_bytes_little_nonneg (take 4 bytes)) as Hnp.
    fold (header_num_points bytes) in Hnp. fold n in Hnp.
    destruct (Z.geb_spec 0 n) as [Hzero|Hpos].
    + eexists. split; [exact Hreset|].
      set (s1 := BigANNVectorDataSet.mk p _ 0 n dim b _).
      assert (BigANNVectorDataSet.file s1 <> None) as Hf by discriminate.
      unfold BigANNVectorDataSet.read.
      rewrite (bind_ok _ _ _ _ _ (load_opened fs s1 Hf)), bind_get.
      rewrite (bind_ok _ _ _ _ _ (bigann_size_opened fs s1 Hf)).
      cbn [BigANNVectorDataSet.current BigANNVectorDataSet.num_points s1].
      destruct (Z.geb_spec 0 n); [reflexivity|lia].
    + eexists. split; [exact Hreset|].
      assert (8 + Z.of_nat (Z.to_nat (Z.min (0 + k) n - 0)) * (dim * value_size r)
              <= len bytes) as Hfit.
      { rewrite Z2Nat.id by lia.
        assert (Z.min (0 + k) n - 0 <= n) as Hm by lia.
        assert (0 <= dim * value_size r) as Hrow by nia.
        pose proof (Z.mul_le_mono_nonneg_r _ _ _ Hrow Hm). nia. }
      rewrite (bigann_read_opened fs r bytes p 8 0 n dim b k Hdim ltac:(lia) Hpos Hfit).
      replace (vectors_at r bytes dim 8 (Z.to_nat (Z.min (0 + k) n - 0)))
        with (vectors_range r bytes dim 0 (Z.min k n)); [reflexivity|].
      unfold vectors_range. f_equal; lia.
  - intros V fs f s k fuel Hopen Hcons Hk Hfuel n.
    set (s1 := ParquetDataSet.set_file V None (ParquetDataSet.set_current V DataSet.BEGINNING s)).
    assert (parquet_inv fs f s1) as Hinv.
    { split; [exact Hcons|]. left. split; [reflexivity|exact Hopen]. }
    destruct (parquet_read_spec fs f s1 k fuel Hinv) as (s2 & Hr & _);
      [now left|cbn; unfold DataSet.BEGINNING; lia|exact Hk|exact Hfuel|].
    exists s1, s2. split; [reflexivity|]. rewrite Hr. reflexivity.
Qed.

Lemma reset_then_read_starts_at_the_first_row_witness :
  exists s1 s2,
    ParquetDataSet.reset Z StitchExample.at_600 = Some (s1, Ok tt)
    /\ ParquetDataSet.read Z StitchExample.files 4 2 s1 = Some (s2, Ok (Some [0; 1])).
Proof.
  destruct (proj2 (proj2 reset_then_read_starts_at_the_first_row) Z StitchExample.files
              StitchExample.pq StitchExample.at_600 2 4%nat) as (s1 & s2 & Hreset & Hread).
  - vm_compute. reflexivity.
  - split; [vm_compute; repeat constructor; discriminate|vm_compute; reflexivity].
  - lia.
  - vm_compute. lia.
  - exists s1, s2. split; [exact Hreset|]. rewrite Hread. vm_compute. reflexivity.
Defined.

(** ** The BigANN reader: file position, errors and values *)

(** X14: in every state a BigANN reader of a well-formed file reaches
    from its construction by [read] (with a chunk size that is not
    negative), [seek], [size] and [reset] calls, the cursor is between 0
    and [num_points], and once the file is open its position is the
    byte [DATA_SET_HEADER_LENGTH + dimension * bytes_per_num * current],
    within the file. *)
Theorem bigann_file_position_follows_the_cursor (fs : gmap string (list byte))
    (path : string) (bytes : list byte) (calls : list call) :
  well_formed path bytes -> fs !! path = Some bytes ->
  Forall valid_call calls ->
  let s := foldl (fun s c => bigann_call fs c s) (BigANNVectorDataSet.__init__ path) calls in
  0 <= BigANNVectorDataSet.current s <= header_num_points bytes
  /\ match BigANNVectorDataSet.file s with
     | None => BigANNVectorDataSet.current s = 0
     | Some f =>
         exists bytes_per_num,
           BigANNVectorDataSet.bytes_per_num s = Some bytes_per_num
           /\ BigANNVectorDataSet.num_points s = header_num_points bytes
           /\ content f = bytes
           /\ position f
              = BigANNVectorDataSet.DATA_SET_HEADER_LENGTH
                + BigANNVectorDataSet.dimension s * bytes_per_num
                  * BigANNVectorDataSet.current s
           /\ position f <= len bytes
     end.
Proof.
  intros Hwf Hfs Hcalls s.
  pose proof (bigann_inv_reachable fs path bytes calls Hwf Hfs Hcalls) as Hinv.
  fold s in Hinv. destruct Hinv as (Hwf' & Hcur & [(Hf & Hc & _)|Hld]).
  - split; [exact Hcur|]. now rewrite Hf.
  - split; [exact Hcur|]. destruct Hld as (Hf & Hn & Hd & Hb & _).
    rewrite Hf. eexists. split; [exact Hb|]. split; [exact Hn|].
    split; [reflexivity|]. cbn [position]. rewrite Hd.
    split; [reflexivity|].
    destruct Hwf' as (_ & _ & _ & Hlen). rewrite <- value_size_reader_for in Hlen.
    set (r := reader_for _) in *. pose proof (value_size_pos r) as Hvs.
    pose proof (int_from_bytes_little_nonneg (take 4 (drop 4 bytes))) as Hdim.
    fold (header_dimension bytes) in Hdim.
    unfold BigANNVectorDataSet.DATA_SET_HEADER_LENGTH.
    assert (0 <= header_dimension bytes * value_size r) as Hrow by nia.
    pose proof (Z.mul_le_mono_nonneg_l _ _ _ Hrow (proj2 Hcur)). lia.
Qed.

Lemma bigann_file_position_follows_the_cursor_witness :
  BigANNVectorDataSet.current
    (foldl (fun s c => bigann_call FbinExample.files c s)
       (BigANNVectorDataSet.__init__ "vectors.fbin") [Read 1; Reset; Seek 1]) = 1
  /\ (position <$> BigANNVectorDataSet.file
        (foldl (fun s c => bigann_call FbinExample.files c s)
           (BigANNVectorDataSet.__init__ "vectors.fbin") [Read 1; Reset; Seek 1]))
     = Some 16.
Proof.
  pose proof (bigann_file_position_follows_the_cursor FbinExample.files
                "vectors.fbin" FbinExample.fbin_bytes [Read 1; Reset; Seek 1]) as H.
  cbv zeta in H.
  set (s := foldl _ _ _) in *.
  assert (BigANNVectorDataSet.current s = 1) as Hc by reflexivity.
  split; [exact Hc|].
  destruct H as (_ & H).
  - split; [discriminate|]. split; [split; vm_compute; discriminate|].
    split; [right; reflexivity|reflexivity].
  - reflexivity.
  - repeat constructor. cbn. lia.
  - destruct (BigANNVectorDataSet.file s) as [f|] eqn:Hf.
    + destruct H as (b & Hb & _ & _ & Hp & _). cbn. rewrite Hp.
      assert (BigANNVectorDataSet.bytes_per_num s = Some 4) as Hb4 by reflexivity.
      rewrite Hb4 in Hb. injection Hb as <-. rewrite Hc. reflexivity.
    + rewrite Hc in H. discriminate.
Defined.

(** X15: the format error of a malformed BigANN file is raised by the
    first access only.  [_init_internal_params] sets [self.file] before
    it checks anything, so the reader the failure leaves has its file
    open, [_load] does nothing any more, and [size()] returns without
    an error: 0 if the file has fewer than 8 bytes, else the number of
    points its header declares. *)
Theorem bigann_format_error_is_raised_once (fs : gmap string (list byte))
    (path : string) (bytes : list byte) :
  path <> EmptyString -> fs !! path = Some bytes ->
  len bytes < 8 \/ ~ supported (extension path)
  \/ len bytes - 8
     <> header_num_points bytes * header_dimension bytes
        * bytes_per_value (extension path) ->
  exists s1 e,
    BigANNVectorDataSet.size fs (BigANNVectorDataSet.__init__ path) = Some (s1, Raise e)
    /\ is_format_error e = true
    /\ BigANNVectorDataSet.file s1 <> None
    /\ BigANNVectorDataSet._load fs s1 = Some (s1, Ok tt)
    /\ BigANNVectorDataSet.size fs s1
       = Some (s1, Ok (if len bytes <? 8 then 0 else header_num_points bytes)).
Proof.
  intros Hp Hfs Hm.
  assert (forall s1 e,
            BigANNVectorDataSet._load fs (BigANNVectorDataSet.__init__ path)
              = Some (s1, Raise e) ->
            is_format_error e = true ->
            BigANNVectorDataSet.file s1 <> None ->
            BigANNVectorDataSet.num_points s1
              = (if len bytes <? 8 then 0 else header_num_points bytes) ->
            exists s1 e,
              BigANNVectorDataSet.size fs (BigANNVectorDataSet.__init__ path)
                = Some (s1, Raise e)
              /\ is_format_error e = true
              /\ BigANNVectorDataSet.file s1 <> None
              /\ BigANNVectorDataSet._load fs s1 = Some (s1, Ok tt)
              /\ BigANNVectorDataSet.size fs s1
                 = Some (s1, Ok (if len bytes <? 8 then 0 else header_num_points bytes)))
    as Hfin.
  { intros s1 e Hl He Hf Hn. exists s1, e. split.
    - unfold BigANNVectorDataSet.size. now rewrite (bind_raise _ _ _ _ _ Hl).
    - split; [exact He|]. split; [exact Hf|]. split; [now apply load_opened|].
      rewrite <- Hn. now apply bigann_size_opened. }
  unfold BigANNVectorDataSet.__init__ in *.
  rewrite load_unopened,
    (bigann_init_eq fs _ _ _ _ _ _ _ bytes (py_open_existing fs _ _ Hp Hfs)) in Hfin.
  destruct (Z.ltb_spec (len bytes) 8) as [Hl|Hl].
  { eapply Hfin; [reflexivity|reflexivity|discriminate|reflexivity]. }
  cbv zeta in Hfin.
  destruct (get_data_size_cases path) as [(E & Hs & Hr)|[(E & Hs & Hr)|(E & msg & Hs)]];
    rewrite Hs in Hfin;
    [| |eapply Hfin; [reflexivity|reflexivity|discriminate|reflexivity]].
  all: assert (Hsup : supported (extension path)) by (rewrite E; unfold supported; auto).
  all: destruct Hm as [?|[?|Hne]]; [lia|contradiction|].
  all: rewrite E in Hne.
  all: try change (bytes_per_value "u8bin") with 1 in Hne.
  all: try change (bytes_per_value "fbin") with 4 in Hne.
  all: match type of Hfin with context [negb (?a =? ?b)] =>
         destruct (Z.eqb_spec a b) as [?|_]; [contradiction|] end.
  all: cbn [negb] in Hfin.
  all: eapply Hfin; [reflexivity|reflexivity|discriminate|reflexivity].
Qed.

Lemma bigann_format_error_is_raised_once_witness :
  exists s1 e,
    BigANNVectorDataSet.size FbinExample.files
      (BigANNVectorDataSet.__init__ "truncated.fbin") = Some (s1, Raise e)
    /\ is_format_error e = true
    /\ BigANNVectorDataSet.size FbinExample.files s1 = Some (s1, Ok 2).
Proof.
  destruct (bigann_format_error_is_raised_once FbinExample.files "truncated.fbin"
              (take 23 FbinExample.fbin_bytes))
    as (s1 & e & H1 & He & _ & _ & H2).
  - discriminate.
  - reflexivity.
  - right; right. vm_compute. discriminate.
  - exists s1, e. split; [exact H1|]. split; [exact He|]. exact H2.
Defined.

(** X16: [_get_data_size] and [_value_reader] agree for every file
    name: either they return a number of bytes and a reader that takes
    exactly that many bytes from the file at each call, or both raise
    the [InvalidExtensionException] of [_get_extension]; neither ever
    falls through to return [None]. *)
Theorem value_size_and_value_reader_agree (file_name : string) :
  (exists n r,
      BigANNVectorDataSet._get_data_size file_name = Ok (Some n)
      /\ BigANNVectorDataSet._value_reader file_name = Ok (Some r)
      /\ 0 < n
      /\ forall bytes pos,
           0 <= pos -> pos + n <= len bytes ->
           exists v,
             BigANNVectorDataSet.call_reader r (mkFileObj bytes pos)
             = Some (mkFileObj bytes (pos + n), Ok v))
  \/ (exists msg,
        BigANNVectorDataSet._get_data_size file_name
          = Raise (InvalidExtensionException msg)
        /\ BigANNVectorDataSet._value_reader file_name
          = Raise (InvalidExtensionException msg)
        /\ BigANNVectorDataSet._get_extension file_name
          = Raise (InvalidExtensionException msg)).
Proof.
  unfold BigANNVectorDataSet._get_data_size, BigANNVectorDataSet._value_reader.
  destruct (get_extension_cases file_name) as [[E ->]|[[E ->]|[E [msg ->]]]].
  - left. exists 1, BigANNVectorDataSet.u8_reader.
    split; [reflexivity|]. split; [reflexivity|]. split; [lia|].
    intros bytes pos Hp Hl. eexists.
    apply (call_reader_ok BigANNVectorDataSet.u8_reader bytes pos Hp Hl).
  - left. exists 4, BigANNVectorDataSet.f32_reader.
    split; [reflexivity|]. split; [reflexivity|]. split; [lia|].
    intros bytes pos Hp Hl. eexists.
    apply (call_reader_ok BigANNVectorDataSet.f32_reader bytes pos Hp Hl).
  - right. eauto.
Qed.

Lemma value_size_and_value_reader_agree_witness :
  exists n r,
    BigANNVectorDataSet._get_data_size "vectors.fbin" = Ok (Some n)
    /\ BigANNVectorDataSet._value_reader "vectors.fbin" = Ok (Some r)
    /\ 0 < n.
Proof.
  destruct (value_size_and_value_reader_agree "vectors.fbin")
    as [(n & r & Hn & Hr & Hpos & _)|(msg & H & _)].
  - exists n, r. auto.
  - discriminate.
Defined.

(** ** The extension of a file name *)

Lemma split_dot_nonempty s : split_dot s <> [].
Proof.
  destruct s as [|c rest]; cbn; [discriminate|].
  destruct (Ascii.eqb _ _); [discriminate|]. now destruct (split_dot rest).
Qed.

Lemma split_dot_no_dot s : has_dot s = false -> split_dot s = [s].
Proof.
  induction s as [|c rest IH]; cbn; [reflexivity|].
  destruct (Ascii.eqb _ _); [discriminate|]. cbn. intros H. now rewrite (IH H).
Qed.

(** [(stem + "." + rest).split(".")] is [stem.split(".") + rest.split(".")]. *)
Lemma split_dot_app stem rest :
  split_dot (stem +:+ "." +:+ rest) = split_dot stem ++ split_dot rest.
Proof.
  induction stem as [|c stem IH]; [reflexivity|].
  change (String c stem +:+ "." +:+ rest) with (String c (stem +:+ "." +:+ rest)).
  cbn [split_dot]. rewrite IH. destruct (Ascii.eqb _ _); [reflexivity|].
  pose proof (split_dot_nonempty stem). now destruct (split_dot stem).
Qed.

Lemma extension_after_dot stem ext :
  has_dot ext = false -> extension (stem +:+ "." +:+ ext) = ext.
Proof.
  intros H. unfold extension.
  now rewrite split_dot_app, (split_dot_no_dot _ H), last_snoc.
Qed.

Lemma get_extension_supported file_name ext :
  extension file_name = ext ->
  (BigANNVectorDataSet._get_extension file_name = Ok ext
   <-> ext = "fbin" \/ ext = "u8bin")
  /\ (ext <> "fbin" -> ext <> "u8bin" ->
      exists msg,
        BigANNVectorDataSet._get_extension file_name
        = Raise (InvalidExtensionException msg)).
Proof.
  intros <-.
  destruct (get_extension_cases file_name) as [[E H]|[[E H]|[E [msg H]]]]; rewrite H.
  - rewrite E. split; [split; auto|]. intros _ Hne. now destruct Hne.
  - rewrite E. split; [split; auto|]. intros Hne. now destruct Hne.
  - split; [split|eauto].
    + discriminate.
    + intros [H1|H1]; destruct E; unfold supported; auto.
Qed.

(** X17: [_get_extension] takes the text after the last dot of the
    file name, and the whole name if it has no dot: for [ext] without a
    dot, both [stem + "." + ext] and [ext] itself are accepted exactly
    when [ext] is "fbin" or "u8bin", as written, and refused with an
    [InvalidExtensionException] otherwise. *)
Theorem extension_is_the_text_after_the_last_dot (stem ext : string) :
  has_dot ext = false ->
  (BigANNVectorDataSet._get_extension (stem +:+ "." +:+ ext) = Ok ext
   <-> ext = "fbin" \/ ext = "u8bin")
  /\ (BigANNVectorDataSet._get_extension ext = Ok ext
      <-> ext = "fbin" \/ ext = "u8bin")
  /\ (ext <> "fbin" -> ext <> "u8bin" ->
      exists msg,
        BigANNVectorDataSet._get_extension (stem +:+ "." +:+ ext)
        = Raise (InvalidExtensionException msg)).
Proof.
  intros Hdot.
  pose proof (get_extension_supported _ _ (extension_after_dot stem ext Hdot)) as (H1 & H2).
  assert (extension ext = ext) as Hself.
  { unfold extension. now rewrite (split_dot_no_dot _ Hdot). }
  pose proof (get_extension_supported _ _ Hself) as (H3 & _).
  auto.
Qed.

Lemma extension_is_the_text_after_the_last_dot_witness :
  BigANNVectorDataSet._get_extension "base.1M.fbin.u8bin" = Ok "u8bin"
  /\ BigANNVectorDataSet._get_extension "fbin" = Ok "fbin"
  /\ exists msg,
       BigANNVectorDataSet._get_extension "vectors.fbin.gz"
       = Raise (InvalidExtensionException msg).
Proof.
  split; [|split].
  - apply (proj1 (extension_is_the_text_after_the_last_dot "base.1M.fbin" "u8bin" eq_refl)).
    now right.
  - apply (proj1 (proj2 (extension_is_the_text_after_the_last_dot EmptyString "fbin" eq_refl))).
    now left.
  - apply (proj2 (proj2 (extension_is_the_text_after_the_last_dot "vectors.fbin" "gz" eq_refl)));
      discriminate.
Defined.

(** ** The shape of what the BigANN reader returns *)

Lemma values_at_length r bytes pos k : length (values_at r bytes pos k) = k.
Proof. revert pos. induction k as [|k IH]; intros pos; cbn; [reflexivity|]. now rewrite IH. Qed.

(** The trailing axes of one decoded value: none for a float, one of
    length one for the tuple the fbin reader returns. *)
Lemma shape_decode_value r bs :
  shape (to_ndarray (decode_value r bs))
  = match r with
    | BigANNVectorDataSet.u8_reader => []
    | BigANNVectorDataSet.f32_reader => [1]
    end.
Proof. now destruct r. Qed.

Lemma shape_vectors_range r bytes dim a b :
  a < b -> 0 < dim ->
  shape (Array (vectors_range r bytes dim a b))
  = [b - a; dim] ++ match r with
                    | BigANNVectorDataSet.u8_reader => []
                    | BigANNVectorDataSet.f32_reader => [1]
                    end.
Proof.
  intros Hab Hdim. cbn [shape].
  rewrite (vectors_range_length r bytes dim a b) by lia.
  unfold vectors_range.
  destruct (Z.to_nat (b - a)) as [|k] eqn:Hk; [lia|].
  cbn [vectors_at]. unfold np_asarray. cbn [shape].
  unfold len at 1. rewrite length_map, values_at_length, Z2Nat.id by lia.
  destruct (Z.to_nat dim) as [|d] eqn:Hd; [lia|].
  cbn [values_at List.map]. now rewrite shape_decode_value.
Qed.

(** X18: a [read] of a BigANN reader that returns vectors returns an
    array of shape [(rows, dimension)] for a u8bin file and
    [(rows, dimension, 1)] for an fbin file, where [rows] is
    [min(chunk_size, num_points - current)]. *)
Theorem bigann_read_shape (fs : gmap string (list byte)) (bytes : list byte)
    (s : BigANNVectorDataSet.t) (chunk_size : Z) :
  bigann_inv fs bytes s -> 0 < chunk_size ->
  BigANNVectorDataSet.current s < header_num_points bytes ->
  0 < header_dimension bytes ->
  exists s' a,
    BigANNVectorDataSet.read fs chunk_size s = Some (s', Ok (Some a))
    /\ shape a
       = [Z.min chunk_size (header_num_points bytes - BigANNVectorDataSet.current s);
          header_dimension bytes]
         ++ match reader_for (extension (BigANNVectorDataSet.dataset_path s)) with
            | BigANNVectorDataSet.u8_reader => []
            | BigANNVectorDataSet.f32_reader => [1]
            end.
Proof.
  intros Hinv Hchunk Hcur Hdim.
  destruct (bigann_read_spec fs bytes s chunk_size Hinv ltac:(lia)) as (s' & Hr & _).
  destruct (Z.geb_spec (BigANNVectorDataSet.current s) (header_num_points bytes)); [lia|].
  do 2 eexists. split; [exact Hr|].
  rewrite shape_vectors_range by lia. do 2 f_equal. lia.
Qed.

Lemma bigann_read_shape_witness :
  (exists s' a,
      BigANNVectorDataSet.read FbinExample.files 1
        (BigANNVectorDataSet.__init__ "vectors.fbin") = Some (s', Ok (Some a))
      /\ shape a = [1; 2; 1])
  /\ (exists s' a,
      BigANNVectorDataSet.read FbinExample.files 5
        (BigANNVectorDataSet.__init__ "vectors.u8bin") = Some (s', Ok (Some a))
      /\ shape a = [2; 2]).
Proof.
  split.
  - apply (bigann_read_shape FbinExample.files FbinExample.fbin_bytes
             (BigANNVectorDataSet.__init__ "vectors.fbin") 1).
    + apply (bigann_inv_reachable FbinExample.files "vectors.fbin"
               FbinExample.fbin_bytes []); [|reflexivity|constructor].
      split; [discriminate|]. split; [split; vm_compute; discriminate|].
      split; [right; reflexivity|reflexivity].
    + lia.
    + vm_compute. reflexivity.
    + vm_compute. reflexivity.
  - apply (bigann_read_shape FbinExample.files FbinExample.u8bin_bytes
             (BigANNVectorDataSet.__init__ "vectors.u8bin") 5).
    + apply (bigann_inv_reachable FbinExample.files "vectors.u8bin"
               FbinExample.u8bin_bytes []); [|reflexivity|constructor].
      split; [discriminate|]. split; [split; vm_compute; discriminate|].
      split; [left; reflexivity|reflexivity].
    + lia.
    + vm_compute. reflexivity.
    + vm_compute. reflexivity.
Defined.

(** ** A negative chunk size *)

(** X19: [read] of a BigANN reader with a negative chunk size, before
    the end of the data, raises nothing: it returns an empty array and
    moves the cursor back by that amount, while the file stays where it
    is.  The next [read(1)] returns the vector at the old cursor, not
    the one at the new cursor. *)
Theorem bigann_read_negative_chunk_moves_only_the_cursor
    (fs : gmap string (list byte)) (bytes : list byte)
    (s : BigANNVectorDataSet.t) (chunk_size : Z) :
  bigann_inv fs bytes s -> chunk_size < 0 ->
  BigANNVectorDataSet.current s < header_num_points bytes ->
  let r := reader_for (extension (BigANNVectorDataSet.dataset_path s)) in
  let cur := BigANNVectorDataSet.current s in
  exists s1 s2,
    BigANNVectorDataSet.read fs chunk_size s = Some (s1, Ok (Some (Array [])))
    /\ BigANNVectorDataSet.current s1 = cur + chunk_size
    /\ BigANNVectorDataSet.read fs 1 s1
       = Some (s2, Ok (Some (Array (vectors_range r bytes (header_dimension bytes)
                                      cur (cur + 1)))))
    /\ BigANNVectorDataSet.current s2 = cur + chunk_size + 1.
Proof.
  intros Hinv Hchunk Hcur r cur.
  destruct (bigann_load_spec fs bytes s Hinv) as (s0 & Hl & Hld & Hc0 & Hp0).
  rewrite (bigann_read_after_load fs s s0 chunk_size Hl).
  destruct Hinv as ((_ & H8 & _ & Hlen) & Hcur0 & _).
  rewrite <- value_size_reader_for in Hlen. fold r in Hlen.
  destruct s0 as [p f c n d b rd]. unfold bigann_loaded in Hld. bigann_attrs.
  subst p c. fold r cur in Hld. destruct Hld as (-> & -> & -> & -> & ->).
  set (n := header_num_points bytes) in *. set (dim := header_dimension bytes) in *.
  pose proof (value_size_pos r) as Hvs.
  pose proof (int_from_bytes_little_nonneg (take 4 (drop 4 bytes))) as Hdim.
  fold (header_dimension bytes) in Hdim. fold dim in Hdim.
  fold cur in Hcur, Hcur0.
  assert (0 <= dim * value_size r) as Hrow by nia.
  pose proof (Z.mul_le_mono_nonneg_l _ _ _ Hrow (proj2 Hcur0)) as Hfit.
  assert (cur + 1 <= n) as Hnext by lia.
  pose proof (Z.mul_le_mono_nonneg_l _ _ _ Hrow Hnext) as Hfit1.
  set (pos := 8 + dim * value_size r * cur) in *.
  assert (pos + Z.of_nat (Z.to_nat (Z.min (cur + chunk_size) n - cur))
                * (dim * value_size r) <= len bytes) as Hk0.
  { replace (Z.to_nat (Z.min (cur + chunk_size) n - cur)) with 0%nat by lia.
    unfold pos. lia. }
  rewrite (bigann_read_opened fs r bytes _ pos cur n dim _ chunk_size Hdim
             ltac:(unfold pos; lia) Hcur Hk0).
  replace (Z.to_nat (Z.min (cur + chunk_size) n - cur)) with 0%nat by lia.
  replace (Z.min (cur + chunk_size) n) with (cur + chunk_size) by lia.
  cbn [vectors_at Z.of_nat]. rewrite Z.mul_0_l, Z.add_0_r.
  do 2 eexists. split; [reflexivity|]. split; [reflexivity|].
  assert (pos + Z.of_nat (Z.to_nat (Z.min (cur + chunk_size + 1) n - (cur + chunk_size)))
                * (dim * value_size r) <= len bytes) as Hk1.
  { replace (Z.to_nat (Z.min (cur + chunk_size + 1) n - (cur + chunk_size)))
      with 1%nat by lia.
    unfold pos. lia. }
  rewrite (bigann_read_opened fs r bytes _ pos (cur + chunk_size) n dim _ 1 Hdim
             ltac:(unfold pos; lia) ltac:(lia) Hk1).
  replace (Z.to_nat (Z.min (cur + chunk_size + 1) n - (cur + chunk_size)))
    with 1%nat by lia.
  replace (Z.min (cur + chunk_size + 1) n) with (cur + chunk_size + 1) by lia.
  unfold vectors_range. fold pos.
  replace (Z.to_nat (cur + 1 - cur)) with 1%nat by lia.
  split; reflexivity.
Qed.

Lemma bigann_read_negative_chunk_moves_only_the_cursor_witness :
  exists s1 s2,
    BigANNVectorDataSet.read FbinExample.files (-1)
      (state_after (BigANNVectorDataSet.seek FbinExample.files 1)
         (BigANNVectorDataSet.__init__ "vectors.u8bin"))
      = Some (s1, Ok (Some (Array [])))
    /\ BigANNVectorDataSet.current s1 = 0
    /\ BigANNVectorDataSet.read FbinExample.files 1 s1
       = Some (s2, Ok (Some (Array [Array [FbinExample.f 3; FbinExample.f 4]])))
    /\ BigANNVectorDataSet.current s2 = 1.
Proof.
  apply (bigann_read_negative_chunk_moves_only_the_cursor FbinExample.files
           FbinExample.u8bin_bytes
           (state_after (BigANNVectorDataSet.seek FbinExample.files 1)
              (BigANNVectorDataSet.__init__ "vectors.u8bin")) (-1)).
  - apply (bigann_inv_reachable FbinExample.files "vectors.u8bin"
             FbinExample.u8bin_bytes [Seek 1]); [|reflexivity|repeat constructor].
    split; [discriminate|]. split; [split; vm_compute; discriminate|].
    split; [left; reflexivity|reflexivity].
  - lia.
  - vm_compute. reflexivity.
Defined.

(** ** The cursor under any run of calls *)

Section ParquetCursor.
Import ParquetDataSet.
Context {V : Type}.
Variable fs : gmap string (ParquetFile V).
Implicit Types (s : t V) (f : ParquetFile V).

Lemma same_reader_refl s : same_reader s s.
Proof. repeat split. Qed.

Lemma same_reader_trans s1 s2 s3 :
  same_reader s1 s2 -> same_reader s2 s3 -> same_reader s1 s3.
Proof.
  intros (H1 & H2 & H3 & H4) (H5 & H6 & H7 & H8).
  repeat split; congruence.
Qed.

Lemma same_reader_get_batch : preserves same_reader (get_batch V).
Proof.
  unfold get_batch, next_batch.
  preserves_steps (@same_reader_refl) (@same_reader_trans).
  - match goal with |- preserves _ (match ?x with _ => _ end) => destruct x as [[|? ?]|] end;
      preserves_steps (@same_reader_refl) (@same_reader_trans).
    apply preserves_modify. intros s. repeat split.
  - apply preserves_modify. intros s. repeat split.
  - apply preserves_modify. intros s. repeat split.
Qed.

(** The extraction loop leaves the path, the file, the column and the
    cursor as they are, however it ends. *)
Lemma same_reader_extract fuel : forall start_offset end_offset vectors,
  preserves same_reader (_extract_vectors_loop V fuel start_offset end_offset vectors).
Proof.
  induction fuel as [|fuel IH]; intros start_offset end_offset vectors.
  - intros s s' r H. discriminate.
  - cbn [_extract_vectors_loop].
    pose proof same_reader_get_batch as Hg.
    preserves_steps (@same_reader_refl) (@same_reader_trans).
    + apply IH.
    + apply preserves_modify. intros s. repeat split.
    + apply preserves_modify. intros s. repeat split.
    + apply IH.
Qed.

(** [read] on a loaded reader: the path, the column and the file stay,
    and the cursor stays or moves to the end of the range. *)
Lemma parquet_read_cursor f s s' r chunk_size fuel :
  file V s = Some f ->
  read V fs fuel chunk_size s = Some (s', r) ->
  dataset_path V s' = dataset_path V s /\ column V s' = column V s
  /\ file V s' = Some f
  /\ (current V s' = current V s
      \/ (current V s < metadata_num_rows V f
          /\ current V s'
             = Z.min (current V s + chunk_size) (metadata_num_rows V f))).
Proof.
  intros Hf H.
  destruct (Z.lt_ge_cases (current V s) (metadata_num_rows V f)) as [Hlt|Hge].
  - rewrite (parquet_read_loaded fs f s chunk_size fuel Hf Hlt) in H.
    apply bind_inv in H as [(s1 & vs & Hex & H)|(e & Hex & ->)].
    + apply same_reader_extract in Hex as (Hp1 & Hf1 & Hcol1 & Hc1).
      rewrite bind_modify in H. unfold ret in H. injection H as <- <-.
      split; [exact Hp1|]. split; [exact Hcol1|].
      split; [cbn; congruence|]. right. split; [exact Hlt|reflexivity].
    + apply same_reader_extract in Hex as (Hp1 & Hf1 & Hcol1 & Hc1).
      split; [exact Hp1|]. split; [exact Hcol1|].
      split; [congruence|]. now left.
  - unfold read in H.
    rewrite (bind_ok _ _ _ _ _ (parquet_load_loaded fs f s Hf)), bind_get in H.
    rewrite (bind_ok _ _ _ _ _ (parquet_size_loaded fs f s Hf)) in H.
    destruct (Z.geb_spec (current V s) (metadata_num_rows V f)); [|lia].
    unfold ret in H. injection H as <- <-. auto.
Qed.

End ParquetCursor.

Section ParquetCalls.
Import ParquetDataSet.
Context {V : Type}.
Variable fs : gmap string (ParquetFile V).
Variable fuel : nat.
Implicit Types (s : t V) (f : ParquetFile V).

Lemma parquet_cursor_inv_load path col f s :
  parquet_cursor_inv fs path col f s ->
  exists s1, _load V fs s = Some (s1, Ok tt) /\ file V s1 = Some f
    /\ current V s1 = current V s /\ parquet_cursor_inv fs path col f s1.
Proof.
  intros (Hp & Hc & Ho & Hf & Hcur). destruct Hf as [Hf|Hf].
  - unfold _load. rewrite bind_get, Hf. unfold lift at 1, bind at 1.
    rewrite Hp, Ho. run. eexists. split; [reflexivity|]. cbn.
    split; [reflexivity|]. split; [reflexivity|].
    unfold parquet_cursor_inv. cbn. rewrite Hp. auto 10.
  - exists s. split; [apply (parquet_load_loaded fs f s Hf)|].
    split; [exact Hf|]. split; [reflexivity|].
    unfold parquet_cursor_inv. auto 10.
Qed.

Lemma parquet_cursor_inv_call path col f c s :
  valid_call c -> parquet_cursor_inv fs path col f s ->
  parquet_cursor_inv fs path col f (run_call (Parquet_DataSet V fs fuel) c s).
Proof.
  intros Hc Hinv.
  destruct (parquet_cursor_inv_load path col f s Hinv)
    as (s1 & Hl & Hf1 & Hc1 & Hinv1).
  pose proof (parquet_size_loaded fs f s1 Hf1) as Hsz1.
  assert (size V fs s = Some (s1, Ok (metadata_num_rows V f))) as Hsz.
  { unfold size. rewrite (bind_ok _ _ _ _ _ Hl), bind_get, Hf1. reflexivity. }
  destruct c as [k|offset| |]; cbn [run_call DataSet.read DataSet.seek DataSet.size
                                     DataSet.reset Parquet_DataSet]; unfold state_after.
  - assert (read V fs fuel k s = read V fs fuel k s1) as ->.
    { unfold read. rewrite (bind_ok _ _ _ _ _ Hl).
      now rewrite (bind_ok _ _ _ _ _ (parquet_load_loaded fs f s1 Hf1)). }
    destruct (read V fs fuel k s1) as [[s' r]|] eqn:Hr; [|exact Hinv].
    apply (parquet_read_cursor fs f) in Hr as (Hp' & Hcol' & Hf' & Hcur');
      [|exact Hf1].
    destruct Hinv1 as (Hp1 & Hcol1 & Ho & _ & Hb).
    split; [congruence|]. split; [congruence|]. split; [exact Ho|].
    split; [now right|]. cbn in Hc. destruct Hcur' as [->|(Hlt & ->)]; lia.
  - rewrite (parquet_seek_cases V fs s s1 _ offset Hsz).
    destruct (Z.ltb_spec offset 0); [exact Hinv|].
    destruct (Z.geb_spec offset (metadata_num_rows V f)); [exact Hinv1|].
    destruct Hinv1 as (Hp1 & Hcol1 & Ho & _ & Hb).
    repeat split; auto; cbn; lia.
  - rewrite Hsz. exact Hinv1.
  - destruct Hinv as (Hp & Hcol & Ho & _ & Hb).
    repeat split; auto; cbn; unfold DataSet.BEGINNING; lia.
Qed.

End ParquetCalls.

Section HDF5Calls.
Import HDF5DataSet.
Context {V : Type}.
Variable fs : gmap string (gmap string (list V)).

Lemma hdf5_cursor_inv_call d c (s : t V) :
  valid_call c -> hdf5_rows fs s d /\ 0 <= current V s <= len d ->
  hdf5_rows fs (run_call (HDF5_DataSet V fs) c s) d
  /\ 0 <= current V (run_call (HDF5_DataSet V fs) c s) <= len d.
Proof.
  intros Hc (Hd & Hcur).
  pose proof (hdf5_size_spec fs s d Hd) as Hsz.
  destruct c as [k|offset| |]; cbn [run_call DataSet.read DataSet.seek DataSet.size
                                     DataSet.reset HDF5_DataSet]; unfold state_after.
  - cbn in Hc. rewrite (hdf5_read_spec fs s d k Hd (proj1 Hcur) Hc).
    split; [now left|]. cbn.
    destruct (Z.geb_spec (current V s) (len d)); lia.
  - rewrite (hdf5_seek_cases V fs s _ _ offset Hsz).
    destruct (Z.ltb_spec offset 0); [auto|].
    destruct (Z.geb_spec offset (len d)).
    + split; [now left|exact Hcur].
    + split; [now left|cbn; lia].
  - rewrite Hsz. split; [now left|exact Hcur].
  - cbn. split; [exact Hd|]. unfold DataSet.BEGINNING. pose proof (len_nonneg d). lia.
Qed.

End HDF5Calls.

(** X13: whatever [read] (with a chunk size that is not negative),
    [seek], [size] and [reset] calls are made, in any order and whether
    they return, raise or do not finish, the cursor of an HDF5 reader
    and that of a Parquet reader stay between 0 and the number of
    rows. *)
Theorem cursor_stays_within_the_data :
  (forall (V : Type) fs (s : HDF5DataSet.t V) d calls,
      hdf5_rows fs s d -> 0 <= HDF5DataSet.current V s <= len d ->
      Forall valid_call calls ->
      0 <= HDF5DataSet.current V
             (foldl (fun s c => run_call (HDF5_DataSet V fs) c s) s calls) <= len d)
  /\ (forall (V : Type) fs fuel path column f (s0 : ParquetDataSet.t V) calls,
      ParquetDataSet.__init__ V path (Some column) = Ok s0 ->
      fs !! path = Some f ->
      0 <= ParquetDataSet.metadata_num_rows V f ->
      Forall valid_call calls ->
      0 <= ParquetDataSet.current V
             (foldl (fun s c => run_call (Parquet_DataSet V fs fuel) c s) s0 calls)
        <= ParquetDataSet.metadata_num_rows V f).
Proof.
  split.
  - intros V fs s d calls Hd Hcur Hcalls.
    enough (hdf5_rows fs (foldl (fun s c => run_call (HDF5_DataSet V fs) c s) s calls) d
            /\ 0 <= HDF5DataSet.current V
                      (foldl (fun s c => run_call (HDF5_DataSet V fs) c s) s calls)
                 <= len d) as (_ & H) by exact H.
    revert s Hd Hcur. induction Hcalls as [|c calls Hc _ IH]; intros s Hd Hcur.
    + now split.
    + cbn [foldl].
      destruct (hdf5_cursor_inv_call fs d c s Hc (conj Hd Hcur)) as (Hd' & Hcur').
      now apply IH.
  - intros V fs fuel path column f s0 calls Hinit Hfs Hn Hcalls.
    unfold ParquetDataSet.__init__ in Hinit.
    destruct (String.eqb_spec path EmptyString) as [|Hp]; [discriminate|].
    assert (s0 = ParquetDataSet.mk V path None column DataSet.BEGINNING None [] 0 0)
      as -> by (destruct column; [discriminate|congruence]).
    enough (parquet_cursor_inv fs path column f
              (foldl (fun s c => run_call (Parquet_DataSet V fs fuel) c s)
                 (ParquetDataSet.mk V path None column DataSet.BEGINNING None [] 0 0)
                 calls)) as (_ & _ & _ & _ & H) by exact H.
    assert (parquet_cursor_inv fs path column f
              (ParquetDataSet.mk V path None column DataSet.BEGINNING None [] 0 0)) as H0.
    { repeat split; auto.
      - unfold ParquetDataSet.pq_ParquetFile. apply String.eqb_neq in Hp.
        now rewrite Hp, Hfs.
      - cbn. unfold DataSet.BEGINNING. lia. }
    revert H0. generalize (ParquetDataSet.mk V path None column DataSet.BEGINNING None [] 0 0).
    induction Hcalls as [|c calls Hc _ IH]; intros s Hs; [exact Hs|].
    cbn [foldl]. apply IH. now apply parquet_cursor_inv_call.
Qed.

Lemma cursor_stays_within_the_data_witness :
  0 <= ParquetDataSet.current Z
         (foldl (fun s c => run_call (Parquet_DataSet Z StitchExample.files 4) c s)
            StitchExample.constructed [Read 600; Seek 10; Read 2000; Reset; Seek 1299])
    <= 1300.
Proof.
  apply (proj2 cursor_stays_within_the_data Z StitchExample.files 4%nat
           "vectors.parquet" "emb" StitchExample.pq StitchExample.constructed
           [Read 600; Seek 10; Read 2000; Reset; Seek 1299]).
  - reflexivity.
  - reflexivity.
  - cbn. lia.
  - repeat constructor; cbn; lia.
Defined.

(** ** The value of a byte *)

(** X20: the value reader of a u8bin file takes one byte and returns
    the float that is equal to the unsigned value of that byte, a
    number from 0 to 255. *)
Theorem u8_reader_returns_the_value_of_the_byte (b : byte) (before after : list byte) :
  exists x,
    BigANNVectorDataSet.call_reader BigANNVectorDataSet.u8_reader
      (mkFileObj (before ++ b :: after) (len before))
    = Some (mkFileObj (before ++ b :: after) (len before + 1), Ok (PyFloat x))
    /\ float_value x = Some (Z.of_N (Byte.to_N b))
    /\ 0 <= Z.of_N (Byte.to_N b) < 256.
Proof.
  eexists. split; [|split].
  - rewrite (call_reader_ok BigANNVectorDataSet.u8_reader (before ++ b :: after) (len before)).
    + cbn [decode_value value_size]. unfold len.
      rewrite Nat2Z.id, drop_app_length. reflexivity.
    + apply len_nonneg.
    + rewrite len_app. unfold len. cbn [length value_size]. lia.
  - destruct b; vm_compute; reflexivity.
  - destruct b; vm_compute; split; congruence.
Qed.
